(** * CS-T680-CNSE: voters, polls, votes and the todo store

    A shallow embedding of the Go services of the repository and the
    properties of its specification that were checked against it.

    Conventions used throughout:
    - Go's [uint] identifiers are [N]; [int] is [Z]; [uint64] and
      [time.Duration] counters are [Z] with their wrap-around written out.
    - [time.Time] is an abstract instant [Time := Z]; every call of
      [time.Now()] becomes an explicit argument.
    - A Go [map] and a Redis key space addressed by [prefix ++ id] are both
      a [gmap] from the identifier; the Redis connection is taken to be
      healthy, so a missing key is the only reason a read fails.
    - A function that returns [error] returns an [option error] next to the
      new state; a function that returns [(T, error)] returns a [result]. *)

From Stdlib Require Import ZArith NArith String Ascii List Lia Bool DecimalString DecimalPos.
From stdpp Require Import base option list gmap fin_maps.

Open Scope Z_scope.

(** ** Results and HTTP status codes *)

Inductive result (E A : Type) : Type :=
| Ok (a : A)
| Err (e : E).
Arguments Ok {E A} a.
Arguments Err {E A} e.

Module Http.
Definition StatusOK : Z := 200.
Definition StatusBadRequest : Z := 400.
Definition StatusNotFound : Z := 404.
Definition StatusConflict : Z := 409.
Definition StatusInternalServerError : Z := 500.

(** The two families of status codes the specification speaks about. *)
Definition client_error (s : Z) : Prop := 400 <= s < 500.
Definition server_error (s : Z) : Prop := 500 <= s < 600.
End Http.

(** ** strconv.ParseUint(s, 10, 32)

    Every handler reads its path parameters with this call: a non-empty
    string of decimal digits whose value fits 32 bits, anything else is an
    error. *)
Module Strconv.
Definition digit (c : ascii) : option N :=
  let n := N_of_ascii c in
  if ((48 <=? n) && (n <=? 57))%N then Some (n - 48)%N else None.

Fixpoint digits (acc : N) (s : string) : option N :=
  match s with
  | EmptyString => Some acc
  | String c rest =>
      match digit c with
      | Some d => digits (acc * 10 + d)%N rest
      | None => None
      end
  end.

Definition ParseUint32 (s : string) : option N :=
  match s with
  | EmptyString => None
  | _ =>
      match digits 0%N s with
      | Some n => if (n <? 2 ^ 32)%N then Some n else None
      | None => None
      end
  end.
End Strconv.

Definition Time : Type := Z.

(** ** The voter entity (identical in both voter packages) *)
Module VoterData.

Record voterPoll : Type := mkVoterPoll {
  PollID : N;
  VoteDate : Time
}.

Record Voter : Type := mkVoter {
  VoterID : N;
  FirstName : string;
  LastName : string;
  VoteHistory : list voterPoll
}.

(** The messages of [errors.New] in voter.go. *)
Inductive error : Type :=
| ErrVoterDoesNotExist      (* "voter does not exist" *)
| ErrVoterAlreadyExists     (* "voter already exists" *)
| ErrAlreadyVoted           (* "voter has already voted in this poll" *)
| ErrVoterPollNotFound.     (* "voter poll not found" *)

(** The error kinds of the specification. *)
Inductive kind : Type := NotFound | AlreadyExists.

Definition kind_of (e : error) : kind :=
  match e with
  | ErrVoterDoesNotExist | ErrVoterPollNotFound => NotFound
  | ErrVoterAlreadyExists | ErrAlreadyVoted => AlreadyExists
  end.

(** The zero value [voterPoll{}]. *)
Definition zeroVoterPoll : voterPoll := mkVoterPoll 0%N 0.

Definition NewVoter (id : N) (firstName lastName : string) : Voter :=
  {| VoterID := id; FirstName := firstName; LastName := lastName;
     VoteHistory := [] |}.

(** [for _, poll := range h { if poll.PollID == pollID { return poll } }] *)
Fixpoint findPoll (h : list voterPoll) (pollID : N) : option voterPoll :=
  match h with
  | [] => None
  | poll :: rest =>
      if (PollID poll =? pollID)%N then Some poll else findPoll rest pollID
  end.

(** The loop of UpdateVoterPoll: the first entry with the poll id is
    overwritten in place and the loop breaks; the second component is
    [updatedVoterPoll], the zero value when nothing matched. *)
Fixpoint updateLoop (h : list voterPoll) (pollID : N) (voteDate : Time)
  : list voterPoll * voterPoll :=
  match h with
  | [] => ([], zeroVoterPoll)
  | poll :: rest =>
      if (PollID poll =? pollID)%N
      then (mkVoterPoll pollID voteDate :: rest, mkVoterPoll pollID voteDate)
      else let '(rest', u) := updateLoop rest pollID voteDate in
           (poll :: rest', u)
  end.

(** The loop of DeleteVoterPoll: every entry of another poll is kept. *)
Fixpoint removeLoop (h : list voterPoll) (pollID : N) : list voterPoll :=
  match h with
  | [] => []
  | poll :: rest =>
      if negb (PollID poll =? pollID)%N
      then poll :: removeLoop rest pollID
      else removeLoop rest pollID
  end.

Definition setNames (existing payload : Voter) : Voter :=
  {| VoterID := VoterID existing;
     FirstName := FirstName payload;
     LastName := LastName payload;
     VoteHistory := VoteHistory existing |}.

Definition setHistory (v : Voter) (h : list voterPoll) : Voter :=
  {| VoterID := VoterID v; FirstName := FirstName v;
     LastName := LastName v; VoteHistory := h |}.

(** The data-model invariant: at most one entry per PollID. *)
Definition pollIDs (h : list voterPoll) : list N := map PollID h.
Definition history_unique (h : list voterPoll) : Prop := NoDup (pollIDs h).

End VoterData.

(** ** src/voter-api/voter/voter.go: the in-memory voter list

    [Voters] is a Go map of [Voter] values.  A lookup copies the struct but
    its [VoteHistory] slice still points to the stored backing array, which
    matters in one place only, [UpdateVoterPoll], where the loop writes
    through that slice before the function decides whether it succeeds.
    Two stored voters never share a backing array: a voter handed to
    [AddVoter] is taken to own its history slice, as the voters that the
    handlers build with [NewVoter] do. *)
Module VoterList.
Import VoterData.

Record VoterList : Type := mkVoterList { Voters : gmap N Voter }.

Definition NewVoterList : VoterList := mkVoterList ∅.

Definition GetAllVoters (vl : VoterList) : list Voter :=
  (map_to_list (Voters vl)).*2.

Definition GetVoter (vl : VoterList) (voterID : N) : result error Voter :=
  match Voters vl !! voterID with
  | Some voter => Ok voter
  | None => Err ErrVoterDoesNotExist
  end.

Definition AddVoter (vl : VoterList) (voter : Voter)
  : VoterList * option error :=
  match Voters vl !! VoterID voter with
  | Some _ => (vl, Some ErrVoterAlreadyExists)
  | None => (mkVoterList (<[VoterID voter := voter]> (Voters vl)), None)
  end.

Definition UpdateVoter (vl : VoterList) (voter : Voter)
  : VoterList * option error :=
  match Voters vl !! VoterID voter with
  | None => (vl, Some ErrVoterDoesNotExist)
  | Some existingVoter =>
      (mkVoterList
         (<[VoterID voter := setNames existingVoter voter]> (Voters vl)),
       None)
  end.

Definition DeleteAllVoters (vl : VoterList) : VoterList * option error :=
  (mkVoterList ∅, None).

Definition DeleteVoter (vl : VoterList) (voterID : N)
  : VoterList * option error :=
  match Voters vl !! voterID with
  | None => (vl, Some ErrVoterDoesNotExist)
  | Some _ => (mkVoterList (delete voterID (Voters vl)), None)
  end.

Definition GetVoterHistory (vl : VoterList) (voterID : N)
  : result error (list voterPoll) :=
  match Voters vl !! voterID with
  | None => Err ErrVoterDoesNotExist
  | Some voter => Ok (VoteHistory voter)
  end.

Definition GetVoterPoll (vl : VoterList) (voterID pollID : N)
  : result error voterPoll :=
  match Voters vl !! voterID with
  | None => Err ErrVoterDoesNotExist
  | Some voter =>
      match findPoll (VoteHistory voter) pollID with
      | Some poll => Ok poll
      | None => Err ErrVoterPollNotFound
      end
  end.

(** [now] is the value of [time.Now()] inside the call. *)
Definition AddVoterPoll (vl : VoterList) (voterID pollID : N) (now : Time)
  : VoterList * result error voterPoll :=
  match Voters vl !! voterID with
  | None => (vl, Err ErrVoterDoesNotExist)
  | Some voter =>
      match findPoll (VoteHistory voter) pollID with
      | Some _ => (vl, Err ErrAlreadyVoted)
      | None =>
          let newVoterPoll := mkVoterPoll pollID now in
          let voter' := setHistory voter (VoteHistory voter ++ [newVoterPoll]) in
          (mkVoterList (<[VoterID voter := voter']> (Voters vl)),
           Ok newVoterPoll)
      end
  end.

(** The write [voter.VoteHistory[i] = updatedVoterPoll] goes to the
    backing array the stored voter shares, so the stored history changes
    at key [voterID] as soon as the loop has run; the later assignment
    [vl.Voters[voter.VoterID] = voter] is reached only when
    [updatedVoterPoll.PollID] is not zero. *)
Definition UpdateVoterPoll (vl : VoterList) (voterID pollID : N) (now : Time)
  : VoterList * result error voterPoll :=
  match Voters vl !! voterID with
  | None => (vl, Err ErrVoterDoesNotExist)
  | Some voter =>
      let '(history', updatedVoterPoll) :=
        updateLoop (VoteHistory voter) pollID now in
      let voter' := setHistory voter history' in
      let aliased := <[voterID := voter']> (Voters vl) in
      if (PollID updatedVoterPoll =? 0)%N
      then (mkVoterList aliased, Err ErrVoterPollNotFound)
      else (mkVoterList (<[VoterID voter := voter']> aliased),
            Ok updatedVoterPoll)
  end.

Definition DeleteVoterPoll (vl : VoterList) (voterID pollID : N)
  : VoterList * option error :=
  match Voters vl !! voterID with
  | None => (vl, Some ErrVoterDoesNotExist)
  | Some voter =>
      let updatedVoteHistory := removeLoop (VoteHistory voter) pollID in
      if (length updatedVoteHistory =? length (VoteHistory voter))%nat
      then (vl, Some ErrVoterPollNotFound)
      else (mkVoterList
              (<[VoterID voter := setHistory voter updatedVoteHistory]>
                 (Voters vl)),
            None)
  end.

End VoterList.

(** ** src/voting-application/voter-api/voter/voter.go: the Redis-backed cache

    Every operation reads the voter document under its key, decodes it into
    a fresh struct, and writes the whole document back; nothing is shared
    between calls. *)
Module VoterCache.
Import VoterData.

Record VoterCache : Type := mkVoterCache { redis : gmap N Voter }.

Definition GetAllVoters (vc : VoterCache) : list Voter :=
  (map_to_list (redis vc)).*2.

Definition GetVoter (vc : VoterCache) (voterID : N) : result error Voter :=
  match redis vc !! voterID with
  | Some voter => Ok voter
  | None => Err ErrVoterDoesNotExist
  end.

Definition AddVoter (vc : VoterCache) (voter : Voter)
  : VoterCache * option error :=
  match GetVoter vc (VoterID voter) with
  | Ok _ => (vc, Some ErrVoterAlreadyExists)
  | Err _ => (mkVoterCache (<[VoterID voter := voter]> (redis vc)), None)
  end.

Definition UpdateVoter (vc : VoterCache) (voter : Voter)
  : VoterCache * result error Voter :=
  match GetVoter vc (VoterID voter) with
  | Err _ => (vc, Err ErrVoterDoesNotExist)
  | Ok existingVoter =>
      let existingVoter' := setNames existingVoter voter in
      (mkVoterCache (<[VoterID voter := existingVoter']> (redis vc)),
       Ok existingVoter')
  end.

Definition DeleteAllVoters (vc : VoterCache) : VoterCache * option error :=
  (mkVoterCache ∅, None).

Definition DeleteVoter (vc : VoterCache) (voterID : N)
  : VoterCache * option error :=
  match GetVoter vc voterID with
  | Err _ => (vc, Some ErrVoterDoesNotExist)
  | Ok _ => (mkVoterCache (delete voterID (redis vc)), None)
  end.

Definition GetVoterHistory (vc : VoterCache) (voterID : N)
  : result error (list voterPoll) :=
  match GetVoter vc voterID with
  | Err _ => Err ErrVoterDoesNotExist
  | Ok voter => Ok (VoteHistory voter)
  end.

Definition GetVoterPoll (vc : VoterCache) (voterID pollID : N)
  : result error voterPoll :=
  match GetVoter vc voterID with
  | Err _ => Err ErrVoterDoesNotExist
  | Ok voter =>
      match findPoll (VoteHistory voter) pollID with
      | Some poll => Ok poll
      | None => Err ErrVoterPollNotFound
      end
  end.

Definition AddVoterPoll (vc : VoterCache) (voterID pollID : N)
  (voteDate : Time) : VoterCache * result error voterPoll :=
  match GetVoter vc voterID with
  | Err _ => (vc, Err ErrVoterDoesNotExist)
  | Ok voter =>
      match findPoll (VoteHistory voter) pollID with
      | Some _ => (vc, Err ErrAlreadyVoted)
      | None =>
          let newVoterPoll := mkVoterPoll pollID voteDate in
          let voter' := setHistory voter (VoteHistory voter ++ [newVoterPoll]) in
          (mkVoterCache (<[VoterID voter := voter']> (redis vc)),
           Ok newVoterPoll)
      end
  end.

(** Here the loop writes into the decoded copy only: when the function
    returns "voter poll not found" the document is not written back. *)
Definition UpdateVoterPoll (vc : VoterCache) (voterID pollID : N)
  (voteDate : Time) : VoterCache * result error voterPoll :=
  match GetVoter vc voterID with
  | Err _ => (vc, Err ErrVoterDoesNotExist)
  | Ok voter =>
      let '(history', updatedVoterPoll) :=
        updateLoop (VoteHistory voter) pollID voteDate in
      if (PollID updatedVoterPoll =? 0)%N
      then (vc, Err ErrVoterPollNotFound)
      else (mkVoterCache
              (<[VoterID voter := setHistory voter history']> (redis vc)),
            Ok updatedVoterPoll)
  end.

Definition DeleteVoterPoll (vc : VoterCache) (voterID pollID : N)
  : VoterCache * option error :=
  match GetVoter vc voterID with
  | Err _ => (vc, Some ErrVoterDoesNotExist)
  | Ok voter =>
      let updatedVoteHistory := removeLoop (VoteHistory voter) pollID in
      if (length updatedVoteHistory =? length (VoteHistory voter))%nat
      then (vc, Some ErrVoterPollNotFound)
      else (mkVoterCache
              (<[VoterID voter := setHistory voter updatedVoteHistory]>
                 (redis vc)),
            None)
  end.

End VoterCache.

(** ** src/voting-application/voter-api/api/voter-api.go: the HTTP handlers

    A handler receives its path parameters as strings and the outcome of
    [c.ShouldBindJSON] as an option ([None]: the body is not valid JSON for
    the target struct).  It returns the cache and the response written. *)
Module VoterAPI.
Import VoterData VoterCache Http.

Inductive body : Type :=
| NoBody
| VoterJSON (v : Voter)
| VotersJSON (l : list Voter)
| HistoryJSON (h : list voterPoll)
| VoterPollJSON (p : voterPoll)
| MessageJSON (msg : string).

Record response : Type := mkResponse { status : Z; payload : body }.

Definition AbortWithStatus (code : Z) : response := mkResponse code NoBody.
Definition JSON (code : Z) (b : body) : response := mkResponse code b.

Definition ListAllVoters (vc : VoterCache) : response :=
  JSON StatusOK (VotersJSON (GetAllVoters vc)).

Definition GetVoter (vc : VoterCache) (id : string) : response :=
  match Strconv.ParseUint32 id with
  | None => AbortWithStatus StatusBadRequest
  | Some voterIDUint =>
      match VoterCache.GetVoter vc voterIDUint with
      | Err _ => AbortWithStatus StatusNotFound
      | Ok voter => JSON StatusOK (VoterJSON voter)
      end
  end.

Definition AddVoter (vc : VoterCache) (id : string) (bind : option Voter)
  : VoterCache * response :=
  match Strconv.ParseUint32 id with
  | None => (vc, AbortWithStatus StatusBadRequest)
  | Some voterIDUint =>
      match bind with
      | None => (vc, AbortWithStatus StatusBadRequest)
      | Some newVoter =>
          let newVoter :=
            NewVoter voterIDUint (FirstName newVoter) (LastName newVoter) in
          match VoterCache.AddVoter vc newVoter with
          | (vc', Some _) => (vc', AbortWithStatus StatusInternalServerError)
          | (vc', None) => (vc', JSON StatusOK (VoterJSON newVoter))
          end
      end
  end.

Definition UpdateVoter (vc : VoterCache) (id : string) (bind : option Voter)
  : VoterCache * response :=
  match Strconv.ParseUint32 id with
  | None => (vc, AbortWithStatus StatusBadRequest)
  | Some voterIDUint =>
      match bind with
      | None => (vc, AbortWithStatus StatusBadRequest)
      | Some voter =>
          let voter := mkVoter voterIDUint (FirstName voter) (LastName voter)
                         (VoteHistory voter) in
          match VoterCache.UpdateVoter vc voter with
          | (vc', Err _) => (vc', AbortWithStatus StatusInternalServerError)
          | (vc', Ok updatedVoter) =>
              (vc', JSON StatusOK (VoterJSON updatedVoter))
          end
      end
  end.

Definition DeleteVoter (vc : VoterCache) (id : string)
  : VoterCache * response :=
  match Strconv.ParseUint32 id with
  | None => (vc, AbortWithStatus StatusBadRequest)
  | Some voterIDUint =>
      match VoterCache.DeleteVoter vc voterIDUint with
      | (vc', Some _) => (vc', AbortWithStatus StatusNotFound)
      | (vc', None) =>
          (vc', JSON StatusOK (MessageJSON "Voter deleted successfully."))
      end
  end.

Definition GetVoterHistory (vc : VoterCache) (id : string) : response :=
  match Strconv.ParseUint32 id with
  | None => AbortWithStatus StatusBadRequest
  | Some voterIDUint =>
      match VoterCache.GetVoterHistory vc voterIDUint with
      | Err _ => AbortWithStatus StatusNotFound
      | Ok voterHistory => JSON StatusOK (HistoryJSON voterHistory)
      end
  end.

(** [bind] is the decoded [requestBody.VoteDate]; [postForm] tells whether
    [c.GetPostForm("voteDate")] finds a form field; [now] is [time.Now()]. *)
Definition AddVoterPoll (vc : VoterCache) (id pollId : string)
  (bind : option Time) (postForm : bool) (now : Time)
  : VoterCache * response :=
  match Strconv.ParseUint32 id with
  | None => (vc, AbortWithStatus StatusBadRequest)
  | Some voterIDUint =>
      match Strconv.ParseUint32 pollId with
      | None => (vc, AbortWithStatus StatusBadRequest)
      | Some pollIDUint =>
          match bind with
          | None => (vc, AbortWithStatus StatusBadRequest)
          | Some requestVoteDate =>
              let voteDate := if postForm then requestVoteDate else now in
              match VoterCache.AddVoterPoll vc voterIDUint pollIDUint voteDate with
              | (vc', Err _) => (vc', AbortWithStatus StatusBadRequest)
              | (vc', Ok newVoterPoll) =>
                  (vc', JSON StatusOK (VoterPollJSON newVoterPoll))
              end
          end
      end
  end.

Definition UpdateVoterPoll (vc : VoterCache) (id pollId : string)
  (bind : option Time) (postForm : bool) (now : Time)
  : VoterCache * response :=
  match Strconv.ParseUint32 id with
  | None => (vc, AbortWithStatus StatusBadRequest)
  | Some voterIDUint =>
      match Strconv.ParseUint32 pollId with
      | None => (vc, AbortWithStatus StatusBadRequest)
      | Some pollIDUint =>
          match bind with
          | None => (vc, AbortWithStatus StatusBadRequest)
          | Some requestVoteDate =>
              let voteDate := if postForm then requestVoteDate else now in
              match VoterCache.UpdateVoterPoll vc voterIDUint pollIDUint voteDate with
              | (vc', Err _) => (vc', AbortWithStatus StatusBadRequest)
              | (vc', Ok updatedVoterPoll) =>
                  (vc', JSON StatusOK (VoterPollJSON updatedVoterPoll))
              end
          end
      end
  end.

Definition DeleteVoterPoll (vc : VoterCache) (id pollId : string)
  : VoterCache * response :=
  match Strconv.ParseUint32 id with
  | None => (vc, AbortWithStatus StatusBadRequest)
  | Some voterIDUint =>
      match Strconv.ParseUint32 pollId with
      | None => (vc, AbortWithStatus StatusBadRequest)
      | Some pollIDUint =>
          match VoterCache.DeleteVoterPoll vc voterIDUint pollIDUint with
          | (vc', Some _) => (vc', AbortWithStatus StatusNotFound)
          | (vc', None) =>
              (vc', JSON StatusOK
                      (MessageJSON "Voter poll deleted successfully."))
          end
      end
  end.

End VoterAPI.

(** ** src/voting-application/poll-api: the part the vote workflow reads *)
Module Poll.
Import Http.

Record pollOption : Type := mkPollOption {
  PollOptionID : N;
  PollOptionText : string
}.

Record Poll : Type := mkPoll {
  PollID : N;
  PollTitle : string;
  PollQuestion : string;
  PollOptions : list pollOption
}.

Record PollCache : Type := mkPollCache { redis : gmap N Poll }.

Definition GetAllPolls (pc : PollCache) : list Poll :=
  (map_to_list (redis pc)).*2.

Record response : Type := mkResponse { status : Z; payload : list Poll }.

(** GET /polls *)
Definition ListAllVPolls (pc : PollCache) : response :=
  mkResponse StatusOK (GetAllPolls pc).
End Poll.

(** ** src/voting-application/votes-api/votes/votes.go *)
Module Votes.

Record Vote : Type := mkVote {
  VoteID : N;
  VoterID : N;
  PollID : N;
  VoteValue : N
}.

Inductive error : Type :=
| ErrVoteDoesNotExist       (* "vote does not exist" *)
| ErrVoteAlreadyExists.     (* "vote already exists" *)

Record VotesCache : Type := mkVotesCache { redis : gmap N Vote }.

Definition GetAllVotes (vc : VotesCache) : list Vote :=
  (map_to_list (redis vc)).*2.

Definition GetVote (vc : VotesCache) (voteID : N) : result error Vote :=
  match redis vc !! voteID with
  | Some vote => Ok vote
  | None => Err ErrVoteDoesNotExist
  end.

Definition AddVote (vc : VotesCache) (vote : Vote)
  : VotesCache * option error :=
  match GetVote vc (VoteID vote) with
  | Ok _ => (vc, Some ErrVoteAlreadyExists)
  | Err _ => (mkVotesCache (<[VoteID vote := vote]> (redis vc)), None)
  end.

Definition DeleteVote (vc : VotesCache) (voteID : N)
  : VotesCache * option error :=
  match GetVote vc voteID with
  | Err _ => (vc, Some ErrVoteDoesNotExist)
  | Ok _ => (mkVotesCache (delete voteID (redis vc)), None)
  end.

End Votes.

(** ** Machine integers of the request counters *)
Module Int.
Definition wrap_uint64 (z : Z) : Z := z mod 2 ^ 64.
Definition wrap_int64 (z : Z) : Z := (z + 2 ^ 63) mod 2 ^ 64 - 2 ^ 63.
Definition maxInt64 : Z := 2 ^ 63 - 1.
Definition minInt64 : Z := - 2 ^ 63.

(** [strconv.Itoa(int(x))] for a 64-bit [uint] x. *)
Definition Itoa_of_uint (x : N) : string :=
  DecimalString.NilZero.string_of_int (Z.to_int (wrap_int64 (Z.of_N x))).

(** [time.Since(t)] seen at instant [now]: the difference, saturated. *)
Definition Since (now t : Time) : Z :=
  Z.max minInt64 (Z.min maxInt64 (now - t)).
End Int.

(** ** src/voting-application/votes-api/api/votes-api.go

    The handler reaches the voter and the poll service through an HTTP
    client.  A call either fails in the client ([err != nil]: the request
    does not reach the service) or is answered by the handler of the other
    service, whatever status that handler writes. *)
Module VotesAPI.
Import Http Votes.

Record VotesAPI : Type := mkVotesAPI {
  votesList : VotesCache;
  totalCalls : Z;            (* uint64 *)
  errorCalls : Z;            (* uint64 *)
  bootTime : Time;
  totalRequestTime : Z       (* time.Duration, int64 nanoseconds *)
}.

(** The two services behind [voterAPIURL] and [pollAPIURL]. *)
Record Services : Type := mkServices {
  voterService : VoterCache.VoterCache;
  pollService : Poll.PollCache
}.

(** Which client calls of one request fail in transport. *)
Record Net : Type := mkNet {
  getVotersErr : bool;
  getPollsErr : bool;
  postVoterPollErr : bool;
  deleteVoterPollErr : bool
}.

(** What one request sees of the outside: the network, the clock of this
    service, the clock of the voter service, and the time the request
    takes ([time.Since(start)] in the middleware). *)
Record Env : Type := mkEnv {
  net : Net;
  now : Time;
  voterNow : Time;
  elapsed : Z
}.

Record health : Type := mkHealth {
  h_status : string;
  uptime : Z;
  totalAPICalls : Z;
  totalAPICallsError : Z;
  h_bootTime : Time;
  h_totalRequestTime : Z;
  averageRequestTime : Z
}.

Inductive body : Type :=
| NoBody
| ErrorJSON (msg : string)
| MessageJSON (msg : string)
| VoteJSON (v : Vote)
| VotesJSON (l : list Vote)
| HealthJSON (h : health).

Record response : Type := mkResponse { status : Z; payload : body }.

Definition AbortWithStatus (code : Z) : response := mkResponse code NoBody.
Definition JSON (code : Z) (b : body) : response := mkResponse code b.

Definition NewVotesHandler (now : Time) : VotesAPI :=
  {| votesList := mkVotesCache ∅; totalCalls := 0; errorCalls := 0;
     bootTime := now; totalRequestTime := 0 |}.

Definition setVotesList (va : VotesAPI) (vc : VotesCache) : VotesAPI :=
  {| votesList := vc; totalCalls := totalCalls va;
     errorCalls := errorCalls va; bootTime := bootTime va;
     totalRequestTime := totalRequestTime va |}.

(** [apiClient.R().SetResult(&voters).Get(votersPath)]: [None] is
    [err != nil]; otherwise the slice holds the decoded body of a 2xx
    answer and stays empty for any other answer. *)
Definition getVoters (fails : bool) (svc : Services)
  : option (list VoterData.Voter) :=
  if fails then None
  else
    let r := VoterAPI.ListAllVoters (voterService svc) in
    match VoterAPI.payload r with
    | VoterAPI.VotersJSON l =>
        Some (if (200 <=? VoterAPI.status r) && (VoterAPI.status r <? 300)
              then l else [])
    | _ => Some []
    end.

Definition getPolls (fails : bool) (svc : Services) : option (list Poll.Poll) :=
  if fails then None
  else
    let r := Poll.ListAllVPolls (pollService svc) in
    Some (if (200 <=? Poll.status r) && (Poll.status r <? 300)
          then Poll.payload r else []).

(** POST and DELETE on [/voters/<voterID>/polls/<pollID>]: [None] is
    [err != nil], otherwise the status the voter service answered. *)
Definition postVoterPoll (fails : bool) (svc : Services) (voterID pollID : N)
  (voteDate voterNow : Time) : Services * option Z :=
  if fails then (svc, None)
  else
    let '(vc', r) :=
      VoterAPI.AddVoterPoll (voterService svc)
        (Int.Itoa_of_uint voterID) (Int.Itoa_of_uint pollID)
        (Some voteDate) false voterNow in
    (mkServices vc' (pollService svc), Some (VoterAPI.status r)).

Definition deleteVoterPoll (fails : bool) (svc : Services)
  (voterID pollID : N) : Services * option Z :=
  if fails then (svc, None)
  else
    let '(vc', r) :=
      VoterAPI.DeleteVoterPoll (voterService svc)
        (Int.Itoa_of_uint voterID) (Int.Itoa_of_uint pollID) in
    (mkServices vc' (pollService svc), Some (VoterAPI.status r)).

(** [for _, voter := range voters { if voter.VoterID == vID {...} }] *)
Definition foundVoterID (voters : list VoterData.Voter) (vID : N) : bool :=
  existsb (fun voter => (VoterData.VoterID voter =? vID)%N) voters.

(** The poll loop stops at the first poll with the id and looks through
    all of its options: the result is (foundPollID, foundPollOptID). *)
Fixpoint findPollAndOption (polls : list Poll.Poll) (pID optID : N)
  : bool * bool :=
  match polls with
  | [] => (false, false)
  | poll :: rest =>
      if (Poll.PollID poll =? pID)%N
      then (true,
            existsb (fun option => (Poll.PollOptionID option =? optID)%N)
              (Poll.PollOptions poll))
      else findPollAndOption rest pID optID
  end.

Definition WelcomeToVotesAPI : response :=
  JSON StatusOK (MessageJSON "Welcome to votes API.").

Definition ListAllVotes (va : VotesAPI) : response :=
  JSON StatusOK (VotesJSON (GetAllVotes (votesList va))).

Definition GetVote (va : VotesAPI) (id : string) : response :=
  match Strconv.ParseUint32 id with
  | None => AbortWithStatus StatusBadRequest
  | Some voteIDUint =>
      match Votes.GetVote (votesList va) voteIDUint with
      | Err _ => AbortWithStatus StatusNotFound
      | Ok vote => JSON StatusOK (VoteJSON vote)
      end
  end.

(** POST /votes/:id *)
Definition AddVote (va : VotesAPI) (svc : Services) (env : Env)
  (id : string) (bind : option Vote) : VotesAPI * Services * response :=
  match bind with
  | None => (va, svc, AbortWithStatus StatusBadRequest)
  | Some vote =>
  let vID := VoterID vote in
  match getVoters (getVotersErr (net env)) svc with
  | None =>
      (va, svc, JSON StatusNotFound (ErrorJSON "Could not find voter in cache"))
  | Some voters =>
  if negb (foundVoterID voters vID)
  then (va, svc, JSON StatusNotFound (ErrorJSON "Could not find voter in cache"))
  else
  let pID := PollID vote in
  let optID := VoteValue vote in
  match getPolls (getPollsErr (net env)) svc with
  | None =>
      (va, svc, JSON StatusNotFound (ErrorJSON "Could not find poll in cache"))
  | Some polls =>
  let '(foundPollID, foundPollOptID) := findPollAndOption polls pID optID in
  if negb foundPollID
  then (va, svc, JSON StatusNotFound (ErrorJSON "Could not find poll in cache"))
  else
  if negb foundPollOptID
  then (va, svc,
        JSON StatusNotFound (ErrorJSON "Could not find poll option in cache"))
  else
  match Strconv.ParseUint32 id with
  | None => (va, svc, AbortWithStatus StatusBadRequest)
  | Some voteIDUint =>
  let vote := mkVote voteIDUint (VoterID vote) (PollID vote) (VoteValue vote) in
  match Votes.AddVote (votesList va) vote with
  | (_, Some _) => (va, svc, AbortWithStatus StatusConflict)
  | (votes', None) =>
  let va' := setVotesList va votes' in
  match postVoterPoll (postVoterPollErr (net env)) svc
          (VoterID vote) (PollID vote) (now env) (voterNow env) with
  | (svc', None) => (va', svc', AbortWithStatus StatusInternalServerError)
  | (svc', Some _) => (va', svc', JSON StatusOK (VoteJSON vote))
  end end end end end end.

(** DELETE /votes/:id *)
Definition DeleteVote (va : VotesAPI) (svc : Services) (env : Env)
  (id : string) : VotesAPI * Services * response :=
  match Strconv.ParseUint32 id with
  | None => (va, svc, AbortWithStatus StatusBadRequest)
  | Some voteIDUint =>
  match Votes.GetVote (votesList va) voteIDUint with
  | Err _ => (va, svc, AbortWithStatus StatusNotFound)
  | Ok vote =>
  match deleteVoterPoll (deleteVoterPollErr (net env)) svc
          (VoterID vote) (PollID vote) with
  | (svc', None) => (va, svc', AbortWithStatus StatusInternalServerError)
  | (svc', Some _) =>
  match Votes.DeleteVote (votesList va) voteIDUint with
  | (_, Some _) => (va, svc', AbortWithStatus StatusInternalServerError)
  | (votes', None) =>
      (setVotesList va votes', svc',
       JSON StatusOK (MessageJSON "Vote deleted successfully."))
  end end end end.

(** GET /votes/health *)
Definition HealthCheck (va : VotesAPI) (now : Time) : response :=
  let averageRequestTime :=
    if 0 <? totalCalls va
    then Int.wrap_int64
           (Z.quot (totalRequestTime va) (Int.wrap_int64 (totalCalls va)))
    else 0 in
  JSON StatusOK
    (HealthJSON
       {| h_status := "ok";
          uptime := Int.Since now (bootTime va);
          totalAPICalls := totalCalls va;
          totalAPICallsError := errorCalls va;
          h_bootTime := bootTime va;
          h_totalRequestTime := totalRequestTime va;
          averageRequestTime := averageRequestTime |}).

(** The routes of main.go. *)
Inductive request : Type :=
| GET_root
| GET_votes
| GET_vote (id : string)
| POST_vote (id : string) (bind : option Vote)
| DELETE_vote (id : string)
| GET_health.

Definition route (va : VotesAPI) (svc : Services) (env : Env) (r : request)
  : VotesAPI * Services * response :=
  match r with
  | GET_root => (va, svc, WelcomeToVotesAPI)
  | GET_votes => (va, svc, ListAllVotes va)
  | GET_vote id => (va, svc, GetVote va id)
  | POST_vote id bind => AddVote va svc env id bind
  | DELETE_vote id => DeleteVote va svc env id
  | GET_health => (va, svc, HealthCheck va (now env))
  end.

Definition incTotalCalls (va : VotesAPI) : VotesAPI :=
  {| votesList := votesList va;
     totalCalls := Int.wrap_uint64 (totalCalls va + 1);
     errorCalls := errorCalls va; bootTime := bootTime va;
     totalRequestTime := totalRequestTime va |}.

Definition incErrorCalls (va : VotesAPI) : VotesAPI :=
  {| votesList := votesList va; totalCalls := totalCalls va;
     errorCalls := Int.wrap_uint64 (errorCalls va + 1);
     bootTime := bootTime va; totalRequestTime := totalRequestTime va |}.

Definition addRequestTime (va : VotesAPI) (duration : Z) : VotesAPI :=
  {| votesList := votesList va; totalCalls := totalCalls va;
     errorCalls := errorCalls va; bootTime := bootTime va;
     totalRequestTime := Int.wrap_int64 (totalRequestTime va + duration) |}.

(** [HealthMiddleware], registered with [r.Use] for every route:
    [c.Next()] runs the routed handler on the same [*VotesAPI]. *)
Definition HealthMiddleware (va : VotesAPI) (svc : Services) (env : Env)
  (r : request) : VotesAPI * Services * response :=
  let va := incTotalCalls va in
  let '(va, svc, resp) := route va svc env r in
  let va := if 400 <=? status resp then incErrorCalls va else va in
  let va := addRequestTime va (elapsed env) in
  (va, svc, resp).

(** A run of the service: the requests are served one after the other. *)
Fixpoint serve (va : VotesAPI) (svc : Services) (reqs : list (Env * request))
  : VotesAPI * Services * list response :=
  match reqs with
  | [] => (va, svc, [])
  | (env, r) :: rest =>
      let '(va, svc, resp) := HealthMiddleware va svc env r in
      let '(va, svc, resps) := serve va svc rest in
      (va, svc, resp :: resps)
  end.

Definition is_error (resp : response) : bool := 400 <=? status resp.

(** The number of answers with a status of 400 or more, and the time the
    requests of a run took together. *)
Fixpoint errorCount (resps : list response) : Z :=
  match resps with
  | [] => 0
  | resp :: rest => (if is_error resp then 1 else 0) + errorCount rest
  end.

Fixpoint elapsedTotal (reqs : list (Env * request)) : Z :=
  match reqs with
  | [] => 0
  | (env, _) :: rest => elapsed env + elapsedTotal rest
  end.

End VotesAPI.

(** ** src/todo/db/todo.go: the file-backed todo store

    The backing file is either missing, unreadable as a JSON array of items,
    or holds a list of items; writing it is taken to succeed.  The order in
    which Go ranges over [toDoMap] is not fixed; here it is the order of
    [map_to_list]. *)
Module Todo.

Record ToDoItem : Type := mkToDoItem {
  Id : Z;
  Title : string;
  IsDone : bool
}.

Inductive file : Type :=
| Missing
| Unreadable
| Items (l : list ToDoItem).

Inductive error : Type :=
| ErrItemAlreadyExists      (* "item already exists in the database" *)
| ErrItemDoesNotExist       (* "item does not exist in the database" *)
| ErrFile.                  (* an error of os.ReadFile or json.Unmarshal *)

Record ToDo : Type := mkToDo {
  toDoMap : gmap Z ToDoItem;
  dbFileName : string
}.

Definition initDB (disk : file) : file := Items [].

Definition New (dbFile : string) (disk : file) : ToDo * file :=
  let disk := match disk with Missing => initDB disk | _ => disk end in
  (mkToDo ∅ dbFile, disk).

(** The items of the file are put into the map the struct already holds. *)
Definition loadDB (t : ToDo) (disk : file) : ToDo * option error :=
  match disk with
  | Items toDoList =>
      (mkToDo (fold_left (fun m item => <[Id item := item]> m)
                 toDoList (toDoMap t))
              (dbFileName t),
       None)
  | _ => (t, Some ErrFile)
  end.

Definition saveDB (t : ToDo) (disk : file) : file :=
  Items (map_to_list (toDoMap t)).*2.

Definition setMap (t : ToDo) (m : gmap Z ToDoItem) : ToDo :=
  mkToDo m (dbFileName t).

Definition AddItem (t : ToDo) (disk : file) (item : ToDoItem)
  : ToDo * file * option error :=
  match loadDB t disk with
  | (t, Some err) => (t, disk, Some err)
  | (t, None) =>
      match toDoMap t !! Id item with
      | Some _ => (t, disk, Some ErrItemAlreadyExists)
      | None =>
          let t := setMap t (<[Id item := item]> (toDoMap t)) in
          (t, saveDB t disk, None)
      end
  end.

Definition DeleteItem (t : ToDo) (disk : file) (id : Z)
  : ToDo * file * option error :=
  match loadDB t disk with
  | (t, Some err) => (t, disk, Some err)
  | (t, None) =>
      match toDoMap t !! id with
      | None => (t, disk, Some ErrItemDoesNotExist)
      | Some _ =>
          let t := setMap t (delete id (toDoMap t)) in
          (t, saveDB t disk, None)
      end
  end.

Definition UpdateItem (t : ToDo) (disk : file) (item : ToDoItem)
  : ToDo * file * option error :=
  match loadDB t disk with
  | (t, Some err) => (t, disk, Some err)
  | (t, None) =>
      match toDoMap t !! Id item with
      | None => (t, disk, Some ErrItemDoesNotExist)
      | Some _ =>
          let t := setMap t (<[Id item := item]> (toDoMap t)) in
          (t, saveDB t disk, None)
      end
  end.

Definition GetItem (t : ToDo) (disk : file) (id : Z)
  : ToDo * result error ToDoItem :=
  match loadDB t disk with
  | (t, Some err) => (t, Err err)
  | (t, None) =>
      match toDoMap t !! id with
      | None => (t, Err ErrItemDoesNotExist)
      | Some item => (t, Ok item)
      end
  end.

Definition GetAllItems (t : ToDo) (disk : file)
  : ToDo * result error (list ToDoItem) :=
  match loadDB t disk with
  | (t, Some err) => (t, Err err)
  | (t, None) => (t, Ok (map_to_list (toDoMap t)).*2)
  end.

Definition ChangeItemDoneStatus (t : ToDo) (disk : file) (id : Z)
  (value : bool) : ToDo * file * option error :=
  match GetItem t disk id with
  | (t, Err err) => (t, disk, Some err)
  | (t, Ok item) =>
      let item := mkToDoItem (Id item) (Title item) value in
      UpdateItem t disk item
  end.

End Todo.

(** ** Reachable voter stores

    The operations that change a voter store, as a caller of the package
    can issue them.  [OpAddVoterPoll] and [OpUpdateVoterPoll] carry the date
    that the in-memory list reads from the clock and the cache receives as
    an argument. *)
Module VoterOps.
Import VoterData.

Inductive op : Type :=
| OpAddVoter (voter : Voter)
| OpUpdateVoter (voter : Voter)
| OpDeleteAllVoters
| OpDeleteVoter (voterID : N)
| OpAddVoterPoll (voterID pollID : N) (date : Time)
| OpUpdateVoterPoll (voterID pollID : N) (date : Time)
| OpDeleteVoterPoll (voterID pollID : N).

Definition applyList (vl : VoterList.VoterList) (o : op) : VoterList.VoterList :=
  match o with
  | OpAddVoter voter => (VoterList.AddVoter vl voter).1
  | OpUpdateVoter voter => (VoterList.UpdateVoter vl voter).1
  | OpDeleteAllVoters => (VoterList.DeleteAllVoters vl).1
  | OpDeleteVoter voterID => (VoterList.DeleteVoter vl voterID).1
  | OpAddVoterPoll voterID pollID date =>
      (VoterList.AddVoterPoll vl voterID pollID date).1
  | OpUpdateVoterPoll voterID pollID date =>
      (VoterList.UpdateVoterPoll vl voterID pollID date).1
  | OpDeleteVoterPoll voterID pollID =>
      (VoterList.DeleteVoterPoll vl voterID pollID).1
  end.

Definition applyCache (vc : VoterCache.VoterCache) (o : op)
  : VoterCache.VoterCache :=
  match o with
  | OpAddVoter voter => (VoterCache.AddVoter vc voter).1
  | OpUpdateVoter voter => (VoterCache.UpdateVoter vc voter).1
  | OpDeleteAllVoters => (VoterCache.DeleteAllVoters vc).1
  | OpDeleteVoter voterID => (VoterCache.DeleteVoter vc voterID).1
  | OpAddVoterPoll voterID pollID date =>
      (VoterCache.AddVoterPoll vc voterID pollID date).1
  | OpUpdateVoterPoll voterID pollID date =>
      (VoterCache.UpdateVoterPoll vc voterID pollID date).1
  | OpDeleteVoterPoll voterID pollID =>
      (VoterCache.DeleteVoterPoll vc voterID pollID).1
  end.

(** The store after a sequence of operations on the empty store. *)
Definition runList (ops : list op) : VoterList.VoterList :=
  fold_left applyList ops VoterList.NewVoterList.

Definition runCache (ops : list op) : VoterCache.VoterCache :=
  fold_left applyCache ops (VoterCache.mkVoterCache ∅).

(** An added voter brings a history with at most one entry per poll; a
    voter made by [NewVoter], the only kind the HTTP handlers add, does. *)
Definition admissible (o : op) : Prop :=
  match o with
  | OpAddVoter voter => history_unique (VoteHistory voter)
  | _ => True
  end.

(** Every voter is stored under its own id. *)
Definition keyed (m : gmap N Voter) : Prop :=
  ∀ k v, m !! k = Some v → VoterID v = k.

(** Every stored voter has at most one history entry per poll. *)
Definition unique_histories (m : gmap N Voter) : Prop :=
  ∀ k v, m !! k = Some v → history_unique (VoteHistory v).

End VoterOps.

(** ** What the vote workflow checks, said of the stores themselves *)
Module Referenced.

Definition voter_exists (vc : VoterCache.VoterCache) (voterID : N) : Prop :=
  ∃ k voter, VoterCache.redis vc !! k = Some voter
             ∧ VoterData.VoterID voter = voterID.

Definition poll_exists (pc : Poll.PollCache) (pollID : N) : Prop :=
  ∃ k poll, Poll.redis pc !! k = Some poll ∧ Poll.PollID poll = pollID.

Definition option_exists (pc : Poll.PollCache) (pollID optionID : N) : Prop :=
  ∃ k poll option,
    Poll.redis pc !! k = Some poll ∧ Poll.PollID poll = pollID
    ∧ option ∈ Poll.PollOptions poll
    ∧ Poll.PollOptionID option = optionID.

(** Every poll is stored under its own id, as AddPoll stores it. *)
Definition polls_keyed (pc : Poll.PollCache) : Prop :=
  ∀ k poll, Poll.redis pc !! k = Some poll → Poll.PollID poll = k.

(** The vote [POST /votes/<id>] would store. *)
Definition stamped (voteID : N) (vote : Votes.Vote) : Votes.Vote :=
  Votes.mkVote voteID (Votes.VoterID vote) (Votes.PollID vote)
    (Votes.VoteValue vote).

End Referenced.

(** ** The scenario of test-apis.sh

    Two voters, the poll "Tea or Coffee" with its two options, a votes
    service booted at instant 0, and requests on a network that works or
    loses the call to the voter's history. *)
Module Scenario.
Import VoterOps VotesAPI.

Definition voters : VoterCache.VoterCache :=
  runCache [OpAddVoter (VoterData.NewVoter 1 "Nisarg" "Patel");
            OpAddVoter (VoterData.NewVoter 2 "Avani" "Patel")].

Definition teaOrCoffee : Poll.Poll :=
  Poll.mkPoll 1 "Tea or Coffee" "Do you like Tea or Coffee?"
    [Poll.mkPollOption 1 "Tea"; Poll.mkPollOption 2 "Coffee"].

Definition polls : Poll.PollCache := Poll.mkPollCache {[1%N := teaOrCoffee]}.

Definition services : Services := mkServices voters polls.

Definition boot : VotesAPI := NewVotesHandler 0.

Definition up : Net := mkNet false false false false.

(** A request at instant [t] that takes 5 units of time. *)
Definition at_ (t : Time) (n : Net) : Env := mkEnv n t (t + 1) 5.

(** The body [{ "voterId": 1, "pollId": 1, "voteValue": 1 }]. *)
Definition vote111 : Votes.Vote := Votes.mkVote 0 1 1 1.

End Scenario.

(** ** src/voting-application/poll-api/poll/poll.go: the poll cache *)
Module PollStore.
Import Poll.

(** The messages of [errors.New] in poll.go. *)
Inductive error : Type :=
| ErrPollDoesNotExist         (* "poll does not exist" *)
| ErrPollAlreadyExists        (* "poll already exists" *)
| ErrPollOptionNotFound       (* "poll option not found" *)
| ErrPollOptionAlreadyInPoll. (* "poll option has already in poll" *)

Definition NewPoll (pollId : N) (pollTitle pollQuestion : string) : Poll :=
  {| PollID := pollId; PollTitle := pollTitle; PollQuestion := pollQuestion;
     PollOptions := [] |}.

Definition GetPoll (pc : PollCache) (pollID : N) : result error Poll :=
  match redis pc !! pollID with
  | Some poll => Ok poll
  | None => Err ErrPollDoesNotExist
  end.

Definition AddPoll (pc : PollCache) (poll : Poll) : PollCache * option error :=
  match GetPoll pc (PollID poll) with
  | Ok _ => (pc, Some ErrPollAlreadyExists)
  | Err _ => (mkPollCache (<[PollID poll := poll]> (redis pc)), None)
  end.

Definition DeleteAllPolls (pc : PollCache) : PollCache * option error :=
  (mkPollCache ∅, None).

Definition DeletePoll (pc : PollCache) (pollID : N) : PollCache * option error :=
  match GetPoll pc pollID with
  | Err _ => (pc, Some ErrPollDoesNotExist)
  | Ok _ => (mkPollCache (delete pollID (redis pc)), None)
  end.

Definition GetPollOptions (pc : PollCache) (pollID : N)
  : result error (list pollOption) :=
  match GetPoll pc pollID with
  | Err _ => Err ErrPollDoesNotExist
  | Ok poll => Ok (PollOptions poll)
  end.

(** [for _, option := range options { if option.PollOptionID == id { return option } }] *)
Fixpoint findOption (options : list pollOption) (pollOptionID : N)
  : option pollOption :=
  match options with
  | [] => None
  | option :: rest =>
      if (PollOptionID option =? pollOptionID)%N then Some option
      else findOption rest pollOptionID
  end.

(** The loop of DeletePollOption: every option with another id is kept. *)
Fixpoint removeOption (options : list pollOption) (pollOptionID : N)
  : list pollOption :=
  match options with
  | [] => []
  | pollOpt :: rest =>
      if negb (PollOptionID pollOpt =? pollOptionID)%N
      then pollOpt :: removeOption rest pollOptionID
      else removeOption rest pollOptionID
  end.

Definition setOptions (poll : Poll) (options : list pollOption) : Poll :=
  {| PollID := PollID poll; PollTitle := PollTitle poll;
     PollQuestion := PollQuestion poll; PollOptions := options |}.

Definition GetPollOption (pc : PollCache) (pollID pollOptionID : N)
  : result error pollOption :=
  match GetPoll pc pollID with
  | Err _ => Err ErrPollDoesNotExist
  | Ok poll =>
      match findOption (PollOptions poll) pollOptionID with
      | Some option => Ok option
      | None => Err ErrPollOptionNotFound
      end
  end.

Definition AddPollOption (pc : PollCache) (pollID pollOptionID : N)
  (pollOptionText : string) : PollCache * result error pollOption :=
  match GetPoll pc pollID with
  | Err _ => (pc, Err ErrPollDoesNotExist)
  | Ok poll =>
      match findOption (PollOptions poll) pollOptionID with
      | Some _ => (pc, Err ErrPollOptionAlreadyInPoll)
      | None =>
          let newPollOption := mkPollOption pollOptionID pollOptionText in
          let poll' := setOptions poll (PollOptions poll ++ [newPollOption]) in
          (mkPollCache (<[PollID poll := poll']> (redis pc)), Ok newPollOption)
      end
  end.

Definition DeletePollOption (pc : PollCache) (pollID pollOptionID : N)
  : PollCache * option error :=
  match GetPoll pc pollID with
  | Err _ => (pc, Some ErrPollDoesNotExist)
  | Ok poll =>
      let updatedPollOptions := removeOption (PollOptions poll) pollOptionID in
      if (length updatedPollOptions =? length (PollOptions poll))%nat
      then (pc, Some ErrPollOptionNotFound)
      else (mkPollCache
              (<[PollID poll := setOptions poll updatedPollOptions]> (redis pc)),
            None)
  end.

(** The operations that change a poll cache, and the cache after a run of
    them on the empty one. *)
Inductive op : Type :=
| OpAddPoll (poll : Poll)
| OpDeleteAllPolls
| OpDeletePoll (pollID : N)
| OpAddPollOption (pollID pollOptionID : N) (pollOptionText : string)
| OpDeletePollOption (pollID pollOptionID : N).

Definition apply (pc : PollCache) (o : op) : PollCache :=
  match o with
  | OpAddPoll poll => (AddPoll pc poll).1
  | OpDeleteAllPolls => (DeleteAllPolls pc).1
  | OpDeletePoll pollID => (DeletePoll pc pollID).1
  | OpAddPollOption pollID pollOptionID text =>
      (AddPollOption pc pollID pollOptionID text).1
  | OpDeletePollOption pollID pollOptionID =>
      (DeletePollOption pc pollID pollOptionID).1
  end.

Definition run (ops : list op) : PollCache :=
  fold_left apply ops (mkPollCache ∅).

Definition optionIDs (options : list pollOption) : list N :=
  map PollOptionID options.

(** PollOptionID is unique within every stored poll. *)
Definition unique_options (pc : PollCache) : Prop :=
  ∀ k poll, redis pc !! k = Some poll → NoDup (optionIDs (PollOptions poll)).

(** An added poll brings options with distinct ids; a poll made by
    [NewPoll], the only kind the HTTP handler adds, has none. *)
Definition admissible (o : op) : Prop :=
  match o with
  | OpAddPoll poll => NoDup (optionIDs (PollOptions poll))
  | _ => True
  end.

End PollStore.

(** ** src/voting-application/poll-api/api/poll-api.go: the HTTP handlers *)
Module PollAPI.
Import Poll PollStore Http.

Inductive body : Type :=
| NoBody
| PollJSON (p : Poll)
| OptionsJSON (l : list pollOption)
| OptionJSON (o : pollOption)
| MessageJSON (msg : string).

Record response : Type := mkResponse { status : Z; payload : body }.

Definition AbortWithStatus (code : Z) : response := mkResponse code NoBody.
Definition JSON (code : Z) (b : body) : response := mkResponse code b.

Definition GetPoll (pc : PollCache) (id : string) : response :=
  match Strconv.ParseUint32 id with
  | None => AbortWithStatus StatusBadRequest
  | Some pollIDUint =>
      match PollStore.GetPoll pc pollIDUint with
      | Err _ => AbortWithStatus StatusNotFound
      | Ok poll => JSON StatusOK (PollJSON poll)
      end
  end.

Definition AddPoll (pc : PollCache) (id : string) (bind : option Poll)
  : PollCache * response :=
  match Strconv.ParseUint32 id with
  | None => (pc, AbortWithStatus StatusBadRequest)
  | Some pollIDUint =>
      match bind with
      | None => (pc, AbortWithStatus StatusBadRequest)
      | Some newPoll =>
          let newPoll :=
            NewPoll pollIDUint (PollTitle newPoll) (PollQuestion newPoll) in
          match PollStore.AddPoll pc newPoll with
          | (pc', Some _) => (pc', AbortWithStatus StatusInternalServerError)
          | (pc', None) => (pc', JSON StatusOK (PollJSON newPoll))
          end
      end
  end.

Definition DeleteAllPolls (pc : PollCache) : PollCache * response :=
  match PollStore.DeleteAllPolls pc with
  | (pc', Some _) => (pc', AbortWithStatus StatusNotFound)
  | (pc', None) =>
      (pc', JSON StatusOK (MessageJSON "All polls deleted successfully."))
  end.

Definition DeletePoll (pc : PollCache) (id : string) : PollCache * response :=
  match Strconv.ParseUint32 id with
  | None => (pc, AbortWithStatus StatusBadRequest)
  | Some pollIDUint =>
      match PollStore.DeletePoll pc pollIDUint with
      | (pc', Some _) => (pc', AbortWithStatus StatusNotFound)
      | (pc', None) =>
          (pc', JSON StatusOK (MessageJSON "Poll deleted successfully."))
      end
  end.

Definition GetPollOptions (pc : PollCache) (id : string) : response :=
  match Strconv.ParseUint32 id with
  | None => AbortWithStatus StatusBadRequest
  | Some pollIDUint =>
      match PollStore.GetPollOptions pc pollIDUint with
      | Err _ => AbortWithStatus StatusNotFound
      | Ok pollOptions => JSON StatusOK (OptionsJSON pollOptions)
      end
  end.

Definition GetPollOption (pc : PollCache) (id optionId : string) : response :=
  match Strconv.ParseUint32 id with
  | None => AbortWithStatus StatusBadRequest
  | Some pollIDUint =>
      match Strconv.ParseUint32 optionId with
      | None => AbortWithStatus StatusBadRequest
      | Some pollOptionIDUint =>
          match PollStore.GetPollOption pc pollIDUint pollOptionIDUint with
          | Err _ => AbortWithStatus StatusNotFound
          | Ok pollOption => JSON StatusOK (OptionJSON pollOption)
          end
      end
  end.

(** [bind] is the decoded [requestBody.OptionText]. *)
Definition AddPollOption (pc : PollCache) (id optionId : string)
  (bind : option string) : PollCache * response :=
  match Strconv.ParseUint32 id with
  | None => (pc, AbortWithStatus StatusBadRequest)
  | Some pollIDUint =>
      match Strconv.ParseUint32 optionId with
      | None => (pc, AbortWithStatus StatusBadRequest)
      | Some pollOptionIDUint =>
          match bind with
          | None => (pc, AbortWithStatus StatusBadRequest)
          | Some optionText =>
              match PollStore.AddPollOption pc pollIDUint pollOptionIDUint
                      optionText with
              | (pc', Err _) => (pc', AbortWithStatus StatusBadRequest)
              | (pc', Ok newPollOption) =>
                  (pc', JSON StatusOK (OptionJSON newPollOption))
              end
          end
      end
  end.

Definition DeletePollOption (pc : PollCache) (id optionId : string)
  : PollCache * response :=
  match Strconv.ParseUint32 id with
  | None => (pc, AbortWithStatus StatusBadRequest)
  | Some pollIDUint =>
      match Strconv.ParseUint32 optionId with
      | None => (pc, AbortWithStatus StatusBadRequest)
      | Some pollOptionIDUint =>
          match PollStore.DeletePollOption pc pollIDUint pollOptionIDUint with
          | (pc', Some _) => (pc', AbortWithStatus StatusNotFound)
          | (pc', None) =>
              (pc', JSON StatusOK
                      (MessageJSON "Poll option deleted successfully."))
          end
      end
  end.

End PollAPI.

(** ** The requests of the voter service

    The handlers of voter-api.go with what each reads from the request, the
    two that need nothing but the cache included. *)
Module VoterRequests.
Import VoterData VoterCache VoterAPI Http.

Definition WelcomeToVoterAPI : response :=
  JSON StatusOK (MessageJSON "Welcome to voter API.").

Definition DeleteAllVoters (vc : VoterCache) : VoterCache * response :=
  match VoterCache.DeleteAllVoters vc with
  | (vc', Some _) => (vc', AbortWithStatus StatusNotFound)
  | (vc', None) =>
      (vc', JSON StatusOK (MessageJSON "All voters deleted successfully."))
  end.

Inductive request : Type :=
| ReqWelcome
| ReqListAllVoters
| ReqGetVoter (id : string)
| ReqAddVoter (id : string) (bind : option Voter)
| ReqUpdateVoter (id : string) (bind : option Voter)
| ReqDeleteAllVoters
| ReqDeleteVoter (id : string)
| ReqGetVoterHistory (id : string)
| ReqGetVoterPoll (id pollId : string)
| ReqAddVoterPoll (id pollId : string) (bind : option Time) (postForm : bool)
| ReqUpdateVoterPoll (id pollId : string) (bind : option Time) (postForm : bool)
| ReqDeleteVoterPoll (id pollId : string).

(** GET /voters/:id/polls/:pollId *)
Definition GetVoterPoll (vc : VoterCache) (id pollId : string) : response :=
  match Strconv.ParseUint32 id with
  | None => AbortWithStatus StatusBadRequest
  | Some voterIDUint =>
      match Strconv.ParseUint32 pollId with
      | None => AbortWithStatus StatusBadRequest
      | Some pollIDUint =>
          match VoterCache.GetVoterPoll vc voterIDUint pollIDUint with
          | Err _ => AbortWithStatus StatusNotFound
          | Ok voterPoll => JSON StatusOK (VoterPollJSON voterPoll)
          end
      end
  end.

(** [now] is the clock of the service while it handles the request. *)
Definition handle (vc : VoterCache) (now : Time) (r : request)
  : VoterCache * response :=
  match r with
  | ReqWelcome => (vc, WelcomeToVoterAPI)
  | ReqListAllVoters => (vc, ListAllVoters vc)
  | ReqGetVoter id => (vc, VoterAPI.GetVoter vc id)
  | ReqAddVoter id bind => VoterAPI.AddVoter vc id bind
  | ReqUpdateVoter id bind => VoterAPI.UpdateVoter vc id bind
  | ReqDeleteAllVoters => DeleteAllVoters vc
  | ReqDeleteVoter id => VoterAPI.DeleteVoter vc id
  | ReqGetVoterHistory id => (vc, VoterAPI.GetVoterHistory vc id)
  | ReqGetVoterPoll id pollId => (vc, GetVoterPoll vc id pollId)
  | ReqAddVoterPoll id pollId bind postForm =>
      VoterAPI.AddVoterPoll vc id pollId bind postForm now
  | ReqUpdateVoterPoll id pollId bind postForm =>
      VoterAPI.UpdateVoterPoll vc id pollId bind postForm now
  | ReqDeleteVoterPoll id pollId => VoterAPI.DeleteVoterPoll vc id pollId
  end.

(** The voter id a request names in its path, when it names one. *)
Definition path_id (r : request) : option string :=
  match r with
  | ReqWelcome | ReqListAllVoters | ReqDeleteAllVoters => None
  | ReqGetVoter id | ReqAddVoter id _ | ReqUpdateVoter id _
  | ReqDeleteVoter id | ReqGetVoterHistory id | ReqGetVoterPoll id _
  | ReqAddVoterPoll id _ _ _ | ReqUpdateVoterPoll id _ _ _
  | ReqDeleteVoterPoll id _ => Some id
  end.

(** The cache after a run of requests on the empty cache. *)
Fixpoint serve (vc : VoterCache) (reqs : list (Time * request)) : VoterCache :=
  match reqs with
  | [] => vc
  | (now, r) :: rest => serve (handle vc now r).1 rest
  end.

End VoterRequests.

(** ** Where the two voter stores part

    The only operation on which the in-memory list and the Redis cache can
    come apart is an UpdateVoterPoll of poll 0. *)
Module Backends.
Import VoterOps.


End Backends.

(** ** What the HTTP boundary keeps true of the voter cache *)
Module Boundary.
Import VoterData.

(** Every voter id and every poll id of a history fits 32 bits, as
    [strconv.ParseUint(_, 10, 32)] lets no other id in. *)
Definition ids_fit (m : gmap N Voter) : Prop :=
  ∀ k voter, m !! k = Some voter →
    (k < 2 ^ 32)%N
    ∧ Forall (λ pollID, (pollID < 2 ^ 32)%N) (pollIDs (VoteHistory voter)).

End Boundary.

(** ** The todo store and its file together *)
Module TodoOps.
Import Todo.

Inductive op : Type :=
| OpAddItem (item : ToDoItem)
| OpDeleteItem (id : Z)
| OpUpdateItem (item : ToDoItem)
| OpGetItem (id : Z)
| OpGetAllItems
| OpChangeItemDoneStatus (id : Z) (value : bool).

(** One operation of a process on its struct and the file. *)
Definition apply (s : ToDo * file) (o : op) : ToDo * file :=
  match o with
  | OpAddItem item => (AddItem s.1 s.2 item).1
  | OpDeleteItem id => (DeleteItem s.1 s.2 id).1
  | OpUpdateItem item => (UpdateItem s.1 s.2 item).1
  | OpGetItem id => ((GetItem s.1 s.2 id).1, s.2)
  | OpGetAllItems => ((GetAllItems s.1 s.2).1, s.2)
  | OpChangeItemDoneStatus id value => (ChangeItemDoneStatus s.1 s.2 id value).1
  end.

(** A process that opens a store nobody else writes, and runs operations. *)
Definition run (dbFile : string) (fileExists : bool) (ops : list op)
  : ToDo * file :=
  fold_left apply ops (New dbFile (if fileExists then Items [] else Missing)).

(** What a new process sees of a file: the map [loadDB] builds from it. *)
Definition seen_by_new_process (dbFile : string) (disk : file)
  : gmap Z ToDoItem :=
  toDoMap (loadDB (New dbFile disk).1 (New dbFile disk).2).1.

(** Every item is stored under its own id. *)
Definition keyed (m : gmap Z ToDoItem) : Prop :=
  ∀ k item, m !! k = Some item → Id item = k.

Definition ids (l : list ToDoItem) : list Z := map Id l.

(** The loop of [loadDB]: each item of the list is put under its id. *)
Definition putAll (m : gmap Z ToDoItem) (l : list ToDoItem)
  : gmap Z ToDoItem :=
  fold_left (fun m item => <[Id item := item]> m) l m.

(** What the struct holds once [loadDB] has read the file. *)
Definition held (t : ToDo) (disk : file) : gmap Z ToDoItem :=
  toDoMap (loadDB t disk).1.

(** The struct and the file agree: the memory is keyed, the file holds
    items with distinct ids, and a new process reading it sees the memory. *)
Definition synced (dbFile : string) (s : ToDo * file) : Prop :=
  keyed (toDoMap s.1)
  ∧ (∃ l, s.2 = Items l ∧ NoDup (ids l))
  ∧ seen_by_new_process dbFile s.2 = toDoMap s.1.

End TodoOps.

(** * Properties *)

(** ** Path parameters *)
Section PathParameters.

Example ParseUint32_examples :
  Strconv.ParseUint32 "1" = Some 1%N
  ∧ Strconv.ParseUint32 "007" = Some 7%N
  ∧ Strconv.ParseUint32 "4294967295" = Some 4294967295%N
  ∧ Strconv.ParseUint32 "4294967296" = None
  ∧ Strconv.ParseUint32 "" = None
  ∧ Strconv.ParseUint32 "-1" = None
  ∧ Strconv.ParseUint32 "1a" = None.
Proof. repeat split; reflexivity. Qed.

(** The path the votes service builds for an id is read back as that id. *)
Example Itoa_then_ParseUint32 :
  Strconv.ParseUint32 (Int.Itoa_of_uint 0) = Some 0%N
  ∧ Strconv.ParseUint32 (Int.Itoa_of_uint 42) = Some 42%N
  ∧ Strconv.ParseUint32 (Int.Itoa_of_uint 4294967295) = Some 4294967295%N.
Proof. repeat split; reflexivity. Qed.

End PathParameters.

(** ** Histories *)
Section History.
Import VoterData.

Lemma findPoll_None (h : list voterPoll) (pollID : N) :
  findPoll h pollID = None ↔ pollID ∉ pollIDs h.
Proof.
  induction h as [|poll rest IH]; simpl.
  - split; [intros _; apply not_elem_of_nil | done].
  - destruct (N.eqb_spec (PollID poll) pollID) as [Heq|Hne].
    + split; [done | intros Hn; exfalso; apply Hn; subst; left].
    + rewrite IH, not_elem_of_cons.
      split; [intros H; split; [congruence | done] | by intros [_ H]].
Qed.

Lemma findPoll_is_Some (h : list voterPoll) (pollID : N) :
  pollID ∈ pollIDs h → is_Some (findPoll h pollID).
Proof.
  intros Hin. destruct (findPoll h pollID) eqn:E; [eauto|].
  apply findPoll_None in E. done.
Qed.

Lemma updateLoop_pollIDs (h : list voterPoll) (pollID : N) (date : Time) :
  pollIDs (updateLoop h pollID date).1 = pollIDs h.
Proof.
  induction h as [|p rest IH]; simpl; [done|].
  destruct (N.eqb_spec (PollID p) pollID) as [Heq|Hne]; simpl.
  - by rewrite Heq.
  - destruct (updateLoop rest pollID date) as [rest' u]; simpl in *.
    by rewrite IH.
Qed.

Lemma updateLoop_miss (h : list voterPoll) (pollID : N) (date : Time) :
  findPoll h pollID = None → updateLoop h pollID date = (h, zeroVoterPoll).
Proof.
  induction h as [|p rest IH]; simpl; [done|].
  destruct (PollID p =? pollID)%N; [done|].
  intros H. by rewrite (IH H).
Qed.

Lemma updateLoop_hit (h : list voterPoll) (pollID : N) (date : Time) :
  is_Some (findPoll h pollID) →
  (updateLoop h pollID date).2 = mkVoterPoll pollID date
  ∧ findPoll (updateLoop h pollID date).1 pollID
    = Some (mkVoterPoll pollID date).
Proof.
  induction h as [|p rest IH]; simpl; [by intros [? ?]|].
  destruct (N.eqb_spec (PollID p) pollID) as [Heq|Hne]; simpl.
  - intros _. by rewrite N.eqb_refl.
  - intros H. destruct (IH H) as [H2 H1].
    destruct (updateLoop rest pollID date) as [rest' u]; simpl in *.
    destruct (N.eqb_spec (PollID p) pollID); [done|]. done.
Qed.

Lemma removeLoop_pollIDs (h : list voterPoll) (pollID : N) :
  pollIDs (removeLoop h pollID) = filter (λ i, i ≠ pollID) (pollIDs h).
Proof.
  induction h as [|p rest IH]; simpl; [done|].
  destruct (N.eqb_spec (PollID p) pollID) as [Heq|Hne]; simpl.
  - rewrite filter_cons_False by (intros H; by apply H). exact IH.
  - rewrite filter_cons_True by done. simpl. by rewrite IH.
Qed.

Lemma removeLoop_unique (h : list voterPoll) (pollID : N) :
  history_unique h → history_unique (removeLoop h pollID).
Proof.
  unfold history_unique. rewrite removeLoop_pollIDs. apply NoDup_filter.
Qed.

Lemma removeLoop_gone (h : list voterPoll) (pollID : N) :
  pollID ∉ pollIDs (removeLoop h pollID).
Proof.
  rewrite removeLoop_pollIDs, list_elem_of_filter.
  intros [H _]. by apply H.
Qed.

Lemma removeLoop_length (h : list voterPoll) (pollID : N) :
  (length (removeLoop h pollID) ≤ length h)%nat
  ∧ (length (removeLoop h pollID) = length h ↔ pollID ∉ pollIDs h).
Proof.
  induction h as [|p rest [IHle IHeq]]; simpl.
  - split; [lia|]. split; [intros _; apply not_elem_of_nil | done].
  - destruct (N.eqb_spec (PollID p) pollID) as [Heq|Hne]; simpl.
    + split; [lia|]. split; [lia|].
      intros Hn. exfalso. apply Hn. subst. left.
    + split; [lia|]. rewrite not_elem_of_cons.
      split; [intros H; split; [done|]; apply IHeq; lia
             | intros [_ H]; f_equal; by apply IHeq].
Qed.

Lemma append_unique (h : list voterPoll) (pollID : N) (date : Time) :
  history_unique h → findPoll h pollID = None →
  history_unique (h ++ [mkVoterPoll pollID date]).
Proof.
  unfold history_unique, pollIDs. intros Hnd Hnone.
  rewrite map_app. simpl. apply NoDup_app. split; [done|]. split.
  - intros x Hx Hx'. apply list_elem_of_singleton in Hx'. subst x.
    by apply findPoll_None in Hnone.
  - apply NoDup_singleton.
Qed.

Lemma setHistory_same (v : Voter) : setHistory v (VoteHistory v) = v.
Proof. by destruct v. Qed.

End History.

(** ** The two invariants of a voter store *)
Section StoreInvariants.
Import VoterData VoterOps.

Implicit Types (m : gmap N Voter) (v : Voter) (h : list voterPoll).

Lemma keyed_empty : keyed ∅.
Proof. intros k v H. by rewrite lookup_empty in H. Qed.

Lemma unique_empty : unique_histories ∅.
Proof. intros k v H. by rewrite lookup_empty in H. Qed.

Lemma keyed_insert m k v : keyed m → VoterID v = k → keyed (<[k := v]> m).
Proof.
  intros Hk Hv j x. rewrite lookup_insert.
  case_decide; [intros [= <-]; congruence | apply Hk].
Qed.

Lemma unique_insert m k v :
  unique_histories m → history_unique (VoteHistory v) →
  unique_histories (<[k := v]> m).
Proof.
  intros Hu Hv j x. rewrite lookup_insert.
  case_decide; [by intros [= <-] | apply Hu].
Qed.

Lemma keyed_delete m k : keyed m → keyed (delete k m).
Proof.
  intros Hk j x. rewrite lookup_delete.
  case_decide; [done | apply Hk].
Qed.

Lemma unique_delete m k : unique_histories m → unique_histories (delete k m).
Proof.
  intros Hu j x. rewrite lookup_delete.
  case_decide; [done | apply Hu].
Qed.

(** Under [keyed] the write at [voter.VoterID] lands on the key read. *)
Lemma keyed_setHistory m k v h :
  keyed m → m !! k = Some v → keyed (<[VoterID v := setHistory v h]> m).
Proof. intros Hk Hv. by apply keyed_insert. Qed.

Lemma updateLoop_unique h pollID date :
  history_unique h → history_unique (updateLoop h pollID date).1.
Proof. unfold history_unique. by rewrite updateLoop_pollIDs. Qed.

Lemma keyed_applyList vl o : keyed (VoterList.Voters vl) →
  keyed (VoterList.Voters (applyList vl o)).
Proof.
  intros Hk. destruct o as [voter|voter| |id|id pid d|id pid d|id pid]; simpl.
  - unfold VoterList.AddVoter.
    destruct (VoterList.Voters vl !! VoterID voter); simpl;
      [done | by apply keyed_insert].
  - unfold VoterList.UpdateVoter.
    destruct (VoterList.Voters vl !! VoterID voter) as [e|] eqn:E; simpl;
      [|done].
    apply keyed_insert; [done | exact (Hk _ _ E)].
  - apply keyed_empty.
  - unfold VoterList.DeleteVoter.
    destruct (VoterList.Voters vl !! id); simpl;
      [by apply keyed_delete | done].
  - unfold VoterList.AddVoterPoll.
    destruct (VoterList.Voters vl !! id) as [v|] eqn:E; simpl; [|done].
    destruct (findPoll (VoteHistory v) pid); simpl; [done|].
    by eapply keyed_setHistory.
  - unfold VoterList.UpdateVoterPoll.
    destruct (VoterList.Voters vl !! id) as [v|] eqn:E; simpl; [|done].
    destruct (updateLoop (VoteHistory v) pid d) as [h' u].
    assert (keyed (<[id := setHistory v h']> (VoterList.Voters vl))) as Hk'
      by (apply keyed_insert; [done | exact (Hk _ _ E)]).
    destruct (PollID u =? 0)%N; simpl; [done|].
    by apply keyed_insert.
  - unfold VoterList.DeleteVoterPoll.
    destruct (VoterList.Voters vl !! id) as [v|] eqn:E; simpl; [|done].
    destruct (length (removeLoop (VoteHistory v) pid) =? length (VoteHistory v))%nat;
      simpl; [done|].
    by eapply keyed_setHistory.
Qed.


Lemma keyed_applyCache vc o : keyed (VoterCache.redis vc) →
  keyed (VoterCache.redis (applyCache vc o)).
Proof.
  intros Hk. destruct o as [voter|voter| |id|id pid d|id pid d|id pid]; simpl.
  - unfold VoterCache.AddVoter, VoterCache.GetVoter.
    destruct (VoterCache.redis vc !! VoterID voter); simpl;
      [done | by apply keyed_insert].
  - unfold VoterCache.UpdateVoter, VoterCache.GetVoter.
    destruct (VoterCache.redis vc !! VoterID voter) as [e|] eqn:E; simpl;
      [|done].
    apply keyed_insert; [done | exact (Hk _ _ E)].
  - apply keyed_empty.
  - unfold VoterCache.DeleteVoter, VoterCache.GetVoter.
    destruct (VoterCache.redis vc !! id); simpl;
      [by apply keyed_delete | done].
  - unfold VoterCache.AddVoterPoll, VoterCache.GetVoter.
    destruct (VoterCache.redis vc !! id) as [v|] eqn:E; simpl; [|done].
    destruct (findPoll (VoteHistory v) pid); simpl; [done|].
    by eapply keyed_setHistory.
  - unfold VoterCache.UpdateVoterPoll, VoterCache.GetVoter.
    destruct (VoterCache.redis vc !! id) as [v|] eqn:E; simpl; [|done].
    destruct (updateLoop (VoteHistory v) pid d) as [h' u].
    destruct (PollID u =? 0)%N; simpl; [done|].
    by eapply keyed_setHistory.
  - unfold VoterCache.DeleteVoterPoll, VoterCache.GetVoter.
    destruct (VoterCache.redis vc !! id) as [v|] eqn:E; simpl; [|done].
    destruct (length (removeLoop (VoteHistory v) pid) =? length (VoteHistory v))%nat;
      simpl; [done|].
    by eapply keyed_setHistory.
Qed.

Lemma unique_applyCache vc o :
  admissible o → unique_histories (VoterCache.redis vc) →
  unique_histories (VoterCache.redis (applyCache vc o)).
Proof.
  intros Ha Hu.
  destruct o as [voter|voter| |id|id pid d|id pid d|id pid]; simpl.
  - unfold VoterCache.AddVoter, VoterCache.GetVoter.
    destruct (VoterCache.redis vc !! VoterID voter); simpl;
      [done | by apply unique_insert].
  - unfold VoterCache.UpdateVoter, VoterCache.GetVoter.
    destruct (VoterCache.redis vc !! VoterID voter) as [e|] eqn:E; simpl;
      [|done].
    apply unique_insert; [done | exact (Hu _ _ E)].
  - apply unique_empty.
  - unfold VoterCache.DeleteVoter, VoterCache.GetVoter.
    destruct (VoterCache.redis vc !! id); simpl;
      [by apply unique_delete | done].
  - unfold VoterCache.AddVoterPoll, VoterCache.GetVoter.
    destruct (VoterCache.redis vc !! id) as [v|] eqn:E; simpl; [|done].
    destruct (findPoll (VoteHistory v) pid) eqn:F; simpl; [done|].
    apply unique_insert; [done|]. simpl.
    apply append_unique; [exact (Hu _ _ E) | done].
  - unfold VoterCache.UpdateVoterPoll, VoterCache.GetVoter.
    destruct (VoterCache.redis vc !! id) as [v|] eqn:E; simpl; [|done].
    pose proof (updateLoop_unique (VoteHistory v) pid d (Hu _ _ E)) as Hh.
    destruct (updateLoop (VoteHistory v) pid d) as [h' u]. simpl in Hh.
    destruct (PollID u =? 0)%N; simpl; [done|]. by apply unique_insert.
  - unfold VoterCache.DeleteVoterPoll, VoterCache.GetVoter.
    destruct (VoterCache.redis vc !! id) as [v|] eqn:E; simpl; [|done].
    destruct (length (removeLoop (VoteHistory v) pid) =? length (VoteHistory v))%nat;
      simpl; [done|].
    apply unique_insert; [done|]. simpl.
    apply removeLoop_unique. exact (Hu _ _ E).
Qed.



End StoreInvariants.

(** ** The voter store: its sub-collection of history entries *)
Section VoterStore.
Import VoterData VoterOps.


Lemma AddVoterPoll_cache_duplicate vc voterID pollID date voter :
  VoterCache.redis vc !! voterID = Some voter →
  pollID ∈ pollIDs (VoteHistory voter) →
  VoterCache.AddVoterPoll vc voterID pollID date = (vc, Err ErrAlreadyVoted).
Proof.
  intros Hv Hin. unfold VoterCache.AddVoterPoll, VoterCache.GetVoter.
  rewrite Hv. by destruct (findPoll_is_Some _ _ Hin) as [p ->].
Qed.


Lemma AddVoterPoll_cache_new vc voterID pollID date voter :
  keyed (VoterCache.redis vc) →
  VoterCache.redis vc !! voterID = Some voter →
  pollID ∉ pollIDs (VoteHistory voter) →
  ∃ vc', VoterCache.AddVoterPoll vc voterID pollID date
         = (vc', Ok (mkVoterPoll pollID date))
    ∧ VoterCache.GetVoterHistory vc' voterID
      = Ok (VoteHistory voter ++ [mkVoterPoll pollID date]).
Proof.
  intros Hk Hv Hnin. unfold VoterCache.AddVoterPoll, VoterCache.GetVoter.
  rewrite Hv. apply findPoll_None in Hnin. rewrite Hnin.
  eexists. split; [reflexivity|].
  unfold VoterCache.GetVoterHistory, VoterCache.GetVoter. simpl.
  rewrite (Hk _ _ Hv). by rewrite lookup_insert_eq.
Qed.




End VoterStore.

(** ** UpdateVoterPoll and the poll id zero *)
Section UpdateVoterPoll.
Import VoterData VoterOps.

(** For a poll id other than zero UpdateVoterPoll of the cache behaves as
    the contract says: NotFound exactly when the voter or the entry is
    missing, and otherwise the entry carries the new date. *)
Lemma UpdateVoterPoll_cache_nonzero vc voterID pollID date :
  pollID ≠ 0%N → keyed (VoterCache.redis vc) →
  match VoterCache.redis vc !! voterID with
  | None =>
      VoterCache.UpdateVoterPoll vc voterID pollID date
      = (vc, Err ErrVoterDoesNotExist)
  | Some voter =>
      if decide (pollID ∈ pollIDs (VoteHistory voter))
      then ∃ vc',
          VoterCache.UpdateVoterPoll vc voterID pollID date
          = (vc', Ok (mkVoterPoll pollID date))
          ∧ VoterCache.GetVoterPoll vc' voterID pollID
            = Ok (mkVoterPoll pollID date)
      else VoterCache.UpdateVoterPoll vc voterID pollID date
           = (vc, Err ErrVoterPollNotFound)
  end.
Proof.
  intros Hnz Hk. unfold VoterCache.UpdateVoterPoll, VoterCache.GetVoter.
  destruct (VoterCache.redis vc !! voterID) as [voter|] eqn:Hv; [|done].
  case_decide as Hin.
  - destruct (updateLoop_hit _ _ date (findPoll_is_Some _ _ Hin)) as [Hu Hf].
    destruct (updateLoop (VoteHistory voter) pollID date) as [h' u].
    simpl in Hu, Hf. subst u. simpl.
    destruct (N.eqb_spec pollID 0) as [?|_]; [done|].
    eexists. split; [reflexivity|].
    unfold VoterCache.GetVoterPoll, VoterCache.GetVoter. simpl.
    rewrite (Hk _ _ Hv), lookup_insert_eq. simpl. by rewrite Hf.
  - apply findPoll_None in Hin. by rewrite (updateLoop_miss _ _ _ Hin).
Qed.

Lemma UpdateVoterPoll_list_nonzero vl voterID pollID date :
  pollID ≠ 0%N → keyed (VoterList.Voters vl) →
  match VoterList.Voters vl !! voterID with
  | None =>
      VoterList.UpdateVoterPoll vl voterID pollID date
      = (vl, Err ErrVoterDoesNotExist)
  | Some voter =>
      if decide (pollID ∈ pollIDs (VoteHistory voter))
      then ∃ vl',
          VoterList.UpdateVoterPoll vl voterID pollID date
          = (vl', Ok (mkVoterPoll pollID date))
          ∧ VoterList.GetVoterPoll vl' voterID pollID
            = Ok (mkVoterPoll pollID date)
      else VoterList.UpdateVoterPoll vl voterID pollID date
           = (vl, Err ErrVoterPollNotFound)
  end.
Proof.
  intros Hnz Hk. unfold VoterList.UpdateVoterPoll.
  destruct (VoterList.Voters vl !! voterID) as [voter|] eqn:Hv; [|done].
  case_decide as Hin.
  - destruct (updateLoop_hit _ _ date (findPoll_is_Some _ _ Hin)) as [Hu Hf].
    destruct (updateLoop (VoteHistory voter) pollID date) as [h' u].
    simpl in Hu, Hf. subst u. simpl.
    destruct (N.eqb_spec pollID 0) as [?|_]; [done|].
    eexists. split; [reflexivity|].
    unfold VoterList.GetVoterPoll. simpl.
    rewrite (Hk _ _ Hv), lookup_insert_eq. simpl. by rewrite Hf.
  - apply findPoll_None in Hin. rewrite (updateLoop_miss _ _ _ Hin). simpl.
    rewrite setHistory_same, (insert_id _ _ _ Hv). by destruct vl.
Qed.

(** DeleteVoterPoll tells a miss by the length of the filtered history, and
    is right for every poll id, zero included. *)
Lemma DeleteVoterPoll_cache_any_poll vc voterID pollID :
  keyed (VoterCache.redis vc) →
  match VoterCache.redis vc !! voterID with
  | None =>
      VoterCache.DeleteVoterPoll vc voterID pollID
      = (vc, Some ErrVoterDoesNotExist)
  | Some voter =>
      if decide (pollID ∈ pollIDs (VoteHistory voter))
      then ∃ vc',
          VoterCache.DeleteVoterPoll vc voterID pollID = (vc', None)
          ∧ VoterCache.GetVoterPoll vc' voterID pollID
            = Err ErrVoterPollNotFound
      else VoterCache.DeleteVoterPoll vc voterID pollID
           = (vc, Some ErrVoterPollNotFound)
  end.
Proof.
  intros Hk. unfold VoterCache.DeleteVoterPoll, VoterCache.GetVoter.
  destruct (VoterCache.redis vc !! voterID) as [voter|] eqn:Hv; [|done].
  destruct (removeLoop_length (VoteHistory voter) pollID) as [_ Hlen].
  destruct (Nat.eqb_spec (length (removeLoop (VoteHistory voter) pollID))
              (length (VoteHistory voter))) as [Heq|Hne];
    case_decide as Hin; try done.
  - by apply Hlen in Heq.
  - eexists. split; [reflexivity|].
    unfold VoterCache.GetVoterPoll, VoterCache.GetVoter. simpl.
    rewrite (Hk _ _ Hv), lookup_insert_eq. simpl.
    pose proof (removeLoop_gone (VoteHistory voter) pollID) as Hgone.
    apply findPoll_None in Hgone. by rewrite Hgone.
  - by apply Hlen in Hin.
Qed.

(** C5 at poll id 0.  A voter is added and votes in poll 0, both accepted;
    GetVoterPoll finds the entry; UpdateVoterPoll answers "voter poll not
    found" all the same, in the cache and in the in-memory list, because it
    tells a miss by the zero PollID of the entry it would return. *)
Theorem UpdateVoterPoll_poll_zero :
  let ops := [OpAddVoter (NewVoter 1 "Nisarg" "Patel"); OpAddVoterPoll 1 0 100] in
  let vc := runCache ops in
  let vl := runList ops in
  VoterCache.GetVoterHistory vc 1 = Ok [mkVoterPoll 0 100]
  ∧ VoterCache.GetVoterPoll vc 1 0 = Ok (mkVoterPoll 0 100)
  ∧ VoterCache.UpdateVoterPoll vc 1 0 200 = (vc, Err ErrVoterPollNotFound)
  ∧ VoterList.GetVoterHistory vl 1 = Ok [mkVoterPoll 0 100]
  ∧ VoterList.GetVoterPoll vl 1 0 = Ok (mkVoterPoll 0 100)
  ∧ (VoterList.UpdateVoterPoll vl 1 0 200).2 = Err ErrVoterPollNotFound
  ∧ kind_of ErrVoterPollNotFound = NotFound.
Proof. repeat split; reflexivity. Qed.

(** In the in-memory list the refused update has nevertheless written the
    new date into the stored entry, through the slice the copy shares. *)
Example UpdateVoterPoll_poll_zero_writes_through :
  let vl := runList [OpAddVoter (NewVoter 1 "Nisarg" "Patel");
                     OpAddVoterPoll 1 0 100] in
  (VoterList.UpdateVoterPoll vl 1 0 200).2 = Err ErrVoterPollNotFound
  ∧ VoterList.GetVoterPoll (VoterList.UpdateVoterPoll vl 1 0 200).1 1 0
    = Ok (mkVoterPoll 0 200).
Proof. split; reflexivity. Qed.

End UpdateVoterPoll.

(** ** UpdateVoter *)
Section UpdateVoter.
Import VoterData.

(** C7: UpdateVoter fails with "voter does not exist" when the id of the
    payload is not stored, and leaves the store alone; otherwise the stored
    voter keeps its id and its VoteHistory, whatever history the payload
    carries, takes FirstName and LastName from the payload, and every other
    voter is as before.  Both the in-memory list and the Redis cache. *)
Theorem UpdateVoter_overwrites_names_only
  (vl : VoterList.VoterList) (vc : VoterCache.VoterCache) (payload : Voter) :
  match VoterList.Voters vl !! VoterID payload with
  | None =>
      VoterList.UpdateVoter vl payload = (vl, Some ErrVoterDoesNotExist)
  | Some stored =>
      ∃ vl',
        VoterList.UpdateVoter vl payload = (vl', None)
        ∧ VoterList.GetVoter vl' (VoterID payload)
          = Ok (mkVoter (VoterID stored) (FirstName payload)
                  (LastName payload) (VoteHistory stored))
        ∧ VoterList.GetVoterHistory vl' (VoterID payload)
          = VoterList.GetVoterHistory vl (VoterID payload)
        ∧ ∀ k, k ≠ VoterID payload →
               VoterList.Voters vl' !! k = VoterList.Voters vl !! k
  end
  ∧
  match VoterCache.redis vc !! VoterID payload with
  | None =>
      VoterCache.UpdateVoter vc payload = (vc, Err ErrVoterDoesNotExist)
  | Some stored =>
      ∃ vc',
        VoterCache.UpdateVoter vc payload
        = (vc', Ok (mkVoter (VoterID stored) (FirstName payload)
                      (LastName payload) (VoteHistory stored)))
        ∧ VoterCache.GetVoter vc' (VoterID payload)
          = Ok (mkVoter (VoterID stored) (FirstName payload)
                  (LastName payload) (VoteHistory stored))
        ∧ VoterCache.GetVoterHistory vc' (VoterID payload)
          = VoterCache.GetVoterHistory vc (VoterID payload)
        ∧ ∀ k, k ≠ VoterID payload →
               VoterCache.redis vc' !! k = VoterCache.redis vc !! k
  end.
Proof.
  split.
  - unfold VoterList.UpdateVoter.
    destruct (VoterList.Voters vl !! VoterID payload) as [stored|] eqn:E;
      [|done].
    eexists. split; [reflexivity|].
    unfold VoterList.GetVoter, VoterList.GetVoterHistory. simpl.
    rewrite lookup_insert_eq, E. repeat split.
    intros k Hk. by rewrite lookup_insert_ne.
  - unfold VoterCache.UpdateVoter, VoterCache.GetVoter.
    destruct (VoterCache.redis vc !! VoterID payload) as [stored|] eqn:E;
      [|done].
    eexists. split; [reflexivity|].
    unfold VoterCache.GetVoterHistory, VoterCache.GetVoter. simpl.
    rewrite lookup_insert_eq, E. repeat split.
    intros k Hk. by rewrite lookup_insert_ne.
Qed.

End UpdateVoter.

(** ** The HTTP boundary of the voter service *)
Section VoterBoundary.
Import VoterData VoterOps Http.

Lemma AddVoter_existing_id vc id voterID bodyVoter :
  Strconv.ParseUint32 id = Some voterID →
  is_Some (VoterCache.redis vc !! voterID) →
  VoterAPI.AddVoter vc id (Some bodyVoter)
  = (vc, VoterAPI.AbortWithStatus StatusInternalServerError).
Proof.
  intros Hid [stored Hs]. unfold VoterAPI.AddVoter. rewrite Hid.
  unfold VoterCache.AddVoter, VoterCache.GetVoter. simpl. by rewrite Hs.
Qed.

Lemma UpdateVoter_absent_id vc id voterID bodyVoter :
  Strconv.ParseUint32 id = Some voterID →
  VoterCache.redis vc !! voterID = None →
  VoterAPI.UpdateVoter vc id (Some bodyVoter)
  = (vc, VoterAPI.AbortWithStatus StatusInternalServerError).
Proof.
  intros Hid Hs. unfold VoterAPI.UpdateVoter. rewrite Hid.
  unfold VoterCache.UpdateVoter, VoterCache.GetVoter. simpl. by rewrite Hs.
Qed.

(** C6 at the two requests it names.  With voter 1 stored, POST /voters/1
    (AlreadyExists) and PUT /voters/2 (NotFound) are both answered 500, a
    server error and no client error, while the neighbouring handlers answer
    the same two error kinds with 404 and 400: DELETE /voters/2 and a second
    POST /voters/1/polls/7. *)
Theorem AddVoter_UpdateVoter_answer_500 :
  let vc := runCache [OpAddVoter (NewVoter 1 "Nisarg" "Patel");
                      OpAddVoterPoll 1 7 100] in
  let payload := Some (NewVoter 0 "Avani" "Patel") in
  let added := VoterAPI.AddVoter vc "1" payload in
  let updated := VoterAPI.UpdateVoter vc "2" payload in
  (VoterAPI.status added.2 = 500 ∧ added.1 = vc
   ∧ server_error (VoterAPI.status added.2)
   ∧ ¬ client_error (VoterAPI.status added.2))
  ∧ (VoterAPI.status updated.2 = 500 ∧ updated.1 = vc
     ∧ server_error (VoterAPI.status updated.2)
     ∧ ¬ client_error (VoterAPI.status updated.2))
  ∧ VoterAPI.status (VoterAPI.DeleteVoter vc "2").2 = 404
  ∧ VoterAPI.status (VoterAPI.AddVoterPoll vc "1" "7" (Some 200) false 200).2
    = 400.
Proof.
  cbv zeta. unfold server_error, client_error.
  repeat split; try reflexivity; try lia.
  all: change (VoterAPI.status _) with 500; lia.
Qed.

(** C10: when POST /voters/:id answers 200 the body was decoded, the id
    parsed, and the voter stored under that id is [NewVoter] of the id and
    the two names of the body: its VoteHistory is empty whatever history the
    body carried, and GetVoterHistory returns the empty list. *)
Theorem AddVoter_stores_empty_history
  (vc vc' : VoterCache.VoterCache) (id : string) (bind : option Voter)
  (resp : VoterAPI.response) :
  VoterAPI.AddVoter vc id bind = (vc', resp) →
  VoterAPI.status resp = StatusOK →
  ∃ voterID bodyVoter,
    Strconv.ParseUint32 id = Some voterID
    ∧ bind = Some bodyVoter
    ∧ VoterCache.GetVoter vc' voterID
      = Ok (NewVoter voterID (FirstName bodyVoter) (LastName bodyVoter))
    ∧ VoterCache.GetVoterHistory vc' voterID = Ok [].
Proof.
  unfold VoterAPI.AddVoter.
  destruct (Strconv.ParseUint32 id) as [voterID|]; [|by intros [= <- <-]].
  destruct bind as [bodyVoter|]; [|by intros [= <- <-]].
  unfold VoterCache.AddVoter, VoterCache.GetVoter. simpl.
  destruct (VoterCache.redis vc !! voterID); [by intros [= <- <-]|].
  intros [= <- <-] _. exists voterID, bodyVoter.
  unfold VoterCache.GetVoterHistory, VoterCache.GetVoter. simpl.
  by rewrite lookup_insert_eq.
Qed.

(** POST /voters/1 with a body that carries two history entries. *)
Lemma AddVoter_stores_empty_history_witness :
  let bodyVoter := mkVoter 9 "Nisarg" "Patel"
                     [mkVoterPoll 1 100; mkVoterPoll 2 200] in
  let out := VoterAPI.AddVoter (VoterCache.mkVoterCache ∅) "1" (Some bodyVoter) in
  VoterAPI.status out.2 = StatusOK
  ∧ ∃ voterID bodyVoter',
      Strconv.ParseUint32 "1" = Some voterID
      ∧ Some bodyVoter = Some bodyVoter'
      ∧ VoterCache.GetVoter out.1 voterID
        = Ok (NewVoter voterID (FirstName bodyVoter') (LastName bodyVoter'))
      ∧ VoterCache.GetVoterHistory out.1 voterID = Ok [].
Proof.
  intros bodyVoter out. split; [reflexivity|].
  apply (AddVoter_stores_empty_history (VoterCache.mkVoterCache ∅) out.1 "1"
           (Some bodyVoter) out.2); reflexivity.
Defined.

End VoterBoundary.

(** ** The vote recording workflow *)
Section Workflow.
Import Http Votes VotesAPI Referenced.

Lemma elem_of_GetAllVoters vc voter :
  voter ∈ VoterCache.GetAllVoters vc
  ↔ ∃ k, VoterCache.redis vc !! k = Some voter.
Proof.
  unfold VoterCache.GetAllVoters. rewrite list_elem_of_fmap. split.
  - intros [[k v] [-> Hin]]. exists k. by apply elem_of_map_to_list.
  - intros [k Hk]. exists (k, voter). split; [done|].
    by apply elem_of_map_to_list.
Qed.

Lemma elem_of_GetAllPolls pc poll :
  poll ∈ Poll.GetAllPolls pc ↔ ∃ k, Poll.redis pc !! k = Some poll.
Proof.
  unfold Poll.GetAllPolls. rewrite list_elem_of_fmap. split.
  - intros [[k v] [-> Hin]]. exists k. by apply elem_of_map_to_list.
  - intros [k Hk]. exists (k, poll). split; [done|].
    by apply elem_of_map_to_list.
Qed.

Lemma getVoters_answer svc :
  getVoters false svc = Some (VoterCache.GetAllVoters (voterService svc)).
Proof. reflexivity. Qed.

Lemma getPolls_answer svc :
  getPolls false svc = Some (Poll.GetAllPolls (pollService svc)).
Proof. reflexivity. Qed.

Lemma foundVoterID_exists vc vID :
  foundVoterID (VoterCache.GetAllVoters vc) vID = true ↔ voter_exists vc vID.
Proof.
  unfold foundVoterID, voter_exists. rewrite existsb_exists. split.
  - intros [voter [Hin Heq]]. apply list_elem_of_In, elem_of_GetAllVoters in Hin.
    destruct Hin as [k Hk]. exists k, voter. split; [done|].
    by apply N.eqb_eq.
  - intros (k & voter & Hk & Heq). exists voter. split.
    + apply list_elem_of_In, elem_of_GetAllVoters. eauto.
    + by apply N.eqb_eq.
Qed.

Lemma findPollAndOption_found polls pID optID :
  (findPollAndOption polls pID optID).1 = true →
  ∃ poll, poll ∈ polls ∧ Poll.PollID poll = pID
          ∧ (findPollAndOption polls pID optID).2
            = existsb (fun option => (Poll.PollOptionID option =? optID)%N)
                (Poll.PollOptions poll).
Proof.
  induction polls as [|p rest IH]; simpl; [done|].
  destruct (N.eqb_spec (Poll.PollID p) pID) as [Heq|Hne]; simpl.
  - intros _. exists p. split; [left | done].
  - intros H. destruct (IH H) as (poll & Hin & Hid & Ho).
    exists poll. split; [by right | done].
Qed.

Lemma findPollAndOption_no_poll polls pID optID :
  (findPollAndOption polls pID optID).1 = false →
  ∀ poll, poll ∈ polls → Poll.PollID poll ≠ pID.
Proof.
  induction polls as [|p rest IH]; simpl.
  - intros _ poll Hin. by apply elem_of_nil in Hin.
  - destruct (N.eqb_spec (Poll.PollID p) pID) as [Heq|Hne]; simpl; [done|].
    intros H poll Hin. apply elem_of_cons in Hin as [->|Hin]; [done|].
    by apply IH.
Qed.

Lemma existsb_option options optID :
  existsb (fun option => (Poll.PollOptionID option =? optID)%N) options = true
  ↔ ∃ option, option ∈ options ∧ Poll.PollOptionID option = optID.
Proof.
  rewrite existsb_exists. split; intros [o [Hin Heq]]; exists o.
  - split; [by apply list_elem_of_In | by apply N.eqb_eq].
  - split; [by apply list_elem_of_In | by apply N.eqb_eq].
Qed.

(** What the two flags of the poll loop say about the poll store. *)
Lemma findPollAndOption_exists pc pID optID :
  findPollAndOption (Poll.GetAllPolls pc) pID optID = (true, true) →
  poll_exists pc pID ∧ option_exists pc pID optID.
Proof.
  intros H.
  destruct (findPollAndOption_found (Poll.GetAllPolls pc) pID optID)
    as (poll & Hin & Hid & Ho); [by rewrite H|].
  rewrite H in Ho. simpl in Ho. symmetry in Ho.
  apply existsb_option in Ho as (o & Hoin & Hoid).
  apply elem_of_GetAllPolls in Hin as [k Hk].
  split; [by exists k, poll | by exists k, poll, o].
Qed.

Lemma findPollAndOption_keyed pc poll option :
  polls_keyed pc →
  Poll.redis pc !! Poll.PollID poll = Some poll →
  option ∈ Poll.PollOptions poll →
  findPollAndOption (Poll.GetAllPolls pc) (Poll.PollID poll)
    (Poll.PollOptionID option) = (true, true).
Proof.
  intros Hk Hp Ho.
  destruct (findPollAndOption (Poll.GetAllPolls pc) (Poll.PollID poll)
              (Poll.PollOptionID option)) as [[|] o] eqn:E.
  - destruct (findPollAndOption_found (Poll.GetAllPolls pc) (Poll.PollID poll)
                (Poll.PollOptionID option)) as (p' & Hin & Hid & Hopt);
      [by rewrite E|].
    apply elem_of_GetAllPolls in Hin as [k' Hk'].
    pose proof (Hk _ _ Hk') as Hkey. rewrite Hid in Hkey. subst k'.
    rewrite Hp in Hk'. injection Hk' as <-.
    rewrite E in Hopt. simpl in Hopt. rewrite Hopt. f_equal.
    apply existsb_option. by exists option.
  - exfalso.
    eapply (findPollAndOption_no_poll (Poll.GetAllPolls pc) (Poll.PollID poll)
              (Poll.PollOptionID option)); [by rewrite E| |reflexivity].
    apply elem_of_GetAllPolls. eauto.
Qed.

(** C1: when POST /votes/:id changes the vote store, or answers 200, the
    body was decoded into a vote, the voter store holds a voter with the
    vote's VoterID, and the poll store holds a poll with its PollID and, in
    such a poll, an option with its VoteValue; and when the body is a vote
    and one of the three is missing, the answer is 404 and neither the vote
    store nor anything else has changed. *)
Theorem AddVote_checks_references
  (va va' : VotesAPI) (svc svc' : Services) (env : Env) (id : string)
  (bind : option Vote) (resp : response) :
  AddVote va svc env id bind = (va', svc', resp) →
  let referenced (vote : Vote) :=
    voter_exists (voterService svc) (VoterID vote)
    ∧ poll_exists (pollService svc) (PollID vote)
    ∧ option_exists (pollService svc) (PollID vote) (VoteValue vote) in
  (votesList va' ≠ votesList va ∨ status resp = StatusOK →
   ∃ vote, bind = Some vote ∧ referenced vote)
  ∧ (∀ vote, bind = Some vote → ¬ referenced vote →
     status resp = StatusNotFound ∧ votesList va' = votesList va
     ∧ va' = va ∧ svc' = svc).
Proof.
  intros Hrun referenced. revert Hrun. unfold AddVote.
  assert (∀ (code : Z) (b : body),
            code ≠ StatusOK →
            (code = StatusNotFound ∨ bind = None) →
            (va, svc, mkResponse code b) = (va', svc', resp) →
            (votesList va' ≠ votesList va ∨ status resp = StatusOK →
             ∃ vote, bind = Some vote ∧ referenced vote)
            ∧ (∀ vote, bind = Some vote → ¬ referenced vote →
               status resp = StatusNotFound ∧ votesList va' = votesList va
               ∧ va' = va ∧ svc' = svc)) as Hrejected.
  { intros code b Hcode Hwhy [= <- <- <-]. split.
    - intros [H|H]; [by destruct H | by destruct Hcode].
    - intros vote Hbind _. destruct Hwhy as [->|Hnone]; [done | congruence]. }
  destruct bind as [vote|]; [|by apply Hrejected; [|right]].
  destruct (getVoters (getVotersErr (net env)) svc) as [voters|] eqn:Hvoters;
    [|by apply Hrejected; [|left]].
  destruct (foundVoterID voters (VoterID vote)) eqn:Hfound; simpl;
    [|by apply Hrejected; [|left]].
  destruct (getPolls (getPollsErr (net env)) svc) as [polls|] eqn:Hpolls;
    [|by apply Hrejected; [|left]].
  destruct (findPollAndOption polls (PollID vote) (VoteValue vote))
    as [[|] [|]] eqn:Hpoll; simpl; try (by apply Hrejected; [|left]).
  assert (referenced vote) as Hall.
  { unfold getVoters in Hvoters. unfold getPolls in Hpolls.
    destruct (getVotersErr (net env)); [done|].
    destruct (getPollsErr (net env)); [done|].
    simpl in Hvoters, Hpolls. injection Hvoters as <-. injection Hpolls as <-.
    split; [by apply foundVoterID_exists|].
    by apply findPollAndOption_exists. }
  intros _. split.
  - intros _. by exists vote.
  - intros vote' [= <-] Hn. by destruct (Hn Hall).
Qed.

(** The first vote of the scenario is stored. *)
Lemma AddVote_checks_references_witness :
  let out := AddVote Scenario.boot Scenario.services
               (Scenario.at_ 10 Scenario.up) "1" (Some Scenario.vote111) in
  status out.2 = StatusOK
  ∧ Votes.GetVote (votesList out.1.1) 1 = Ok (stamped 1 Scenario.vote111)
  ∧ voter_exists Scenario.voters 1
  ∧ poll_exists Scenario.polls 1
  ∧ option_exists Scenario.polls 1 1.
Proof.
  intros out. split; [reflexivity|]. split; [reflexivity|].
  destruct (AddVote_checks_references Scenario.boot out.1.1 Scenario.services
              out.1.2 (Scenario.at_ 10 Scenario.up) "1" (Some Scenario.vote111)
              out.2 eq_refl) as [Hstored _].
  destruct Hstored as (vote & [= <-] & Href); [right; reflexivity | exact Href].
Defined.





(** The end-to-end scenario of the specification: after the vote, the
    history of voter 1 has an entry of poll 1; after the deletion of the
    vote, the entry and the vote are gone. *)
Example scenario_vote_then_delete :
  let stored := AddVote Scenario.boot Scenario.services
                  (Scenario.at_ 10 Scenario.up) "1" (Some Scenario.vote111) in
  let deleted := DeleteVote stored.1.1 stored.1.2
                   (Scenario.at_ 20 Scenario.up) "1" in
  status stored.2 = 200
  ∧ VoterCache.GetVoterHistory (voterService stored.1.2) 1
    = Ok [VoterData.mkVoterPoll 1 11]
  ∧ status deleted.2 = 200
  ∧ VoterCache.GetVoterHistory (voterService deleted.1.2) 1 = Ok []
  ∧ Votes.GetVote (votesList deleted.1.1) 1 = Err ErrVoteDoesNotExist.
Proof. repeat split; reflexivity. Qed.

(** A call that reaches the voter service is not a failed call for the
    workflow, whatever the service answers.  Voter 1 votes a second time in
    poll 1 under vote id 2: the voter service answers 400 ("voter has
    already voted in this poll"), vote 2 is stored and the answer is 200.
    Deleting vote 1 and then vote 2: the second deletion finds no history
    entry (404 from the voter service), deletes vote 2 and answers 200. *)
Example answered_call_is_not_a_failure :
  let first := AddVote Scenario.boot Scenario.services
                 (Scenario.at_ 10 Scenario.up) "1" (Some Scenario.vote111) in
  let second := AddVote first.1.1 first.1.2
                  (Scenario.at_ 20 Scenario.up) "2" (Some Scenario.vote111) in
  let del1 := DeleteVote second.1.1 second.1.2 (Scenario.at_ 30 Scenario.up) "1" in
  let del2 := DeleteVote del1.1.1 del1.1.2 (Scenario.at_ 40 Scenario.up) "2" in
  (postVoterPoll false first.1.2 1 1 20 21).2 = Some 400
  ∧ status second.2 = 200
  ∧ Votes.GetVote (votesList second.1.1) 2 = Ok (stamped 2 Scenario.vote111)
  ∧ VoterCache.GetVoterHistory (voterService second.1.2) 1
    = Ok [VoterData.mkVoterPoll 1 11]
  ∧ (deleteVoterPoll false del1.1.2 1 1).2 = Some 404
  ∧ status del2.2 = 200
  ∧ Votes.GetVote (votesList del2.1.1) 2 = Err ErrVoteDoesNotExist.
Proof. repeat split; reflexivity. Qed.

End Workflow.

(** ** Request counters *)
Section Counters.
Import Http Votes VotesAPI.

(** No routed handler touches the counters. *)
Lemma route_keeps_counters va svc env r :
  totalCalls (route va svc env r).1.1 = totalCalls va
  ∧ errorCalls (route va svc env r).1.1 = errorCalls va
  ∧ bootTime (route va svc env r).1.1 = bootTime va
  ∧ totalRequestTime (route va svc env r).1.1 = totalRequestTime va.
Proof.
  destruct r as [| |id|id bind|id|]; simpl; try done.
  - unfold AddVote. repeat case_match; simpl; done.
  - unfold DeleteVote. repeat case_match; simpl; done.
Qed.

(** One request: the call counter before the handler, the error counter and
    the request time after it. *)
Lemma HealthMiddleware_counters va svc env r :
  let out := HealthMiddleware va svc env r in
  out.2 = (route (incTotalCalls va) svc env r).2
  ∧ totalCalls out.1.1 = Int.wrap_uint64 (totalCalls va + 1)
  ∧ errorCalls out.1.1
    = (if is_error out.2 then Int.wrap_uint64 (errorCalls va + 1)
       else errorCalls va)
  ∧ totalRequestTime out.1.1
    = Int.wrap_int64 (totalRequestTime va + elapsed env)
  ∧ bootTime out.1.1 = bootTime va.
Proof.
  unfold HealthMiddleware, is_error.
  pose proof (route_keeps_counters (incTotalCalls va) svc env r) as Hr.
  destruct (route (incTotalCalls va) svc env r) as [[va1 svc1] resp].
  simpl in *. destruct Hr as (H1 & H2 & H3 & H4).
  destruct (400 <=? status resp); simpl; by rewrite ?H1, ?H2, ?H3, ?H4.
Qed.

Lemma wrap_uint64_small z : 0 <= z < 2 ^ 64 → Int.wrap_uint64 z = z.
Proof. intros H. unfold Int.wrap_uint64. by apply Z.mod_small. Qed.

Lemma wrap_int64_small z : - 2 ^ 63 <= z < 2 ^ 63 → Int.wrap_int64 z = z.
Proof.
  intros H. unfold Int.wrap_int64. rewrite Z.mod_small; lia.
Qed.

Lemma elapsedTotal_nonneg reqs :
  Forall (λ er : Env * request, 0 <= elapsed er.1) reqs → 0 <= elapsedTotal reqs.
Proof.
  induction 1 as [|[env r] rest Hpos _ IH]; simpl in *; lia.
Qed.

(** A run: as long as no counter overflows, the counters have grown by the
    number of requests, the number of answers of 400 and more, and the time
    the requests took. *)
Lemma serve_counters reqs : ∀ va svc va' svc' resps,
  serve va svc reqs = (va', svc', resps) →
  Forall (λ er : Env * request, 0 <= elapsed er.1) reqs →
  0 <= errorCalls va <= totalCalls va →
  0 <= totalRequestTime va →
  totalCalls va + Z.of_nat (length reqs) < 2 ^ 64 →
  totalRequestTime va + elapsedTotal reqs < 2 ^ 63 →
  length resps = length reqs
  ∧ totalCalls va' = totalCalls va + Z.of_nat (length reqs)
  ∧ errorCalls va' = errorCalls va + errorCount resps
  ∧ totalRequestTime va' = totalRequestTime va + elapsedTotal reqs
  ∧ bootTime va' = bootTime va.
Proof.
  induction reqs as [|[env r] rest IH];
    intros va svc va' svc' resps Hrun Hpos Hcalls Htime Hn Ht.
  - simpl in Hrun. injection Hrun as <- <- <-. simpl. repeat split; lia.
  - simpl in Hrun.
    pose proof (HealthMiddleware_counters va svc env r) as Hone.
    destruct (HealthMiddleware va svc env r) as [[va1 svc1] resp].
    destruct (serve va1 svc1 rest) as [[va2 svc2] resps2] eqn:Hrest.
    injection Hrun as <- <- <-.
    simpl in Hone. destruct Hone as (_ & Hc & He & Hd & Hb).
    apply Forall_cons in Hpos as [Hpos0 Hpos]. simpl in Hpos0.
    pose proof (elapsedTotal_nonneg rest Hpos) as Hrestpos.
    change (elapsedTotal ((env, r) :: rest))
      with (elapsed env + elapsedTotal rest) in *.
    change (length ((env, r) :: rest)) with (S (length rest)) in *.
    rewrite wrap_uint64_small in Hc by lia.
    rewrite wrap_int64_small in Hd by lia.
    assert (errorCalls va1 = errorCalls va + (if is_error resp then 1 else 0))
      as He'.
    { rewrite He. destruct (is_error resp); [|lia].
      rewrite wrap_uint64_small; lia. }
    destruct (IH va1 svc1 va2 svc2 resps2 Hrest Hpos) as (Hl & Hc2 & He2 & Hd2 & Hb2).
    + rewrite He', Hc. destruct (is_error resp); lia.
    + lia.
    + lia.
    + lia.
    + simpl length. simpl errorCount.
      repeat split; first [lia | congruence].
Qed.

(** C8, as the code has it.  After N requests of which E were answered with
    400 or more, the counters hold N and E and the time the requests took;
    a HealthCheck request that follows is counted before it is handled and
    so reports totalAPICalls = N + 1 and an average over N + 1 calls, the
    error counter E (it is raised only after a request is handled), and the
    average is zero when N is zero.  The bounds say that no counter
    overflows. *)
Theorem HealthCheck_counts_requests
  (boot : Time) (svc svc' : Services) (reqs : list (Env * request))
  (env : Env) (va' : VotesAPI) (resps : list response) :
  serve (NewVotesHandler boot) svc reqs = (va', svc', resps) →
  Forall (λ er : Env * request, 0 <= elapsed er.1) reqs →
  Z.of_nat (length reqs) + 1 < 2 ^ 63 →
  elapsedTotal reqs < 2 ^ 63 →
  let N := Z.of_nat (length reqs) in
  let E := errorCount resps in
  let T := elapsedTotal reqs in
  (totalCalls va' = N ∧ errorCalls va' = E ∧ totalRequestTime va' = T)
  ∧ ∃ h,
      (HealthMiddleware va' svc' env GET_health).2 = JSON StatusOK (HealthJSON h)
      ∧ totalAPICalls h = N + 1
      ∧ totalAPICallsError h = E
      ∧ h_totalRequestTime h = T
      ∧ averageRequestTime h = T / (N + 1)
      ∧ (N = 0 → averageRequestTime h = 0).
Proof.
  intros Hrun Hpos Hn Ht N E T.
  destruct (serve_counters reqs _ _ _ _ _ Hrun Hpos) as (Hl & Hc & He & Hd & Hb);
    simpl; try lia.
  simpl in Hc, He, Hd.
  pose proof (elapsedTotal_nonneg reqs Hpos) as HT.
  split; [by repeat split|].
  unfold HealthMiddleware. simpl. unfold HealthCheck. simpl.
  eexists. split; [reflexivity|]. simpl.
  rewrite Hc, He, Hd, !Z.add_0_l. fold N. fold T. fold E.
  rewrite (wrap_uint64_small (N + 1)) by (subst N; lia).
  assert ((0 <? N + 1) = true) as -> by (apply Z.ltb_lt; subst N; lia).
  rewrite (wrap_int64_small (N + 1)) by (subst N; lia).
  assert (Z.quot T (N + 1) = T / (N + 1)) as Hq
    by (apply Z.quot_div_nonneg; subst N T; lia).
  assert (0 <= T / (N + 1) <= T) as Hbound.
  { split; [apply Z.div_pos; subst N T; lia|].
    apply Z.div_le_upper_bound; [subst N; lia|]. subst N T. nia. }
  rewrite Hq, wrap_int64_small by (subst T; lia).
  repeat split.
  intros HN. assert (length reqs = 0%nat) as Hnil by (subst N; lia).
  subst N T. destruct reqs; [reflexivity | discriminate Hnil].
Qed.

(** Two requests of the scenario, one of them answered 404, then the health
    request: it reports three calls, one error, and 10 / 3 = 3. *)
Lemma HealthCheck_counts_requests_witness :
  let reqs := [(Scenario.at_ 10 Scenario.up, GET_votes);
               (Scenario.at_ 20 Scenario.up, GET_vote "7")] in
  let served := serve (NewVotesHandler 0) Scenario.services reqs in
  (map status served.2 = [200; 404])
  ∧ ∃ h,
      (HealthMiddleware served.1.1 served.1.2
         (Scenario.at_ 30 Scenario.up) GET_health).2
      = JSON StatusOK (HealthJSON h)
      ∧ totalAPICalls h = 3
      ∧ totalAPICallsError h = 1
      ∧ h_totalRequestTime h = 10
      ∧ averageRequestTime h = 3.
Proof.
  intros reqs served. split; [reflexivity|].
  destruct (HealthCheck_counts_requests 0 Scenario.services served.1.2 reqs
              (Scenario.at_ 30 Scenario.up) served.1.1 served.2)
    as (_ & h & Hh & Hc & He & Ht & Ha & _).
  - reflexivity.
  - repeat constructor; simpl; lia.
  - simpl. lia.
  - simpl. lia.
  - exists h. repeat split; assumption.
Defined.

(** C8 as stated fails: the health request counts itself.  After the two
    requests above (N = 2, one error) it reports 3 calls, not 2, and the
    average 10 / 3, not 10 / 2; straight after boot (N = 0) it reports 1. *)
Lemma HealthCheck_counts_itself :
  let reqs := [(Scenario.at_ 10 Scenario.up, GET_votes);
               (Scenario.at_ 20 Scenario.up, GET_vote "7")] in
  let served := serve (NewVotesHandler 0) Scenario.services reqs in
  let after := HealthMiddleware served.1.1 served.1.2
                 (Scenario.at_ 30 Scenario.up) GET_health in
  let atBoot := HealthMiddleware (NewVotesHandler 0) Scenario.services
                  (Scenario.at_ 30 Scenario.up) GET_health in
  (∃ h, payload after.2 = HealthJSON h
        ∧ totalAPICalls h = 3
        ∧ totalAPICalls h ≠ Z.of_nat (length reqs)
        ∧ averageRequestTime h = 3
        ∧ averageRequestTime h ≠ elapsedTotal reqs / Z.of_nat (length reqs))
  ∧ (∃ h, payload atBoot.2 = HealthJSON h
          ∧ totalAPICalls h = 1 ∧ totalAPICalls h ≠ 0).
Proof.
  intros reqs served after atBoot. split.
  - eexists. split; [reflexivity|]. simpl. repeat split; try done.
  - eexists. split; [reflexivity|]. simpl. repeat split; done.
Qed.

End Counters.

(** ** The todo store *)
Section TodoStore.
Import Todo.

(** On a fresh store any item can be added, is then the only item listed,
    and takes any done status it is given. *)
Lemma todo_fresh_add_change (dbFile : string) (item : ToDoItem) (value : bool) :
  let fresh := New dbFile Missing in
  let added := AddItem fresh.1 fresh.2 item in
  let listed := GetAllItems added.1.1 added.1.2 in
  let changed := ChangeItemDoneStatus listed.1 added.1.2 (Id item) value in
  let got := GetItem changed.1.1 changed.1.2 (Id item) in
  added.2 = None
  ∧ listed.2 = Ok [item]
  ∧ changed.2 = None
  ∧ got.2 = Ok (mkToDoItem (Id item) (Title item) value).
Proof.
  cbv zeta. unfold New, initDB. cbn [fst snd].
  unfold AddItem, loadDB. cbn [fold_left toDoMap dbFileName setMap fst snd].
  rewrite lookup_empty. cbn [fst snd]. unfold saveDB, setMap.
  cbn [toDoMap dbFileName]. rewrite insert_empty, map_to_list_singleton.
  cbn [fmap list_fmap snd].
  split; [reflexivity|].
  unfold GetAllItems, loadDB.
  cbn [fold_left toDoMap dbFileName fst snd].
  rewrite insert_singleton_eq, map_to_list_singleton. cbn [fmap list_fmap snd].
  split; [reflexivity|].
  unfold ChangeItemDoneStatus, GetItem, loadDB.
  cbn [fold_left toDoMap dbFileName fst snd].
  rewrite insert_singleton_eq, lookup_singleton_eq.
  unfold UpdateItem, loadDB.
  cbn [fold_left toDoMap dbFileName fst snd Id Title IsDone].
  rewrite insert_singleton_eq, lookup_singleton_eq.
  cbn [fst snd]. split; [reflexivity|].
  unfold saveDB, setMap. cbn [toDoMap dbFileName Id].
  rewrite insert_singleton_eq, map_to_list_singleton.
  cbn [fmap list_fmap snd fold_left Id].
  by rewrite insert_singleton_eq, lookup_singleton_eq.
Qed.

(** C9.  On an empty store (no file yet, or a file holding the empty
    array), adding item 99 "sample item", done, succeeds and GetAllItems
    returns that one item; then ChangeItemDoneStatus 99 false succeeds and
    GetItem 99 returns the item with the same id and title and IsDone false.
    The same holds when every step runs in a process of its own, with only
    the file in common. *)
Theorem todo_add_then_change_status (dbFile : string) (fileExists : bool) :
  let item := mkToDoItem 99 "sample item" true in
  let fresh := New dbFile (if fileExists then Items [] else Missing) in
  let added := AddItem fresh.1 fresh.2 item in
  let listed := GetAllItems added.1.1 added.1.2 in
  let changed := ChangeItemDoneStatus listed.1 added.1.2 99 false in
  let got := GetItem changed.1.1 changed.1.2 99 in
  (fresh.2 = Items []
   ∧ added.2 = None
   ∧ listed.2 = Ok [item]
   ∧ changed.2 = None
   ∧ got.2 = Ok (mkToDoItem 99 "sample item" false))
  ∧
  let listed' := GetAllItems (New dbFile added.1.2).1 added.1.2 in
  let changed' := ChangeItemDoneStatus (New dbFile added.1.2).1 added.1.2 99 false in
  let got' := GetItem (New dbFile changed'.1.2).1 changed'.1.2 99 in
  listed'.2 = Ok [item]
  ∧ changed'.2 = None
  ∧ changed'.1.2 = Items [mkToDoItem 99 "sample item" false]
  ∧ got'.2 = Ok (mkToDoItem 99 "sample item" false).
Proof. destruct fileExists; repeat split; reflexivity. Qed.

End TodoStore.

(** ** Ids in paths *)
Section PathRoundTrip.

Lemma digits_of_uint_acc (d : Decimal.uint) : ∀ acc : positive,
  Strconv.digits (N.pos acc) (NilEmpty.string_of_uint d)
  = Some (N.pos (Pos.of_uint_acc d acc)).
Proof.
  induction d as [|d IH|d IH|d IH|d IH|d IH|d IH|d IH|d IH|d IH|d IH];
    intros acc; [reflexivity|..];
    cbn [NilEmpty.string_of_uint Strconv.digits Pos.of_uint_acc];
    (match goal with
     | |- context [Strconv.digit ?c] =>
         let v := eval vm_compute in (Strconv.digit c) in
         change (Strconv.digit c) with v
     end);
    cbv iota beta;
    (match goal with
     | |- Strconv.digits ?a _ = Some (N.pos (Pos.of_uint_acc _ ?b)) =>
         replace a with (N.pos b) by lia
     end); apply IH.
Qed.

Lemma digits_of_uint (d : Decimal.uint) :
  Strconv.digits 0%N (NilEmpty.string_of_uint d) = Some (Pos.of_uint d).
Proof.
  induction d as [|d IH|d IH|d IH|d IH|d IH|d IH|d IH|d IH|d IH|d IH];
    [reflexivity | exact IH |..];
    cbn [NilEmpty.string_of_uint Strconv.digits Pos.of_uint];
    (match goal with
     | |- context [Strconv.digit ?c] =>
         let v := eval vm_compute in (Strconv.digit c) in
         change (Strconv.digit c) with v
     end);
    cbv iota beta; apply digits_of_uint_acc.
Qed.

(** The decimal string of a positive number is read back by ParseUint32 as
    that number when it fits 32 bits, and refused otherwise. *)
Lemma ParseUint32_decimal (p : positive) :
  Strconv.ParseUint32 (NilZero.string_of_uint (Pos.to_uint p))
  = if (N.pos p <? 2 ^ 32)%N then Some (N.pos p) else None.
Proof.
  pose proof (Unsigned.to_uint_nonnil p) as Hnil.
  assert (NilZero.string_of_uint (Pos.to_uint p)
          = NilEmpty.string_of_uint (Pos.to_uint p)) as ->
    by (by destruct (Pos.to_uint p)).
  pose proof (digits_of_uint (Pos.to_uint p)) as Hd.
  rewrite DecimalPos.Unsigned.of_to in Hd.
  unfold Strconv.ParseUint32.
  destruct (NilEmpty.string_of_uint (Pos.to_uint p)) as [|c s] eqn:Hs.
  - by destruct (Pos.to_uint p).
  - by rewrite Hd.
Qed.

Lemma ParseUint32_Itoa (n : N) :
  (n < 2 ^ 32)%N → Strconv.ParseUint32 (Int.Itoa_of_uint n) = Some n.
Proof.
  intros Hn. unfold Int.Itoa_of_uint.
  assert (Int.wrap_int64 (Z.of_N n) = Z.of_N n) as ->.
  { unfold Int.wrap_int64. rewrite Z.mod_small; lia. }
  destruct n as [|p]; [reflexivity|].
  cbn [Z.of_N Z.to_int NilZero.string_of_int].
  rewrite ParseUint32_decimal. apply N.ltb_lt in Hn. by rewrite Hn.
Qed.

Lemma ParseUint32_bound (s : string) (n : N) :
  Strconv.ParseUint32 s = Some n → (n < 2 ^ 32)%N.
Proof.
  unfold Strconv.ParseUint32. destruct s as [|c s]; [done|].
  destruct (Strconv.digits 0 (String c s)) as [m|]; [|done].
  destruct (N.ltb_spec m (2 ^ 32)) as [Hlt|_]; [|done].
  by intros [= <-].
Qed.

(** X1: the decimal text that the votes service puts into a path for a
    64-bit id ([strconv.Itoa(int(id))]) is read back by the voter service
    ([strconv.ParseUint(_, 10, 32)]) as the same id when the id fits 32
    bits, and is refused for every larger id. *)
Theorem path_id_round_trip (n : N) :
  (n < 2 ^ 64)%N →
  Strconv.ParseUint32 (Int.Itoa_of_uint n)
  = if (n <? 2 ^ 32)%N then Some n else None.
Proof.
  intros Hn. destruct (N.ltb_spec n (2 ^ 32)) as [Hlt|Hge].
  - by apply ParseUint32_Itoa.
  - unfold Int.Itoa_of_uint.
    destruct (Z_lt_le_dec (Z.of_N n) (2 ^ 63)) as [Hsmall|Hbig].
    + assert (Int.wrap_int64 (Z.of_N n) = Z.of_N n) as ->.
      { unfold Int.wrap_int64. rewrite Z.mod_small; lia. }
      destruct n as [|p]; [done|].
      cbn [Z.of_N Z.to_int NilZero.string_of_int].
      rewrite ParseUint32_decimal.
      by destruct (N.ltb_spec (N.pos p) (2 ^ 32)) as [?|_]; [lia|].
    + assert (Int.wrap_int64 (Z.of_N n) = Z.of_N n - 2 ^ 64) as ->.
      { unfold Int.wrap_int64.
        replace (Z.of_N n + 2 ^ 63) with (Z.of_N n - 2 ^ 63 + 1 * 2 ^ 64) by lia.
        rewrite Z.mod_add by lia. rewrite Z.mod_small; lia. }
      destruct (Z.of_N n - 2 ^ 64) as [|q|q] eqn:Hq; [lia | lia |].
      reflexivity.
Qed.

Lemma path_id_round_trip_witness :
  (4294967295 < 2 ^ 64)%N
  ∧ Strconv.ParseUint32 (Int.Itoa_of_uint 4294967295) = Some 4294967295%N.
Proof.
  split; [reflexivity|].
  exact (path_id_round_trip 4294967295 eq_refl).
Defined.

End PathRoundTrip.

(** ** The voter stores as a user of the package sees them *)
Section VoterStoreContract.
Import VoterData VoterOps.

Lemma runList_keyed (ops : list op) : keyed (VoterList.Voters (runList ops)).
Proof.
  unfold runList. induction ops as [|o ops IH] using rev_ind.
  - apply keyed_empty.
  - rewrite fold_left_app. cbn [fold_left]. by apply keyed_applyList.
Qed.

Lemma runCache_keyed (ops : list op) : keyed (VoterCache.redis (runCache ops)).
Proof.
  unfold runCache. induction ops as [|o ops IH] using rev_ind.
  - apply keyed_empty.
  - rewrite fold_left_app. cbn [fold_left]. by apply keyed_applyCache.
Qed.

(** X2: whatever operations were run, with whatever arguments, the voter
    that GetVoter returns for an id carries that id. *)
Theorem GetVoter_returns_the_id_asked (ops : list op) (id : N) (voter : Voter) :
  VoterList.GetVoter (runList ops) id = Ok voter
  ∨ VoterCache.GetVoter (runCache ops) id = Ok voter →
  VoterID voter = id.
Proof.
  unfold VoterList.GetVoter, VoterCache.GetVoter. intros [H|H].
  - destruct (VoterList.Voters (runList ops) !! id) as [v|] eqn:E; [|done].
    injection H as ->. exact (runList_keyed ops _ _ E).
  - destruct (VoterCache.redis (runCache ops) !! id) as [v|] eqn:E; [|done].
    injection H as ->. exact (runCache_keyed ops _ _ E).
Qed.

Lemma GetVoter_returns_the_id_asked_witness :
  let ops := [OpAddVoter (mkVoter 3 "Nisarg" "Patel" []);
              OpUpdateVoter (mkVoter 3 "Anish" "Patel" [mkVoterPoll 1 5])] in
  VoterCache.GetVoter (runCache ops) 3 = Ok (mkVoter 3 "Anish" "Patel" [])
  ∧ VoterID (mkVoter 3 "Anish" "Patel" []) = 3%N.
Proof.
  intros ops. split; [reflexivity|].
  apply (GetVoter_returns_the_id_asked ops 3 (mkVoter 3 "Anish" "Patel" [])).
  right. reflexivity.
Defined.




(** X4: AddVoter refuses an id that is stored and changes nothing; otherwise
    the voter is stored as given, GetVoter returns it, every other voter is
    as before, and a DeleteVoter of the id gives the store back as it was. *)
Theorem AddVoter_GetVoter_DeleteVoter
  (vl : VoterList.VoterList) (vc : VoterCache.VoterCache) (voter : Voter) :
  match VoterList.Voters vl !! VoterID voter with
  | Some _ => VoterList.AddVoter vl voter = (vl, Some ErrVoterAlreadyExists)
  | None =>
      ∃ vl',
        VoterList.AddVoter vl voter = (vl', None)
        ∧ VoterList.GetVoter vl' (VoterID voter) = Ok voter
        ∧ (∀ k, k ≠ VoterID voter →
                VoterList.Voters vl' !! k = VoterList.Voters vl !! k)
        ∧ VoterList.DeleteVoter vl' (VoterID voter) = (vl, None)
  end
  ∧
  match VoterCache.redis vc !! VoterID voter with
  | Some _ => VoterCache.AddVoter vc voter = (vc, Some ErrVoterAlreadyExists)
  | None =>
      ∃ vc',
        VoterCache.AddVoter vc voter = (vc', None)
        ∧ VoterCache.GetVoter vc' (VoterID voter) = Ok voter
        ∧ (∀ k, k ≠ VoterID voter →
                VoterCache.redis vc' !! k = VoterCache.redis vc !! k)
        ∧ VoterCache.DeleteVoter vc' (VoterID voter) = (vc, None)
  end.
Proof.
  split.
  - unfold VoterList.AddVoter.
    destruct (VoterList.Voters vl !! VoterID voter) eqn:E; [done|].
    eexists. split; [reflexivity|].
    unfold VoterList.GetVoter, VoterList.DeleteVoter. simpl.
    rewrite lookup_insert_eq. split; [done|]. split.
    + intros k Hk. by rewrite lookup_insert_ne.
    + rewrite delete_insert_id by done. by destruct vl.
  - unfold VoterCache.AddVoter, VoterCache.GetVoter.
    destruct (VoterCache.redis vc !! VoterID voter) eqn:E; [done|].
    eexists. split; [reflexivity|].
    unfold VoterCache.DeleteVoter, VoterCache.GetVoter. simpl.
    rewrite lookup_insert_eq. split; [done|]. split.
    + intros k Hk. by rewrite lookup_insert_ne.
    + rewrite delete_insert_id by done. by destruct vc.
Qed.

(** X5: DeleteVoter fails with "voter does not exist" for an id that is not
    stored and changes nothing; otherwise the voter is gone with its whole
    history, and every other voter is as before. *)
Theorem DeleteVoter_removes_voter_and_history
  (vl : VoterList.VoterList) (vc : VoterCache.VoterCache) (voterID : N) :
  match VoterList.Voters vl !! voterID with
  | None => VoterList.DeleteVoter vl voterID = (vl, Some ErrVoterDoesNotExist)
  | Some _ =>
      ∃ vl',
        VoterList.DeleteVoter vl voterID = (vl', None)
        ∧ VoterList.GetVoter vl' voterID = Err ErrVoterDoesNotExist
        ∧ VoterList.GetVoterHistory vl' voterID = Err ErrVoterDoesNotExist
        ∧ (∀ pollID, VoterList.GetVoterPoll vl' voterID pollID
                     = Err ErrVoterDoesNotExist)
        ∧ (∀ k, k ≠ voterID →
                VoterList.Voters vl' !! k = VoterList.Voters vl !! k)
  end
  ∧
  match VoterCache.redis vc !! voterID with
  | None => VoterCache.DeleteVoter vc voterID = (vc, Some ErrVoterDoesNotExist)
  | Some _ =>
      ∃ vc',
        VoterCache.DeleteVoter vc voterID = (vc', None)
        ∧ VoterCache.GetVoter vc' voterID = Err ErrVoterDoesNotExist
        ∧ VoterCache.GetVoterHistory vc' voterID = Err ErrVoterDoesNotExist
        ∧ (∀ pollID, VoterCache.GetVoterPoll vc' voterID pollID
                     = Err ErrVoterDoesNotExist)
        ∧ (∀ k, k ≠ voterID →
                VoterCache.redis vc' !! k = VoterCache.redis vc !! k)
  end.
Proof.
  split.
  - unfold VoterList.DeleteVoter.
    destruct (VoterList.Voters vl !! voterID) eqn:E; [|done].
    eexists. split; [reflexivity|].
    unfold VoterList.GetVoter, VoterList.GetVoterHistory, VoterList.GetVoterPoll.
    simpl. rewrite lookup_delete_eq. repeat split.
    intros k Hk. by rewrite lookup_delete_ne.
  - unfold VoterCache.DeleteVoter, VoterCache.GetVoter.
    destruct (VoterCache.redis vc !! voterID) eqn:E; [|done].
    eexists. split; [reflexivity|].
    unfold VoterCache.GetVoterHistory, VoterCache.GetVoterPoll,
      VoterCache.GetVoter.
    simpl. rewrite lookup_delete_eq. repeat split.
    intros k Hk. by rewrite lookup_delete_ne.
Qed.

Lemma removeLoop_filter (h : list voterPoll) (pollID : N) :
  removeLoop h pollID = filter (λ poll, PollID poll ≠ pollID) h.
Proof.
  induction h as [|p rest IH]; simpl; [done|].
  destruct (N.eqb_spec (PollID p) pollID) as [Heq|Hne]; simpl.
  - rewrite filter_cons_False by (intros H; by apply H). exact IH.
  - rewrite filter_cons_True by done. by rewrite IH.
Qed.

Lemma findPoll_removeLoop_other (h : list voterPoll) (pollID other : N) :
  other ≠ pollID → findPoll (removeLoop h pollID) other = findPoll h other.
Proof.
  intros Hother. induction h as [|p rest IH]; simpl; [done|].
  destruct (N.eqb_spec (PollID p) pollID) as [Heq|Hne]; simpl.
  - destruct (N.eqb_spec (PollID p) other) as [?|_]; [congruence | exact IH].
  - destruct (PollID p =? other)%N; [done | exact IH].
Qed.

(** X6: in a cache where every voter is stored under its id, DeleteVoterPoll
    fails with "voter poll not found" exactly when the voter has no entry of
    the poll (poll 0 included); otherwise the history keeps its other
    entries, in their order, and every other voter is as before. *)
Theorem DeleteVoterPoll_keeps_the_other_entries
  (vc : VoterCache.VoterCache) (voterID pollID : N) (voter : Voter) :
  keyed (VoterCache.redis vc) →
  VoterCache.redis vc !! voterID = Some voter →
  if decide (pollID ∈ pollIDs (VoteHistory voter))
  then ∃ vc',
      VoterCache.DeleteVoterPoll vc voterID pollID = (vc', None)
      ∧ VoterCache.GetVoterHistory vc' voterID
        = Ok (filter (λ poll, PollID poll ≠ pollID) (VoteHistory voter))
      ∧ VoterCache.GetVoterPoll vc' voterID pollID = Err ErrVoterPollNotFound
      ∧ (∀ other, other ≠ pollID →
           VoterCache.GetVoterPoll vc' voterID other
           = VoterCache.GetVoterPoll vc voterID other)
      ∧ (∀ k, k ≠ voterID →
              VoterCache.redis vc' !! k = VoterCache.redis vc !! k)
  else VoterCache.DeleteVoterPoll vc voterID pollID
       = (vc, Some ErrVoterPollNotFound).
Proof.
  intros Hk Hv.
  pose proof (DeleteVoterPoll_cache_any_poll vc voterID pollID Hk) as Hspec.
  rewrite Hv in Hspec. case_decide as Hin; [|exact Hspec].
  destruct Hspec as (vc' & Hdel & Hgone).
  exists vc'. split; [exact Hdel|].
  revert Hdel Hgone. unfold VoterCache.DeleteVoterPoll, VoterCache.GetVoter.
  rewrite Hv.
  destruct (length (removeLoop (VoteHistory voter) pollID)
            =? length (VoteHistory voter))%nat; [done|].
  intros [= <-] Hgone.
  unfold VoterCache.GetVoterHistory, VoterCache.GetVoterPoll,
    VoterCache.GetVoter in *. simpl in *.
  rewrite (Hk _ _ Hv) in *. rewrite lookup_insert_eq in *. simpl in *.
  rewrite Hv. split; [by rewrite removeLoop_filter|]. split; [exact Hgone|].
  split.
  - intros other Hother. by rewrite findPoll_removeLoop_other.
  - intros k Hne. by rewrite lookup_insert_ne.
Qed.

Lemma DeleteVoterPoll_keeps_the_other_entries_witness :
  let vc := runCache [OpAddVoter (NewVoter 1 "Nisarg" "Patel");
                      OpAddVoterPoll 1 0 100; OpAddVoterPoll 1 7 200;
                      OpAddVoterPoll 1 9 300] in
  VoterCache.GetVoterHistory (VoterCache.DeleteVoterPoll vc 1 0).1 1
  = Ok [mkVoterPoll 7 200; mkVoterPoll 9 300].
Proof.
  intros vc.
  pose proof (DeleteVoterPoll_keeps_the_other_entries vc 1 0
                (mkVoter 1 "Nisarg" "Patel"
                   [mkVoterPoll 0 100; mkVoterPoll 7 200; mkVoterPoll 9 300])
                (runCache_keyed _) eq_refl) as H.
  simpl in H. destruct H as (vc' & Hdel & Hhist & _).
  rewrite Hdel. exact Hhist.
Defined.

End VoterStoreContract.

Section UpdateVoterPollContract.
Import VoterData VoterOps.

Lemma findPoll_updateLoop_other (h : list voterPoll) (pollID other : N)
  (date : Time) :
  other ≠ pollID →
  findPoll (updateLoop h pollID date).1 other = findPoll h other.
Proof.
  intros Hother. induction h as [|p rest IH]; simpl; [done|].
  destruct (N.eqb_spec (PollID p) pollID) as [Heq|Hne]; simpl.
  - destruct (N.eqb_spec pollID other) as [?|_]; [congruence|].
    destruct (N.eqb_spec (PollID p) other) as [?|_]; [congruence | done].
  - destruct (updateLoop rest pollID date) as [rest' u]. simpl in *.
    destruct (PollID p =? other)%N; [done | exact IH].
Qed.

(** X7: in a cache where every voter is stored under its id, UpdateVoterPoll
    of a poll other than 0 that the voter has an entry of succeeds and
    changes the date of that entry only: the history names the same polls in
    the same order, the entries of other polls and the voter's id and names
    are as before, and so is every other voter. *)
Theorem UpdateVoterPoll_changes_only_the_date
  (vc : VoterCache.VoterCache) (voterID pollID : N) (date : Time)
  (voter : Voter) :
  keyed (VoterCache.redis vc) →
  VoterCache.redis vc !! voterID = Some voter →
  pollID ≠ 0%N →
  pollID ∈ pollIDs (VoteHistory voter) →
  ∃ vc' voter',
    VoterCache.UpdateVoterPoll vc voterID pollID date
    = (vc', Ok (mkVoterPoll pollID date))
    ∧ VoterCache.GetVoter vc' voterID = Ok voter'
    ∧ VoterID voter' = VoterID voter
    ∧ FirstName voter' = FirstName voter
    ∧ LastName voter' = LastName voter
    ∧ pollIDs (VoteHistory voter') = pollIDs (VoteHistory voter)
    ∧ VoterCache.GetVoterPoll vc' voterID pollID = Ok (mkVoterPoll pollID date)
    ∧ (∀ other, other ≠ pollID →
         VoterCache.GetVoterPoll vc' voterID other
         = VoterCache.GetVoterPoll vc voterID other)
    ∧ (∀ k, k ≠ voterID →
            VoterCache.redis vc' !! k = VoterCache.redis vc !! k).
Proof.
  intros Hk Hv Hnz Hin.
  unfold VoterCache.UpdateVoterPoll, VoterCache.GetVoterPoll, VoterCache.GetVoter.
  rewrite Hv.
  destruct (updateLoop_hit _ _ date (findPoll_is_Some _ _ Hin)) as [Hu Hf].
  pose proof (updateLoop_pollIDs (VoteHistory voter) pollID date) as Hids.
  pose proof (λ other, findPoll_updateLoop_other (VoteHistory voter) pollID
                         other date) as Hother.
  destruct (updateLoop (VoteHistory voter) pollID date) as [h' u].
  simpl in Hu, Hf, Hids, Hother. subst u. simpl.
  destruct (N.eqb_spec pollID 0) as [?|_]; [done|].
  eexists _, (setHistory voter h'). split; [reflexivity|]. simpl.
  rewrite (Hk _ _ Hv), lookup_insert_eq. simpl. rewrite Hf.
  repeat split; try done.
  - intros other Hne. by rewrite (Hother other Hne).
  - intros k Hne. by rewrite lookup_insert_ne.
Qed.

Lemma UpdateVoterPoll_changes_only_the_date_witness :
  let vc := runCache [OpAddVoter (NewVoter 1 "Nisarg" "Patel");
                      OpAddVoterPoll 1 7 100; OpAddVoterPoll 1 9 300] in
  VoterCache.GetVoterHistory (VoterCache.UpdateVoterPoll vc 1 9 500).1 1
  = Ok [mkVoterPoll 7 100; mkVoterPoll 9 500].
Proof.
  intros vc.
  destruct (UpdateVoterPoll_changes_only_the_date vc 1 9 500
              (mkVoter 1 "Nisarg" "Patel" [mkVoterPoll 7 100; mkVoterPoll 9 300]))
    as (vc' & voter' & Hrun & _).
  - apply runCache_keyed.
  - reflexivity.
  - done.
  - right. left.
  - reflexivity.
Defined.

(** X8: UpdateVoterPoll never adds or removes a history entry and never
    touches a name, whatever it answers and whatever the poll id: after the
    call every voter of a store keyed by id has the id, the names and the
    list of PollIDs it had.  This covers the refused update of poll 0 in
    the in-memory list, which has changed a date by then. *)
Theorem UpdateVoterPoll_keeps_ids_names_and_polls
  (vl : VoterList.VoterList) (vc : VoterCache.VoterCache)
  (voterID pollID : N) (date : Time) (k : N) :
  keyed (VoterList.Voters vl) → keyed (VoterCache.redis vc) →
  let shape (voter : Voter) :=
    (VoterID voter, FirstName voter, LastName voter,
     pollIDs (VoteHistory voter)) in
  shape <$> VoterList.Voters (VoterList.UpdateVoterPoll vl voterID pollID date).1 !! k
  = shape <$> VoterList.Voters vl !! k
  ∧ shape <$> VoterCache.redis (VoterCache.UpdateVoterPoll vc voterID pollID date).1 !! k
    = shape <$> VoterCache.redis vc !! k.
Proof.
  intros Hkl Hkc shape. split.
  - unfold VoterList.UpdateVoterPoll.
    destruct (VoterList.Voters vl !! voterID) as [voter|] eqn:Hv; [|done].
    pose proof (updateLoop_pollIDs (VoteHistory voter) pollID date) as Hids.
    destruct (updateLoop (VoteHistory voter) pollID date) as [h' u].
    simpl in Hids.
    assert (shape (setHistory voter h') = shape voter) as Hshape
      by (unfold shape; simpl; by rewrite Hids).
    destruct (PollID u =? 0)%N; simpl; rewrite ?(Hkl _ _ Hv), ?insert_insert_eq;
      (destruct (decide (k = voterID)) as [->|Hne];
       [by rewrite lookup_insert_eq, Hv; simpl; rewrite Hshape
       | by rewrite lookup_insert_ne]).
  - unfold VoterCache.UpdateVoterPoll, VoterCache.GetVoter.
    destruct (VoterCache.redis vc !! voterID) as [voter|] eqn:Hv; [|done].
    pose proof (updateLoop_pollIDs (VoteHistory voter) pollID date) as Hids.
    destruct (updateLoop (VoteHistory voter) pollID date) as [h' u].
    simpl in Hids.
    assert (shape (setHistory voter h') = shape voter) as Hshape
      by (unfold shape; simpl; by rewrite Hids).
    destruct (PollID u =? 0)%N; simpl; [done|]. rewrite (Hkc _ _ Hv).
    destruct (decide (k = voterID)) as [->|Hne];
      [by rewrite lookup_insert_eq, Hv; simpl; rewrite Hshape
      | by rewrite lookup_insert_ne].
Qed.

Lemma UpdateVoterPoll_keeps_ids_names_and_polls_witness :
  let ops := [OpAddVoter (NewVoter 1 "Nisarg" "Patel"); OpAddVoterPoll 1 0 100] in
  let shape (voter : Voter) :=
    (VoterID voter, FirstName voter, LastName voter,
     pollIDs (VoteHistory voter)) in
  (VoterList.UpdateVoterPoll (runList ops) 1 0 200).2 = Err ErrVoterPollNotFound
  ∧ shape <$> VoterList.Voters
                (VoterList.UpdateVoterPoll (runList ops) 1 0 200).1 !! 1%N
    = shape <$> VoterList.Voters (runList ops) !! 1%N.
Proof.
  intros ops shape. split; [reflexivity|].
  exact (proj1 (UpdateVoterPoll_keeps_ids_names_and_polls (runList ops)
                  (runCache ops) 1 0 200 1 (runList_keyed ops)
                  (runCache_keyed ops))).
Defined.

End UpdateVoterPollContract.

(** ** The voter service, request by request *)
Section VoterService.
Import VoterData VoterOps VoterRequests Boundary Http.

(** A handler changes the cache as one operation of the cache does, or not
    at all, and the voter it adds has an empty history. *)
Lemma handle_effect (vc : VoterCache.VoterCache) (now : Time) (r : request) :
  (handle vc now r).1 = vc
  ∨ ∃ o, admissible o ∧ (handle vc now r).1 = applyCache vc o.
Proof.
  destruct r as [| |id|id bind|id bind| |id|id|id pid|id pid bind pf
                |id pid bind pf|id pid]; simpl; try (by left).
  - unfold VoterAPI.AddVoter.
    destruct (Strconv.ParseUint32 id) as [n|]; [|by left].
    destruct bind as [b|]; [|by left].
    right. exists (OpAddVoter (NewVoter n (FirstName b) (LastName b))).
    split; [apply NoDup_nil_2|]. simpl.
    by destruct (VoterCache.AddVoter vc _) as [vc' [e|]].
  - unfold VoterAPI.UpdateVoter.
    destruct (Strconv.ParseUint32 id) as [n|]; [|by left].
    destruct bind as [b|]; [|by left].
    right.
    exists (OpUpdateVoter (mkVoter n (FirstName b) (LastName b) (VoteHistory b))).
    split; [done|]. simpl.
    by destruct (VoterCache.UpdateVoter vc _) as [vc' [v|e]].
  - right. exists OpDeleteAllVoters. by split.
  - unfold VoterAPI.DeleteVoter.
    destruct (Strconv.ParseUint32 id) as [n|]; [|by left].
    right. exists (OpDeleteVoter n). split; [done|]. simpl.
    by destruct (VoterCache.DeleteVoter vc n) as [vc' [e|]].
  - unfold VoterAPI.AddVoterPoll.
    destruct (Strconv.ParseUint32 id) as [n|]; [|by left].
    destruct (Strconv.ParseUint32 pid) as [p|]; [|by left].
    destruct bind as [b|]; [|by left].
    right. exists (OpAddVoterPoll n p (if pf then b else now)).
    split; [done|]. simpl.
    by destruct (VoterCache.AddVoterPoll vc n p _) as [vc' [v|e]].
  - unfold VoterAPI.UpdateVoterPoll.
    destruct (Strconv.ParseUint32 id) as [n|]; [|by left].
    destruct (Strconv.ParseUint32 pid) as [p|]; [|by left].
    destruct bind as [b|]; [|by left].
    right. exists (OpUpdateVoterPoll n p (if pf then b else now)).
    split; [done|]. simpl.
    by destruct (VoterCache.UpdateVoterPoll vc n p _) as [vc' [v|e]].
  - unfold VoterAPI.DeleteVoterPoll.
    destruct (Strconv.ParseUint32 id) as [n|]; [|by left].
    destruct (Strconv.ParseUint32 pid) as [p|]; [|by left].
    right. exists (OpDeleteVoterPoll n p). split; [done|]. simpl.
    by destruct (VoterCache.DeleteVoterPoll vc n p) as [vc' [e|]].
Qed.

Lemma ids_fit_empty : ids_fit ∅.
Proof. intros k v H. by rewrite lookup_empty in H. Qed.

Lemma ids_fit_insert (m : gmap N Voter) (k : N) (v : Voter) :
  ids_fit m → (k < 2 ^ 32)%N →
  Forall (λ pollID, (pollID < 2 ^ 32)%N) (pollIDs (VoteHistory v)) →
  ids_fit (<[k := v]> m).
Proof.
  intros Hm Hk Hv j x. rewrite lookup_insert.
  case_decide; [intros [= <-]; by subst | apply Hm].
Qed.

Lemma ids_fit_delete (m : gmap N Voter) (k : N) :
  ids_fit m → ids_fit (delete k m).
Proof.
  intros Hm j x. rewrite lookup_delete. case_decide; [done | apply Hm].
Qed.

Lemma handle_ids_fit (vc : VoterCache.VoterCache) (now : Time) (r : request) :
  keyed (VoterCache.redis vc) → ids_fit (VoterCache.redis vc) →
  ids_fit (VoterCache.redis (handle vc now r).1).
Proof.
  intros Hk Hfit.
  destruct r as [| |id|id bind|id bind| |id|id|id pid|id pid bind pf
                |id pid bind pf|id pid]; simpl; try done.
  - unfold VoterAPI.AddVoter.
    destruct (Strconv.ParseUint32 id) as [n|] eqn:Hn; [|done].
    destruct bind as [b|]; [|done].
    unfold VoterCache.AddVoter, VoterCache.GetVoter. simpl.
    destruct (VoterCache.redis vc !! n); simpl; [done|].
    apply ids_fit_insert; [done | by eapply ParseUint32_bound | constructor].
  - unfold VoterAPI.UpdateVoter.
    destruct (Strconv.ParseUint32 id) as [n|] eqn:Hn; [|done].
    destruct bind as [b|]; [|done].
    unfold VoterCache.UpdateVoter, VoterCache.GetVoter. simpl.
    destruct (VoterCache.redis vc !! n) as [e|] eqn:He; simpl; [|done].
    apply ids_fit_insert; [done | by eapply ParseUint32_bound|].
    simpl. by apply (Hfit _ _ He).
  - unfold VoterAPI.DeleteVoter.
    destruct (Strconv.ParseUint32 id) as [n|]; [|done].
    unfold VoterCache.DeleteVoter, VoterCache.GetVoter.
    destruct (VoterCache.redis vc !! n); simpl; [|done].
    by apply ids_fit_delete.
  - unfold VoterAPI.AddVoterPoll.
    destruct (Strconv.ParseUint32 id) as [n|] eqn:Hn; [|done].
    destruct (Strconv.ParseUint32 pid) as [p|] eqn:Hp; [|done].
    destruct bind as [b|]; [|done].
    unfold VoterCache.AddVoterPoll, VoterCache.GetVoter.
    destruct (VoterCache.redis vc !! n) as [v|] eqn:Hv; simpl; [|done].
    destruct (findPoll (VoteHistory v) p); simpl; [done|].
    rewrite (Hk _ _ Hv).
    apply ids_fit_insert; [done | by eapply ParseUint32_bound|].
    simpl. unfold pollIDs. rewrite map_app. apply Forall_app. split.
    + by apply (Hfit _ _ Hv).
    + constructor; [by eapply ParseUint32_bound | constructor].
  - unfold VoterAPI.UpdateVoterPoll.
    destruct (Strconv.ParseUint32 id) as [n|] eqn:Hn; [|done].
    destruct (Strconv.ParseUint32 pid) as [p|] eqn:Hp; [|done].
    destruct bind as [b|]; [|done].
    unfold VoterCache.UpdateVoterPoll, VoterCache.GetVoter.
    destruct (VoterCache.redis vc !! n) as [v|] eqn:Hv; simpl; [|done].
    pose proof (updateLoop_pollIDs (VoteHistory v) p (if pf then b else now))
      as Hids.
    destruct (updateLoop (VoteHistory v) p (if pf then b else now)) as [h' u].
    simpl in Hids. destruct (PollID u =? 0)%N; simpl; [done|].
    rewrite (Hk _ _ Hv).
    apply ids_fit_insert; [done | by eapply ParseUint32_bound|].
    simpl. rewrite Hids. by apply (Hfit _ _ Hv).
  - unfold VoterAPI.DeleteVoterPoll.
    destruct (Strconv.ParseUint32 id) as [n|] eqn:Hn; [|done].
    destruct (Strconv.ParseUint32 pid) as [p|] eqn:Hp; [|done].
    unfold VoterCache.DeleteVoterPoll, VoterCache.GetVoter.
    destruct (VoterCache.redis vc !! n) as [v|] eqn:Hv; simpl; [|done].
    destruct (length (removeLoop (VoteHistory v) p) =? length (VoteHistory v))%nat;
      simpl; [done|].
    rewrite (Hk _ _ Hv).
    apply ids_fit_insert; [done | by eapply ParseUint32_bound|].
    simpl. rewrite removeLoop_pollIDs. apply Forall_forall.
    intros x Hx. apply list_elem_of_filter in Hx as [_ Hx].
    destruct (Hfit _ _ Hv) as [_ Hall].
    by apply (proj1 (Forall_forall _ _) Hall).
Qed.

Lemma serve_invariants (reqs : list (Time * request)) :
  ∀ vc, keyed (VoterCache.redis vc) → unique_histories (VoterCache.redis vc) →
        ids_fit (VoterCache.redis vc) →
        keyed (VoterCache.redis (serve vc reqs))
        ∧ unique_histories (VoterCache.redis (serve vc reqs))
        ∧ ids_fit (VoterCache.redis (serve vc reqs)).
Proof.
  induction reqs as [|[now r] rest IH]; intros vc Hk Hu Hfit; [done|].
  simpl. apply IH.
  - destruct (handle_effect vc now r) as [->|(o & _ & ->)];
      [done | by apply keyed_applyCache].
  - destruct (handle_effect vc now r) as [->|(o & Ho & ->)];
      [done | by apply unique_applyCache].
  - by apply handle_ids_fit.
Qed.

(** X9: whatever requests the voter service has answered since its cache
    was empty, every voter is stored under its own id, every voter id and
    every poll id of a history fits 32 bits, and no history has two entries
    of one poll. *)
Theorem voter_service_invariants (reqs : list (Time * request)) :
  let vc := serve (VoterCache.mkVoterCache ∅) reqs in
  keyed (VoterCache.redis vc)
  ∧ unique_histories (VoterCache.redis vc)
  ∧ ids_fit (VoterCache.redis vc).
Proof.
  apply serve_invariants;
    [apply keyed_empty | apply unique_empty | apply ids_fit_empty].
Qed.

(** X10: a request to the voter service is answered 200, 400, 404 or 500,
    and whenever the answer is not 200 the cache is exactly as before. *)
Theorem voter_request_fails_without_effect
  (vc : VoterCache.VoterCache) (now : Time) (r : request) :
  VoterAPI.status (handle vc now r).2 = 200
  ∨ ((handle vc now r).1 = vc
     ∧ (VoterAPI.status (handle vc now r).2 = 400
        ∨ VoterAPI.status (handle vc now r).2 = 404
        ∨ VoterAPI.status (handle vc now r).2 = 500)).
Proof.
  destruct r as [| |id|id bind|id bind| |id|id|id pid|id pid bind pf
                |id pid bind pf|id pid]; simpl;
    try (by left);
    unfold VoterAPI.GetVoter, VoterAPI.AddVoter, VoterAPI.UpdateVoter,
      VoterAPI.DeleteVoter, VoterAPI.GetVoterHistory, GetVoterPoll,
      VoterAPI.AddVoterPoll, VoterAPI.UpdateVoterPoll,
      VoterAPI.DeleteVoterPoll,
      VoterCache.AddVoter, VoterCache.UpdateVoter, VoterCache.DeleteVoter,
      VoterCache.GetVoterHistory, VoterCache.GetVoterPoll,
      VoterCache.AddVoterPoll, VoterCache.UpdateVoterPoll,
      VoterCache.DeleteVoterPoll, VoterCache.GetVoter;
    repeat case_match; simplify_eq; simpl; auto 10.
Qed.

(** X11: a request whose voter id is not a decimal number of at most 32
    bits is answered 400 and leaves the cache alone, whichever handler it
    reaches and whatever else it carries. *)
Theorem voter_request_with_bad_id
  (vc : VoterCache.VoterCache) (now : Time) (r : request) (id : string) :
  path_id r = Some id →
  Strconv.ParseUint32 id = None →
  handle vc now r = (vc, VoterAPI.AbortWithStatus StatusBadRequest).
Proof.
  intros Hid Hbad.
  destruct r as [| |i|i bind|i bind| |i|i|i pid|i pid bind pf
                |i pid bind pf|i pid]; simpl in Hid; simplify_eq; simpl;
    unfold VoterAPI.GetVoter, VoterAPI.AddVoter, VoterAPI.UpdateVoter,
      VoterAPI.DeleteVoter, VoterAPI.GetVoterHistory, GetVoterPoll,
      VoterAPI.AddVoterPoll, VoterAPI.UpdateVoterPoll,
      VoterAPI.DeleteVoterPoll; by rewrite Hbad.
Qed.

Lemma voter_request_with_bad_id_witness :
  handle Scenario.voters 10
    (ReqUpdateVoter "4294967296" (Some (NewVoter 0 "Anish" "Patel")))
  = (Scenario.voters, VoterAPI.AbortWithStatus StatusBadRequest)
  ∧ handle Scenario.voters 10 (ReqDeleteVoterPoll "one" "1")
    = (Scenario.voters, VoterAPI.AbortWithStatus StatusBadRequest).
Proof.
  split.
  - exact (voter_request_with_bad_id Scenario.voters 10
             (ReqUpdateVoter "4294967296" (Some (NewVoter 0 "Anish" "Patel")))
             "4294967296" eq_refl eq_refl).
  - exact (voter_request_with_bad_id Scenario.voters 10
             (ReqDeleteVoterPoll "one" "1") "one" eq_refl eq_refl).
Defined.

End VoterService.

(** ** The votes service beyond the failing call *)
Section VotesService.
Import Http Votes VotesAPI Referenced.

(** An answered POST on the voter's history is the store's AddVoterPoll
    with the clock of the voter service; an answered DELETE is its
    DeleteVoterPoll. *)
Lemma postVoterPoll_answered (svc : Services) (voterID pollID : N)
  (voteDate voterNow : Time) :
  (voterID < 2 ^ 32)%N → (pollID < 2 ^ 32)%N →
  (postVoterPoll false svc voterID pollID voteDate voterNow).1
  = mkServices
      (VoterCache.AddVoterPoll (voterService svc) voterID pollID voterNow).1
      (pollService svc)
  ∧ is_Some (postVoterPoll false svc voterID pollID voteDate voterNow).2.
Proof.
  intros Hv Hp. unfold postVoterPoll, VoterAPI.AddVoterPoll.
  rewrite (ParseUint32_Itoa _ Hv), (ParseUint32_Itoa _ Hp).
  destruct (VoterCache.AddVoterPoll (voterService svc) voterID pollID voterNow)
    as [vc' [p|e]]; simpl; eauto.
Qed.

Lemma deleteVoterPoll_answered (svc : Services) (voterID pollID : N) :
  (voterID < 2 ^ 32)%N → (pollID < 2 ^ 32)%N →
  (deleteVoterPoll false svc voterID pollID).1
  = mkServices
      (VoterCache.DeleteVoterPoll (voterService svc) voterID pollID).1
      (pollService svc)
  ∧ is_Some (deleteVoterPoll false svc voterID pollID).2.
Proof.
  intros Hv Hp. unfold deleteVoterPoll, VoterAPI.DeleteVoterPoll.
  rewrite (ParseUint32_Itoa _ Hv), (ParseUint32_Itoa _ Hp).
  destruct (VoterCache.DeleteVoterPoll (voterService svc) voterID pollID)
    as [vc' [e|]]; simpl; eauto.
Qed.

(** X12: POST /votes/:id never changes or removes a vote that is stored:
    whatever the request and the network, every vote of the store before is
    in the store after. *)
Theorem AddVote_keeps_every_stored_vote
  (va : VotesAPI) (svc : Services) (env : Env) (id : string)
  (bind : option Vote) :
  redis (votesList va) ⊆ redis (votesList (AddVote va svc env id bind).1.1).
Proof.
  unfold AddVote, Votes.AddVote, Votes.GetVote.
  repeat case_match; simplify_eq; simpl; try done.
  all: by apply insert_subseteq.
Qed.

(** X13: POST /votes/:id with an id under which a vote is stored is
    answered 400, 404 or 409, and changes neither the vote store nor a
    voter's history, whatever the body and the network. *)
Theorem AddVote_with_used_id
  (va : VotesAPI) (svc : Services) (env : Env) (id : string)
  (bind : option Vote) (voteID : N) (stored : Vote) :
  Strconv.ParseUint32 id = Some voteID →
  redis (votesList va) !! voteID = Some stored →
  (AddVote va svc env id bind).1 = (va, svc)
  ∧ (status (AddVote va svc env id bind).2 = 400
     ∨ status (AddVote va svc env id bind).2 = 404
     ∨ status (AddVote va svc env id bind).2 = 409).
Proof.
  intros Hid Hstored. unfold AddVote, Votes.AddVote, Votes.GetVote.
  rewrite Hid. simpl. rewrite Hstored.
  repeat case_match; simplify_eq; simpl; auto.
Qed.

Lemma AddVote_with_used_id_witness :
  let first := AddVote Scenario.boot Scenario.services
                 (Scenario.at_ 10 Scenario.up) "1" (Some Scenario.vote111) in
  let again := AddVote first.1.1 first.1.2 (Scenario.at_ 20 Scenario.up) "1"
                 (Some (mkVote 0 2 1 2)) in
  again.1 = first.1 ∧ status again.2 = 409.
Proof.
  intros first again.
  destruct (AddVote_with_used_id first.1.1 first.1.2
              (Scenario.at_ 20 Scenario.up) "1" (Some (mkVote 0 2 1 2)) 1
              (stamped 1 Scenario.vote111) eq_refl eq_refl) as [Hsame _].
  split; [|reflexivity]. subst again. rewrite Hsame. by destruct (first.1).
Defined.

Section Accepted.
Variables (va : VotesAPI) (svc : Services) (env : Env) (id : string).
Variables (vote : Vote) (voteID : N) (voter : VoterData.Voter).
Variables (poll : Poll.Poll) (choice : Poll.pollOption).

Hypothesis net_up : net env = mkNet false false false false.
Hypothesis voters_keyed : VoterOps.keyed (VoterCache.redis (voterService svc)).
Hypothesis voters_fit : Boundary.ids_fit (VoterCache.redis (voterService svc)).
Hypothesis voter_stored :
  VoterCache.redis (voterService svc) !! VoterID vote = Some voter.
Hypothesis polls_are_keyed : polls_keyed (pollService svc).
Hypothesis poll_stored : Poll.redis (pollService svc) !! PollID vote = Some poll.
Hypothesis poll_fits : (PollID vote < 2 ^ 32)%N.
Hypothesis option_offered : choice ∈ Poll.PollOptions poll.
Hypothesis option_chosen : Poll.PollOptionID choice = VoteValue vote.
Hypothesis id_parses : Strconv.ParseUint32 id = Some voteID.
Hypothesis id_free : redis (votesList va) !! voteID = None.

(** With the voter, the poll and the option in place, a free vote id and a
    working network, the vote is stored and the voter service has run its
    AddVoterPoll. *)
Lemma AddVote_accepted :
  AddVote va svc env id (Some vote)
  = (setVotesList va
       (mkVotesCache (<[voteID := stamped voteID vote]> (redis (votesList va)))),
     mkServices
       (VoterCache.AddVoterPoll (voterService svc) (VoterID vote) (PollID vote)
          (voterNow env)).1
       (pollService svc),
     JSON StatusOK (VoteJSON (stamped voteID vote))).
Proof.
  unfold AddVote. rewrite net_up. cbn [getVotersErr getPollsErr postVoterPollErr].
  rewrite getVoters_answer, getPolls_answer.
  assert (voter_exists (voterService svc) (VoterID vote)) as Hex.
  { exists (VoterID vote), voter. split; [done|].
    exact (voters_keyed _ _ voter_stored). }
  apply foundVoterID_exists in Hex. rewrite Hex. simpl.
  pose proof (polls_are_keyed _ _ poll_stored) as Hpid.
  pose proof (findPollAndOption_keyed _ _ _ polls_are_keyed
                (eq_ind_r (λ k, Poll.redis (pollService svc) !! k = Some poll)
                   poll_stored Hpid) option_offered) as Hfind.
  rewrite Hpid, option_chosen in Hfind. rewrite Hfind. simpl.
  rewrite id_parses. unfold Votes.AddVote, Votes.GetVote. simpl.
  rewrite id_free. simpl.
  destruct (voters_fit _ _ voter_stored) as [Hvfit _].
  destruct (postVoterPoll_answered svc (VoterID vote) (PollID vote) (now env)
              (voterNow env) Hvfit poll_fits) as [Hsvc [st Hst]].
  unfold postVoterPoll in Hsvc, Hst. cbn [VoterID PollID].
  destruct (VoterAPI.AddVoterPoll (voterService svc)
              (Int.Itoa_of_uint (VoterID vote)) (Int.Itoa_of_uint (PollID vote))
              (Some (now env)) false (voterNow env)) as [vc' r].
  simpl in Hsvc. by rewrite Hsvc.
Qed.

(** X14: the first vote of a voter in a poll.  With the voter and the
    poll's option stored, a new vote id and every call answered, POST
    /votes/:id answers 200 with the vote, the vote is stored under the id of
    the path, and the voter's history has gained an entry of the poll, dated
    by the clock of the voter service. *)
Theorem AddVote_records_vote_and_history :
  PollID vote ∉ VoterData.pollIDs (VoterData.VoteHistory voter) →
  ∃ va' svc',
    AddVote va svc env id (Some vote)
    = (va', svc', JSON StatusOK (VoteJSON (stamped voteID vote)))
    ∧ Votes.GetVote (votesList va') voteID = Ok (stamped voteID vote)
    ∧ VoterCache.GetVoterHistory (voterService svc') (VoterID vote)
      = Ok (VoterData.VoteHistory voter
              ++ [VoterData.mkVoterPoll (PollID vote) (voterNow env)])
    ∧ pollService svc' = pollService svc.
Proof.
  intros Hnew. rewrite AddVote_accepted. eexists _, _.
  split; [reflexivity|]. simpl.
  unfold Votes.GetVote. simpl. rewrite lookup_insert_eq. split; [done|].
  destruct (AddVoterPoll_cache_new (voterService svc) (VoterID vote)
              (PollID vote) (voterNow env) voter voters_keyed voter_stored Hnew)
    as (vc' & Hadd & Hhist).
  rewrite Hadd. by split.
Qed.

(** X15: a further vote of a voter in a poll it has voted in.  Under the
    same conditions but with an entry of the poll already in the voter's
    history, POST /votes/:id still answers 200 and stores the vote, and the
    voter service is exactly as before: the refusal of the voter service is
    not looked at. *)
Theorem AddVote_of_a_voter_who_voted :
  PollID vote ∈ VoterData.pollIDs (VoterData.VoteHistory voter) →
  ∃ va',
    AddVote va svc env id (Some vote)
    = (va', svc, JSON StatusOK (VoteJSON (stamped voteID vote)))
    ∧ Votes.GetVote (votesList va') voteID = Ok (stamped voteID vote).
Proof.
  intros Hold. rewrite AddVote_accepted.
  rewrite (AddVoterPoll_cache_duplicate (voterService svc) (VoterID vote)
             (PollID vote) (voterNow env) voter voter_stored Hold).
  eexists. split; [by destruct svc|]. simpl.
  unfold Votes.GetVote. simpl. by rewrite lookup_insert_eq.
Qed.

End Accepted.

Lemma Scenario_voters_fit :
  VoterOps.keyed (VoterCache.redis Scenario.voters)
  ∧ Boundary.ids_fit (VoterCache.redis Scenario.voters).
Proof.
  destruct (serve_invariants
              [(0, VoterRequests.ReqAddVoter "1"
                     (Some (VoterData.NewVoter 0 "Nisarg" "Patel")));
               (0, VoterRequests.ReqAddVoter "2"
                     (Some (VoterData.NewVoter 0 "Avani" "Patel")))]
              (VoterCache.mkVoterCache ∅)
              keyed_empty unique_empty ids_fit_empty)
    as (Hk & _ & Hfit).
  split; [exact Hk | exact Hfit].
Qed.

Lemma Scenario_polls_keyed : polls_keyed Scenario.polls.
Proof.
  intros k poll H.
  change (Poll.redis Scenario.polls)
    with ({[1%N := Scenario.teaOrCoffee]} : gmap N Poll.Poll) in H.
  apply lookup_singleton_Some in H as [<- <-]. reflexivity.
Qed.

(** The first vote of the scenario, with every call answered. *)
Lemma AddVote_records_vote_and_history_witness :
  let out := AddVote Scenario.boot Scenario.services
               (Scenario.at_ 10 Scenario.up) "1" (Some Scenario.vote111) in
  status out.2 = 200
  ∧ VoterCache.GetVoterHistory (voterService out.1.2) 1
    = Ok [VoterData.mkVoterPoll 1 11].
Proof.
  intros out.
  destruct (AddVote_records_vote_and_history Scenario.boot Scenario.services
              (Scenario.at_ 10 Scenario.up) "1" Scenario.vote111 1
              (VoterData.NewVoter 1 "Nisarg" "Patel") Scenario.teaOrCoffee
              (Poll.mkPollOption 1 "Tea") eq_refl
              (proj1 Scenario_voters_fit) (proj2 Scenario_voters_fit) eq_refl
              Scenario_polls_keyed eq_refl eq_refl
              (list_elem_of_here _ _) eq_refl eq_refl eq_refl
              (not_elem_of_nil _))
    as (va' & svc' & Hrun & _ & Hhist & _).
  subst out. rewrite Hrun. split; [reflexivity | exact Hhist].
Defined.

(** Voter 1 votes in poll 1 again, under vote id 2. *)
Lemma AddVote_of_a_voter_who_voted_witness :
  let first := AddVote Scenario.boot Scenario.services
                 (Scenario.at_ 10 Scenario.up) "1" (Some Scenario.vote111) in
  let out := AddVote first.1.1 first.1.2
               (Scenario.at_ 20 Scenario.up) "2" (Some Scenario.vote111) in
  status out.2 = 200
  ∧ out.1.2 = first.1.2
  ∧ Votes.GetVote (votesList out.1.1) 2 = Ok (stamped 2 Scenario.vote111).
Proof.
  intros first out.
  destruct (serve_invariants
              [(0, VoterRequests.ReqAddVoter "1"
                     (Some (VoterData.NewVoter 0 "Nisarg" "Patel")));
               (0, VoterRequests.ReqAddVoter "2"
                     (Some (VoterData.NewVoter 0 "Avani" "Patel")));
               (11, VoterRequests.ReqAddVoterPoll "1" "1" (Some 10) false)]
              (VoterCache.mkVoterCache ∅)
              keyed_empty unique_empty ids_fit_empty)
    as (Hk & _ & Hfit).
  destruct (AddVote_of_a_voter_who_voted first.1.1 first.1.2
              (Scenario.at_ 20 Scenario.up) "2" Scenario.vote111 2
              (VoterData.mkVoter 1 "Nisarg" "Patel" [VoterData.mkVoterPoll 1 11])
              Scenario.teaOrCoffee (Poll.mkPollOption 1 "Tea") eq_refl
              Hk Hfit eq_refl Scenario_polls_keyed eq_refl eq_refl
              (list_elem_of_here _ _) eq_refl eq_refl eq_refl
              (list_elem_of_here _ _))
    as (va' & Hrun & Hget).
  subst out. rewrite Hrun. split; [reflexivity|]. split; [reflexivity|].
  exact Hget.
Defined.

(** X16: DELETE /votes/:id of a stored vote, with the call to the voter
    service answered, answers 200, removes the vote and no other, and has
    the voter service run DeleteVoterPoll for the vote's voter and poll:
    after it the voter has no history entry of that poll. *)
Theorem DeleteVote_removes_vote_and_history
  (va : VotesAPI) (svc : Services) (env : Env) (id : string) (voteID : N)
  (vote : Vote) :
  Strconv.ParseUint32 id = Some voteID →
  redis (votesList va) !! voteID = Some vote →
  deleteVoterPollErr (net env) = false →
  VoterOps.keyed (VoterCache.redis (voterService svc)) →
  (VoterID vote < 2 ^ 32)%N → (PollID vote < 2 ^ 32)%N →
  ∃ va' svc',
    DeleteVote va svc env id
    = (va', svc', JSON StatusOK (MessageJSON "Vote deleted successfully."))
    ∧ Votes.GetVote (votesList va') voteID = Err ErrVoteDoesNotExist
    ∧ (∀ k, k ≠ voteID →
            redis (votesList va') !! k = redis (votesList va) !! k)
    ∧ voterService svc'
      = (VoterCache.DeleteVoterPoll (voterService svc) (VoterID vote)
           (PollID vote)).1
    ∧ (∀ entry, VoterCache.GetVoterPoll (voterService svc') (VoterID vote)
                  (PollID vote) ≠ Ok entry)
    ∧ pollService svc' = pollService svc.
Proof.
  intros Hid Hvote Hnet Hk Hvfit Hpfit.
  unfold DeleteVote. rewrite Hid. unfold Votes.DeleteVote, Votes.GetVote.
  rewrite Hvote, Hnet.
  destruct (deleteVoterPoll_answered svc (VoterID vote) (PollID vote)
              Hvfit Hpfit) as [Hsvc _].
  unfold deleteVoterPoll in Hsvc |- *.
  destruct (VoterAPI.DeleteVoterPoll (voterService svc)
              (Int.Itoa_of_uint (VoterID vote)) (Int.Itoa_of_uint (PollID vote)))
    as [vc' r]. simpl in Hsvc. injection Hsvc as ->.
  eexists _, _. split; [reflexivity|]. simpl. unfold Votes.GetVote. simpl.
  rewrite lookup_delete_eq. split; [done|]. split.
  { intros k Hne. by rewrite lookup_delete_ne. }
  split; [done|]. split; [|done].
  intros entry.
  pose proof (DeleteVoterPoll_cache_any_poll (voterService svc) (VoterID vote)
                (PollID vote) Hk) as Hspec.
  destruct (VoterCache.redis (voterService svc) !! VoterID vote)
    as [voter|] eqn:Hv.
  - case_decide as Hin.
    + destruct Hspec as (vc'' & -> & Hgone). simpl. by rewrite Hgone.
    + rewrite Hspec. simpl.
      unfold VoterCache.GetVoterPoll, VoterCache.GetVoter. rewrite Hv.
      apply findPoll_None in Hin. by rewrite Hin.
  - rewrite Hspec. simpl.
    unfold VoterCache.GetVoterPoll, VoterCache.GetVoter. by rewrite Hv.
Qed.

(** Vote 1 of the scenario is cast and deleted again. *)
Lemma DeleteVote_removes_vote_and_history_witness :
  let stored := AddVote Scenario.boot Scenario.services
                  (Scenario.at_ 10 Scenario.up) "1" (Some Scenario.vote111) in
  let out := DeleteVote stored.1.1 stored.1.2 (Scenario.at_ 20 Scenario.up) "1" in
  status out.2 = 200
  ∧ Votes.GetVote (votesList out.1.1) 1 = Err ErrVoteDoesNotExist
  ∧ VoterCache.GetVoterHistory (voterService out.1.2) 1 = Ok [].
Proof.
  intros stored out.
  destruct (serve_invariants
              [(0, VoterRequests.ReqAddVoter "1"
                     (Some (VoterData.NewVoter 0 "Nisarg" "Patel")));
               (0, VoterRequests.ReqAddVoter "2"
                     (Some (VoterData.NewVoter 0 "Avani" "Patel")));
               (11, VoterRequests.ReqAddVoterPoll "1" "1" (Some 10) false)]
              (VoterCache.mkVoterCache ∅)
              keyed_empty unique_empty ids_fit_empty)
    as (Hk & _ & _).
  destruct (DeleteVote_removes_vote_and_history stored.1.1 stored.1.2
              (Scenario.at_ 20 Scenario.up) "1" 1 (stamped 1 Scenario.vote111)
              eq_refl eq_refl eq_refl Hk eq_refl eq_refl)
    as (va' & svc' & Hrun & Hget & _).
  subst out. rewrite Hrun. split; [reflexivity|]. split; [exact Hget|].
  rewrite <- Hrun. reflexivity.
Defined.


Lemma route_votes_keyed (va : VotesAPI) (svc : Services) (env : Env)
  (r : request) :
  (∀ k v, redis (votesList va) !! k = Some v → VoteID v = k) →
  ∀ k v, redis (votesList (route va svc env r).1.1) !! k = Some v →
         VoteID v = k.
Proof.
  intros Hkeyed k v.
  destruct r as [| |id|id bind|id|]; simpl; try apply Hkeyed.
  - unfold AddVote, Votes.AddVote, Votes.GetVote.
    repeat case_match; simplify_eq; simpl; try apply Hkeyed;
      (rewrite lookup_insert; case_decide;
       [by intros [= <-]; subst | apply Hkeyed]).
  - unfold DeleteVote, Votes.DeleteVote, Votes.GetVote.
    repeat case_match; simplify_eq; simpl; try apply Hkeyed;
      (rewrite lookup_delete; case_decide; [done | apply Hkeyed]).
Qed.

Lemma serve_votes_keyed (reqs : list (Env * request)) :
  ∀ va svc,
    (∀ k v, redis (votesList va) !! k = Some v → VoteID v = k) →
    ∀ k v, redis (votesList (serve va svc reqs).1.1) !! k = Some v →
           VoteID v = k.
Proof.
  induction reqs as [|[env r] rest IH]; intros va svc Hkeyed; [done|].
  simpl.
  pose proof (route_votes_keyed (incTotalCalls va) svc env r Hkeyed) as Hone.
  unfold HealthMiddleware.
  destruct (route (incTotalCalls va) svc env r) as [[va1 svc1] resp].
  simpl in Hone.
  specialize (IH (addRequestTime
                    (if 400 <=? status resp then incErrorCalls va1 else va1)
                    (elapsed env)) svc1).
  destruct (serve _ svc1 rest) as [[va2 svc2] resps]. simpl in *.
  apply IH. by destruct (400 <=? status resp).
Qed.

(** X18: whatever requests the votes service has answered since boot, a
    vote is stored under its own VoteID, and GET /votes returns every stored
    vote once: the VoteIDs of the list are distinct, and a vote is in the
    list exactly when GetVote returns it for its id. *)
Theorem votes_service_lists_each_vote_once
  (boot : Time) (svc : Services) (reqs : list (Env * request)) :
  let votes := votesList (serve (NewVotesHandler boot) svc reqs).1.1 in
  (∀ k vote, Votes.GetVote votes k = Ok vote → VoteID vote = k)
  ∧ NoDup (map VoteID (GetAllVotes votes))
  ∧ (∀ vote, vote ∈ GetAllVotes votes
             ↔ Votes.GetVote votes (VoteID vote) = Ok vote).
Proof.
  intros votes.
  assert (∀ k v, redis votes !! k = Some v → VoteID v = k) as Hkeyed.
  { apply serve_votes_keyed. intros k v H. simpl in H.
    by rewrite lookup_empty in H. }
  split; [|split].
  - intros k vote. unfold Votes.GetVote.
    destruct (redis votes !! k) as [v|] eqn:E; [|done].
    intros [= <-]. by apply Hkeyed.
  - unfold GetAllVotes.
    assert (map VoteID (map_to_list (redis votes)).*2
            = (map_to_list (redis votes)).*1) as ->.
    { rewrite <- list_fmap_compose. apply list_fmap_ext.
      intros i [k v] Hin. simpl.
      apply list_elem_of_lookup_2, elem_of_map_to_list in Hin.
      by apply Hkeyed. }
    apply NoDup_fst_map_to_list.
  - intros vote. unfold GetAllVotes, Votes.GetVote.
    rewrite list_elem_of_fmap. split.
    + intros [[k v] [-> Hin]]. apply elem_of_map_to_list in Hin. simpl.
      by rewrite (Hkeyed _ _ Hin), Hin.
    + destruct (redis votes !! VoteID vote) as [v|] eqn:E; [|done].
      intros [= ->]. exists (VoteID vote, vote). split; [done|].
      by apply elem_of_map_to_list.
Qed.

End VotesService.

(** ** The poll cache and its options *)
Section PollCacheContract.
Import Poll PollStore Referenced.

Lemma findOption_None (options : list pollOption) (optionID : N) :
  findOption options optionID = None ↔ optionID ∉ optionIDs options.
Proof.
  induction options as [|o rest IH]; simpl.
  - split; [intros _; apply not_elem_of_nil | done].
  - destruct (N.eqb_spec (PollOptionID o) optionID) as [Heq|Hne].
    + split; [done | intros Hn; exfalso; apply Hn; subst; left].
    + rewrite IH, not_elem_of_cons.
      split; [intros H; split; [congruence | done] | by intros [_ H]].
Qed.

Lemma findOption_Some (options : list pollOption) (optionID : N)
  (o : pollOption) :
  findOption options optionID = Some o → o ∈ options ∧ PollOptionID o = optionID.
Proof.
  induction options as [|p rest IH]; simpl; [done|].
  destruct (N.eqb_spec (PollOptionID p) optionID) as [Heq|Hne].
  - intros [= <-]. split; [left | done].
  - intros H. destruct (IH H) as [Hin Hid]. split; [by right | done].
Qed.

Lemma findOption_existsb (options : list pollOption) (optionID : N) :
  existsb (fun option => (PollOptionID option =? optionID)%N) options
  = match findOption options optionID with Some _ => true | None => false end.
Proof.
  induction options as [|o rest IH]; simpl; [done|].
  by destruct (PollOptionID o =? optionID)%N.
Qed.

Lemma findOption_app_new (options : list pollOption) (optionID : N)
  (text : string) :
  findOption options optionID = None →
  findOption (options ++ [mkPollOption optionID text]) optionID
  = Some (mkPollOption optionID text).
Proof.
  induction options as [|o rest IH]; simpl.
  - intros _. by rewrite N.eqb_refl.
  - destruct (PollOptionID o =? optionID)%N; [done | exact IH].
Qed.

Lemma removeOption_filter (options : list pollOption) (optionID : N) :
  removeOption options optionID
  = filter (λ o, PollOptionID o ≠ optionID) options.
Proof.
  induction options as [|o rest IH]; simpl; [done|].
  destruct (N.eqb_spec (PollOptionID o) optionID) as [Heq|Hne]; simpl.
  - rewrite filter_cons_False by (intros H; by apply H). exact IH.
  - rewrite filter_cons_True by done. by rewrite IH.
Qed.

Lemma removeOption_optionIDs (options : list pollOption) (optionID : N) :
  optionIDs (removeOption options optionID)
  = filter (λ i, i ≠ optionID) (optionIDs options).
Proof.
  induction options as [|o rest IH]; simpl; [done|].
  destruct (N.eqb_spec (PollOptionID o) optionID) as [Heq|Hne]; simpl.
  - rewrite filter_cons_False by (intros H; by apply H). exact IH.
  - rewrite filter_cons_True by done. simpl. by rewrite IH.
Qed.

Lemma removeOption_length (options : list pollOption) (optionID : N) :
  (length (removeOption options optionID) ≤ length options)%nat
  ∧ (length (removeOption options optionID) = length options
     ↔ optionID ∉ optionIDs options).
Proof.
  induction options as [|o rest [IHle IHeq]]; simpl.
  - split; [lia|]. split; [intros _; apply not_elem_of_nil | done].
  - destruct (N.eqb_spec (PollOptionID o) optionID) as [Heq|Hne]; simpl.
    + split; [lia|]. split; [lia|].
      intros Hn. exfalso. apply Hn. subst. left.
    + split; [lia|]. rewrite not_elem_of_cons.
      split; [intros H; split; [done|]; apply IHeq; lia
             | intros [_ H]; f_equal; by apply IHeq].
Qed.

Lemma findOption_removeOption_other (options : list pollOption)
  (optionID other : N) :
  other ≠ optionID →
  findOption (removeOption options optionID) other = findOption options other.
Proof.
  intros Hother. induction options as [|o rest IH]; simpl; [done|].
  destruct (N.eqb_spec (PollOptionID o) optionID) as [Heq|Hne]; simpl.
  - destruct (N.eqb_spec (PollOptionID o) other) as [?|_]; [congruence | exact IH].
  - destruct (PollOptionID o =? other)%N; [done | exact IH].
Qed.

Lemma polls_keyed_insert (m : gmap N Poll) (k : N) (poll : Poll) :
  polls_keyed (mkPollCache m) → PollID poll = k →
  polls_keyed (mkPollCache (<[k := poll]> m)).
Proof.
  intros Hk Hp j x. simpl. rewrite lookup_insert.
  case_decide; [intros [= <-]; congruence | apply Hk].
Qed.

Lemma unique_options_insert (m : gmap N Poll) (k : N) (poll : Poll) :
  unique_options (mkPollCache m) → NoDup (optionIDs (PollOptions poll)) →
  unique_options (mkPollCache (<[k := poll]> m)).
Proof.
  intros Hu Hp j x. simpl. rewrite lookup_insert.
  case_decide; [by intros [= <-] | apply Hu].
Qed.

Lemma apply_polls_keyed (pc : PollCache) (o : op) :
  polls_keyed pc → polls_keyed (apply pc o).
Proof.
  intros Hk. destruct pc as [m].
  destruct o as [poll| |id|id oid text|id oid]; simpl.
  - unfold AddPoll, GetPoll. simpl.
    destruct (m !! PollID poll); simpl; [done | by apply polls_keyed_insert].
  - intros k poll H. simpl in H. by rewrite lookup_empty in H.
  - unfold DeletePoll, GetPoll. simpl.
    destruct (m !! id); simpl; [|done].
    intros j x. simpl. rewrite lookup_delete. case_decide; [done | apply Hk].
  - unfold AddPollOption, GetPoll. simpl.
    destruct (m !! id) as [poll|] eqn:E; simpl; [|done].
    destruct (findOption (PollOptions poll) oid); simpl; [done|].
    by apply polls_keyed_insert.
  - unfold DeletePollOption, GetPoll. simpl.
    destruct (m !! id) as [poll|] eqn:E; simpl; [|done].
    destruct (length (removeOption (PollOptions poll) oid)
              =? length (PollOptions poll))%nat; simpl; [done|].
    by apply polls_keyed_insert.
Qed.

Lemma apply_unique_options (pc : PollCache) (o : op) :
  admissible o → unique_options pc → unique_options (apply pc o).
Proof.
  intros Ha Hu. destruct pc as [m].
  destruct o as [poll| |id|id oid text|id oid]; simpl.
  - unfold AddPoll, GetPoll. simpl.
    destruct (m !! PollID poll); simpl; [done | by apply unique_options_insert].
  - intros k poll H. simpl in H. by rewrite lookup_empty in H.
  - unfold DeletePoll, GetPoll. simpl.
    destruct (m !! id); simpl; [|done].
    intros j x. simpl. rewrite lookup_delete. case_decide; [done | apply Hu].
  - unfold AddPollOption, GetPoll. simpl.
    destruct (m !! id) as [poll|] eqn:E; simpl; [|done].
    destruct (findOption (PollOptions poll) oid) eqn:F; simpl; [done|].
    apply unique_options_insert; [done|]. simpl.
    unfold optionIDs. rewrite map_app. simpl. apply NoDup_app.
    split; [exact (Hu _ _ E)|]. split; [|apply NoDup_singleton].
    intros x Hx Hx'. apply list_elem_of_singleton in Hx'. subst x.
    by apply findOption_None in F.
  - unfold DeletePollOption, GetPoll. simpl.
    destruct (m !! id) as [poll|] eqn:E; simpl; [|done].
    destruct (length (removeOption (PollOptions poll) oid)
              =? length (PollOptions poll))%nat; simpl; [done|].
    apply unique_options_insert; [done|]. simpl.
    rewrite removeOption_optionIDs. apply NoDup_filter. exact (Hu _ _ E).
Qed.

(** X19: in every poll cache reached from the empty one by operations whose
    added polls bring options with distinct ids (a poll of NewPoll brings
    none), every poll is stored under its own id and PollOptionID is unique
    within every poll. *)
Theorem poll_cache_invariants (ops : list op) :
  Forall admissible ops →
  polls_keyed (run ops) ∧ unique_options (run ops).
Proof.
  unfold run. induction ops as [|o ops IH] using rev_ind; intros Ha.
  - split; intros k poll H; simpl in H; by rewrite lookup_empty in H.
  - apply Forall_app in Ha as [Hops Ho]. rewrite Forall_singleton in Ho.
    destruct (IH Hops) as [Hk Hu]. rewrite fold_left_app. cbn [fold_left].
    split; [by apply apply_polls_keyed | by apply apply_unique_options].
Qed.

Lemma poll_cache_invariants_witness :
  let ops := [OpAddPoll (NewPoll 1 "Tea or Coffee" "Do you like Tea or Coffee?");
              OpAddPollOption 1 1 "Tea"; OpAddPollOption 1 2 "Coffee";
              OpAddPollOption 1 2 "Cocoa"] in
  Forall admissible ops
  ∧ run ops = Scenario.polls
  ∧ polls_keyed (run ops) ∧ unique_options (run ops).
Proof.
  intros ops.
  assert (Forall admissible ops) as Ha by (repeat constructor).
  split; [exact Ha|]. split; [reflexivity|].
  exact (poll_cache_invariants ops Ha).
Defined.

(** X20: in a cache where every poll is stored under its id, AddPollOption
    refuses an option id the poll already has and changes nothing;
    otherwise the option is appended to the poll's options, GetPollOption
    returns it, and every other poll is as before. *)
Theorem AddPollOption_appends_or_refuses
  (pc : PollCache) (pollID optionID : N) (text : string) (poll : Poll) :
  polls_keyed pc →
  redis pc !! pollID = Some poll →
  if decide (optionID ∈ optionIDs (PollOptions poll))
  then AddPollOption pc pollID optionID text
       = (pc, Err ErrPollOptionAlreadyInPoll)
  else ∃ pc',
      AddPollOption pc pollID optionID text
      = (pc', Ok (mkPollOption optionID text))
      ∧ GetPollOptions pc' pollID
        = Ok (PollOptions poll ++ [mkPollOption optionID text])
      ∧ GetPollOption pc' pollID optionID = Ok (mkPollOption optionID text)
      ∧ (∀ k, k ≠ pollID → redis pc' !! k = redis pc !! k).
Proof.
  intros Hk Hp. unfold AddPollOption, GetPoll. rewrite Hp.
  case_decide as Hin.
  - destruct (findOption (PollOptions poll) optionID) eqn:F; [done|].
    by apply findOption_None in F.
  - apply findOption_None in Hin. rewrite Hin.
    eexists. split; [reflexivity|].
    unfold GetPollOptions, GetPollOption, GetPoll. simpl.
    rewrite (Hk _ _ Hp), lookup_insert_eq. simpl.
    rewrite (findOption_app_new _ _ text Hin). repeat split.
    intros k Hne. by rewrite lookup_insert_ne.
Qed.

Lemma AddPollOption_appends_or_refuses_witness :
  (AddPollOption Scenario.polls 1 2 "Cocoa").2 = Err ErrPollOptionAlreadyInPoll
  ∧ GetPollOptions (AddPollOption Scenario.polls 1 3 "Cocoa").1 1
    = Ok [mkPollOption 1 "Tea"; mkPollOption 2 "Coffee"; mkPollOption 3 "Cocoa"].
Proof.
  assert (polls_keyed Scenario.polls) as Hk.
  { intros k poll H.
    change (redis Scenario.polls)
      with ({[1%N := Scenario.teaOrCoffee]} : gmap N Poll) in H.
    apply lookup_singleton_Some in H as [<- <-]. reflexivity. }
  split.
  - pose proof (AddPollOption_appends_or_refuses Scenario.polls 1 2 "Cocoa"
                  Scenario.teaOrCoffee Hk eq_refl) as H.
    simpl in H. by rewrite H.
  - pose proof (AddPollOption_appends_or_refuses Scenario.polls 1 3 "Cocoa"
                  Scenario.teaOrCoffee Hk eq_refl) as H.
    simpl in H. destruct H as (pc' & Hadd & Hopts & _).
    rewrite Hadd. exact Hopts.
Defined.

(** X21: in a cache where every poll is stored under its id,
    DeletePollOption fails with "poll option not found" exactly when the
    poll has no option of the id; otherwise the poll keeps its other
    options, in their order, and every other poll is as before. *)
Theorem DeletePollOption_keeps_the_other_options
  (pc : PollCache) (pollID optionID : N) (poll : Poll) :
  polls_keyed pc →
  redis pc !! pollID = Some poll →
  if decide (optionID ∈ optionIDs (PollOptions poll))
  then ∃ pc',
      DeletePollOption pc pollID optionID = (pc', None)
      ∧ GetPollOptions pc' pollID
        = Ok (filter (λ o, PollOptionID o ≠ optionID) (PollOptions poll))
      ∧ GetPollOption pc' pollID optionID = Err ErrPollOptionNotFound
      ∧ (∀ other, other ≠ optionID →
           GetPollOption pc' pollID other = GetPollOption pc pollID other)
      ∧ (∀ k, k ≠ pollID → redis pc' !! k = redis pc !! k)
  else DeletePollOption pc pollID optionID = (pc, Some ErrPollOptionNotFound).
Proof.
  intros Hk Hp. unfold DeletePollOption, GetPoll. rewrite Hp.
  destruct (removeOption_length (PollOptions poll) optionID) as [_ Hlen].
  destruct (Nat.eqb_spec (length (removeOption (PollOptions poll) optionID))
              (length (PollOptions poll))) as [Heq|Hne];
    case_decide as Hin; try done.
  - by apply Hlen in Heq.
  - eexists. split; [reflexivity|].
    unfold GetPollOptions, GetPollOption, GetPoll. simpl.
    rewrite (Hk _ _ Hp), lookup_insert_eq, Hp. simpl.
    split; [by rewrite removeOption_filter|]. split.
    + assert (optionID ∉ optionIDs (removeOption (PollOptions poll) optionID))
        as Hgone.
      { rewrite removeOption_optionIDs, list_elem_of_filter.
        intros [H _]. by apply H. }
      apply findOption_None in Hgone. by rewrite Hgone.
    + split.
      * intros other Hother. by rewrite findOption_removeOption_other.
      * intros k Hk'. by rewrite lookup_insert_ne.
  - by apply Hlen in Hin.
Qed.

Lemma DeletePollOption_keeps_the_other_options_witness :
  GetPollOptions (DeletePollOption Scenario.polls 1 1).1 1
  = Ok [mkPollOption 2 "Coffee"].
Proof.
  assert (polls_keyed Scenario.polls) as Hk.
  { intros k poll H.
    change (redis Scenario.polls)
      with ({[1%N := Scenario.teaOrCoffee]} : gmap N Poll) in H.
    apply lookup_singleton_Some in H as [<- <-]. reflexivity. }
  pose proof (DeletePollOption_keeps_the_other_options Scenario.polls 1 1
                Scenario.teaOrCoffee Hk eq_refl) as H.
  simpl in H. destruct H as (pc' & Hdel & Hopts & _).
  rewrite Hdel. exact Hopts.
Defined.

(** X22: POST /polls/:id answers 400 when the id or the body does not
    parse, 500 when a poll of the id is stored, and changes nothing in both
    cases; otherwise it answers 200 and stores [NewPoll] of the id, the
    title and the question: the options of the body are dropped and the
    new poll has none. *)
Theorem AddPoll_stores_a_poll_without_options
  (pc : PollCache) (id : string) (bind : option Poll) :
  match Strconv.ParseUint32 id, bind with
  | Some pollID, Some bodyPoll =>
      match redis pc !! pollID with
      | Some _ =>
          PollAPI.AddPoll pc id bind
          = (pc, PollAPI.AbortWithStatus Http.StatusInternalServerError)
      | None =>
          ∃ pc',
            PollAPI.AddPoll pc id bind
            = (pc', PollAPI.JSON Http.StatusOK
                      (PollAPI.PollJSON
                         (NewPoll pollID (PollTitle bodyPoll)
                            (PollQuestion bodyPoll))))
            ∧ GetPoll pc' pollID
              = Ok (NewPoll pollID (PollTitle bodyPoll) (PollQuestion bodyPoll))
            ∧ GetPollOptions pc' pollID = Ok []
            ∧ (∀ optionID, GetPollOption pc' pollID optionID
                           = Err ErrPollOptionNotFound)
      end
  | _, _ =>
      PollAPI.AddPoll pc id bind
      = (pc, PollAPI.AbortWithStatus Http.StatusBadRequest)
  end.
Proof.
  unfold PollAPI.AddPoll.
  destruct (Strconv.ParseUint32 id) as [pollID|]; [|done].
  destruct bind as [bodyPoll|]; [|done].
  unfold AddPoll, GetPoll. simpl.
  destruct (redis pc !! pollID) eqn:E; [done|].
  eexists. split; [reflexivity|].
  unfold GetPollOptions, GetPollOption, GetPoll. simpl.
  by rewrite lookup_insert_eq.
Qed.

(** X23: over a cache where every poll is stored under its id, the poll
    loop of the vote workflow finds the poll exactly when GetPoll does, and
    the option exactly when GetPollOption does. *)
Theorem vote_check_agrees_with_poll_cache
  (pc : PollCache) (pollID optionID : N) :
  polls_keyed pc →
  VotesAPI.findPollAndOption (GetAllPolls pc) pollID optionID
  = (match GetPoll pc pollID with Ok _ => true | Err _ => false end,
     match GetPollOption pc pollID optionID with
     | Ok _ => true
     | Err _ => false
     end).
Proof.
  intros Hk. unfold GetPollOption, GetPoll.
  destruct (redis pc !! pollID) as [poll|] eqn:Hp.
  - destruct (VotesAPI.findPollAndOption (GetAllPolls pc) pollID optionID)
      as [[|] o] eqn:E.
    + destruct (findPollAndOption_found (GetAllPolls pc) pollID optionID)
        as (p' & Hin & Hid & Hopt); [by rewrite E|].
      apply elem_of_GetAllPolls in Hin as [k' Hk'].
      pose proof (Hk _ _ Hk') as Hkey. rewrite Hid in Hkey. subst k'.
      rewrite Hp in Hk'. injection Hk' as <-.
      rewrite E in Hopt. simpl in Hopt. rewrite Hopt, findOption_existsb.
      by destruct (findOption (PollOptions poll) optionID).
    + exfalso.
      eapply (findPollAndOption_no_poll (GetAllPolls pc) pollID optionID);
        [by rewrite E| |exact (Hk _ _ Hp)].
      apply elem_of_GetAllPolls. eauto.
  - destruct (VotesAPI.findPollAndOption (GetAllPolls pc) pollID optionID)
      as [[|] o] eqn:E.
    + destruct (findPollAndOption_found (GetAllPolls pc) pollID optionID)
        as (p' & Hin & Hid & _); [by rewrite E|].
      apply elem_of_GetAllPolls in Hin as [k' Hk'].
      pose proof (Hk _ _ Hk') as Hkey. rewrite Hid in Hkey. subst k'.
      by rewrite Hp in Hk'.
    + f_equal. clear Hp Hk.
      induction (GetAllPolls pc) as [|p rest IH]; simpl in E; [by inversion E|].
      destruct (PollID p =? pollID)%N; [done | by apply IH].
Qed.

Lemma vote_check_agrees_with_poll_cache_witness :
  VotesAPI.findPollAndOption (GetAllPolls Scenario.polls) 1 3 = (true, false)
  ∧ VotesAPI.findPollAndOption (GetAllPolls Scenario.polls) 2 1 = (false, false).
Proof.
  assert (polls_keyed Scenario.polls) as Hk.
  { intros k poll H.
    change (redis Scenario.polls)
      with ({[1%N := Scenario.teaOrCoffee]} : gmap N Poll) in H.
    apply lookup_singleton_Some in H as [<- <-]. reflexivity. }
  split.
  - exact (vote_check_agrees_with_poll_cache Scenario.polls 1 3 Hk).
  - exact (vote_check_agrees_with_poll_cache Scenario.polls 2 1 Hk).
Defined.

End PollCacheContract.

(** ** The to-do store and its file *)
Section TodoFile.
Import Todo TodoOps.

Lemma putAll_union (l : list ToDoItem) (m0 : gmap Z ToDoItem) :
  putAll m0 l = putAll ∅ l ∪ m0.
Proof.
  unfold putAll. revert m0. induction l as [|x l IH]; intros m0; simpl.
  - by rewrite (left_id_L ∅ (∪)).
  - rewrite (IH (<[Id x := x]> m0)), (IH (<[Id x := x]> ∅)).
    rewrite insert_empty, (insert_union_singleton_l m0).
    by rewrite (assoc_L (∪)).
Qed.

Lemma putAll_keyed (l : list ToDoItem) (m0 : gmap Z ToDoItem) :
  keyed m0 → keyed (putAll m0 l).
Proof.
  unfold putAll. revert m0.
  induction l as [|x l IH]; intros m0 Hk; simpl; [done|].
  apply IH. intros k item. rewrite lookup_insert.
  case_decide; [by intros [= <-] | apply Hk].
Qed.

Lemma putAll_notin (l : list ToDoItem) (m0 : gmap Z ToDoItem) (k : Z) :
  k ∉ ids l → putAll m0 l !! k = m0 !! k.
Proof.
  unfold putAll. revert m0.
  induction l as [|x l IH]; intros m0 Hk; simpl; [done|].
  simpl in Hk. apply not_elem_of_cons in Hk as [Hne Hk].
  by rewrite IH, lookup_insert_ne.
Qed.

Lemma putAll_in (l : list ToDoItem) (m0 : gmap Z ToDoItem) (item : ToDoItem) :
  NoDup (ids l) → item ∈ l → putAll m0 l !! Id item = Some item.
Proof.
  revert m0. induction l as [|x l IH]; intros m0 Hnd Hin.
  - by apply elem_of_nil in Hin.
  - simpl in Hnd. apply NoDup_cons in Hnd as [Hx Hnd].
    change (putAll m0 (x :: l)) with (putAll (<[Id x := x]> m0) l).
    apply elem_of_cons in Hin as [->|Hin].
    + by rewrite putAll_notin, lookup_insert_eq.
    + by apply IH.
Qed.

Lemma keyed_empty_map : keyed (∅ : gmap Z ToDoItem).
Proof. intros k item H. by rewrite lookup_empty in H. Qed.

Lemma saved_ids (m : gmap Z ToDoItem) :
  keyed m → ids (map_to_list m).*2 = (map_to_list m).*1.
Proof.
  intros Hk. unfold ids.
  assert (∀ p, p ∈ map_to_list m → Id p.2 = p.1) as Hall.
  { intros [k item] Hp. apply elem_of_map_to_list in Hp. exact (Hk _ _ Hp). }
  induction (map_to_list m) as [|p rest IH]; simpl; [done|].
  rewrite (Hall p) by left. f_equal. apply IH.
  intros q Hq. apply Hall. by right.
Qed.

Lemma putAll_saved (m : gmap Z ToDoItem) :
  keyed m → putAll ∅ (map_to_list m).*2 = m.
Proof.
  intros Hk. apply map_eq. intros k.
  assert (NoDup (ids (map_to_list m).*2)) as Hnd
    by (rewrite saved_ids by done; apply NoDup_fst_map_to_list).
  destruct (m !! k) as [item|] eqn:E.
  - rewrite <- (Hk _ _ E). apply putAll_in; [done|].
    apply list_elem_of_fmap. exists (k, item). split; [done|].
    by apply elem_of_map_to_list.
  - rewrite putAll_notin; [apply lookup_empty|].
    rewrite saved_ids by done. intros Hin.
    apply list_elem_of_fmap in Hin as ([k' item] & -> & Hin).
    apply elem_of_map_to_list in Hin. simpl in E. congruence.
Qed.

Lemma seen_Items (dbFile : string) (l : list ToDoItem) :
  seen_by_new_process dbFile (Items l) = putAll ∅ l.
Proof. reflexivity. Qed.

Lemma seen_saved (dbFile : string) (t : ToDo) (disk : file) :
  keyed (toDoMap t) → seen_by_new_process dbFile (saveDB t disk) = toDoMap t.
Proof. intros Hk. unfold saveDB. rewrite seen_Items. by apply putAll_saved. Qed.

Lemma seen_keyed (dbFile : string) (disk : file) :
  keyed (seen_by_new_process dbFile disk).
Proof.
  destruct disk as [| |l]; try apply keyed_empty_map.
  rewrite seen_Items. apply putAll_keyed, keyed_empty_map.
Qed.

Lemma loadDB_Items (dbFile : string) (t : ToDo) (l : list ToDoItem) :
  loadDB t (Items l)
  = (setMap t (seen_by_new_process dbFile (Items l) ∪ toDoMap t), None).
Proof.
  unfold loadDB, setMap.
  change (fold_left _ l (toDoMap t)) with (putAll (toDoMap t) l).
  by rewrite (putAll_union l (toDoMap t)), seen_Items.
Qed.

Lemma merged_keyed (dbFile : string) (t : ToDo) (disk : file) :
  keyed (toDoMap t) →
  keyed (seen_by_new_process dbFile disk ∪ toDoMap t).
Proof.
  intros Hk k item H. apply lookup_union_Some_raw in H as [H|[_ H]].
  - exact (seen_keyed dbFile disk _ _ H).
  - exact (Hk _ _ H).
Qed.

(** X24: loadDB puts the items of the file into the map the struct already
    holds: an item of the file replaces the one in memory of the same id,
    and every other item in memory stays, also one the file no longer has.
    When the file cannot be read the map stays as it is. *)
Theorem loadDB_merges_file_into_memory
  (dbFile : string) (t : ToDo) (disk : file) :
  held t disk = seen_by_new_process dbFile disk ∪ toDoMap t
  ∧ dbFileName (loadDB t disk).1 = dbFileName t.
Proof.
  destruct disk as [| |l].
  - split; [|done]. simpl.
    change (seen_by_new_process dbFile Missing) with (∅ : gmap Z ToDoItem).
    by rewrite (left_id_L ∅ (∪)).
  - split; [|done]. simpl.
    change (seen_by_new_process dbFile Unreadable) with (∅ : gmap Z ToDoItem).
    by rewrite (left_id_L ∅ (∪)).
  - unfold held. by rewrite (loadDB_Items dbFile).
Qed.

Lemma loadDB_synced (dbFile : string) (s : ToDo * file) :
  synced dbFile s → loadDB s.1 s.2 = (s.1, None).
Proof.
  intros (_ & (l & Hl & _) & Hseen). rewrite Hl in *.
  rewrite (loadDB_Items dbFile), Hseen, (idemp_L (∪)).
  by destruct s as [[m name] disk].
Qed.

Lemma saved_synced (dbFile : string) (t : ToDo) (disk : file) :
  keyed (toDoMap t) → synced dbFile (t, saveDB t disk).
Proof.
  intros Hk. split; [done|]. split.
  - eexists. split; [reflexivity|]. rewrite saved_ids by done.
    apply NoDup_fst_map_to_list.
  - by apply seen_saved.
Qed.

Lemma todo_keyed_insert (m : gmap Z ToDoItem) (item : ToDoItem) :
  keyed m → keyed (<[Id item := item]> m).
Proof.
  intros Hk k x. rewrite lookup_insert.
  case_decide; [by intros [= <-] | apply Hk].
Qed.

Lemma todo_keyed_delete (m : gmap Z ToDoItem) (id : Z) :
  keyed m → keyed (delete id m).
Proof.
  intros Hk k x. rewrite lookup_delete. case_decide; [done | apply Hk].
Qed.

Lemma apply_synced (dbFile : string) (s : ToDo * file) (o : op) :
  synced dbFile s → synced dbFile (apply s o).
Proof.
  intros Hs. pose proof (loadDB_synced dbFile s Hs) as Hload.
  pose proof Hs as (Hk & _ & _).
  destruct o as [item|id|item|id| |id value]; simpl.
  - unfold AddItem. rewrite Hload.
    destruct (toDoMap s.1 !! Id item); simpl; [by destruct s|].
    apply saved_synced. by apply todo_keyed_insert.
  - unfold DeleteItem. rewrite Hload.
    destruct (toDoMap s.1 !! id); simpl; [|by destruct s].
    apply saved_synced. by apply todo_keyed_delete.
  - unfold UpdateItem. rewrite Hload.
    destruct (toDoMap s.1 !! Id item); simpl; [|by destruct s].
    apply saved_synced. by apply todo_keyed_insert.
  - unfold GetItem. rewrite Hload.
    destruct (toDoMap s.1 !! id); simpl; by destruct s.
  - unfold GetAllItems. rewrite Hload. simpl. by destruct s.
  - unfold ChangeItemDoneStatus, GetItem. rewrite Hload.
    destruct (toDoMap s.1 !! id) as [item|] eqn:E; simpl; [|by destruct s].
    unfold UpdateItem. rewrite Hload. cbn [Id].
    destruct (toDoMap s.1 !! Id item); simpl; [|by destruct s].
    apply saved_synced. by apply (todo_keyed_insert _ (mkToDoItem _ _ _)).
Qed.

(** X25: while one struct is the only writer of its file, after any
    sequence of operations every item in memory is stored under its id, the
    file holds a list of items with distinct ids, and a new process reading
    the file sees the map the struct holds. *)
Theorem todo_file_holds_the_map
  (dbFile : string) (fileExists : bool) (ops : list op) :
  keyed (toDoMap (run dbFile fileExists ops).1)
  ∧ (∃ l, (run dbFile fileExists ops).2 = Items l ∧ NoDup (ids l))
  ∧ seen_by_new_process dbFile (run dbFile fileExists ops).2
    = toDoMap (run dbFile fileExists ops).1.
Proof.
  change (synced dbFile (run dbFile fileExists ops)).
  unfold run. induction ops as [|o ops IH] using rev_ind.
  - destruct fileExists; simpl; (split; [apply keyed_empty_map|]);
      (split; [exists []; split; [done | apply NoDup_nil_2] | done]).
  - rewrite fold_left_app. cbn [fold_left]. by apply apply_synced.
Qed.

Lemma reload_saved (dbFile : string) (t : ToDo) (disk : file)
  (m : gmap Z ToDoItem) :
  keyed m →
  loadDB (setMap t m) (saveDB (setMap t m) disk) = (setMap t m, None).
Proof.
  intros Hk.
  exact (loadDB_synced dbFile (setMap t m, saveDB (setMap t m) disk)
           (saved_synced dbFile (setMap t m) disk Hk)).
Qed.

Section Readable.
Variables (dbFile : string) (t : ToDo) (l : list ToDoItem).
Hypothesis memory_keyed : keyed (toDoMap t).

Lemma loadDB_held : loadDB t (Items l) = (setMap t (held t (Items l)), None).
Proof. reflexivity. Qed.

Lemma held_keyed : keyed (held t (Items l)).
Proof.
  unfold held. rewrite (loadDB_Items dbFile). by apply merged_keyed.
Qed.

Lemma held_again (m : gmap Z ToDoItem) :
  m = held t (Items l) → loadDB (setMap t m) (Items l) = (setMap t m, None).
Proof.
  intros ->. unfold held. rewrite !(loadDB_Items dbFile).
  cbn [toDoMap setMap dbFileName fst].
  by rewrite (assoc_L (∪)), (idemp_L (∪)).
Qed.

(** X26: on a readable file, and with every item in memory stored under its
    id, AddItem refuses an id the struct holds after loading (from the file
    or from memory) and leaves the file as it is; otherwise it succeeds, a
    new process reading the file sees the held items and the new one, and
    GetItem returns the item as it was given. *)
Theorem AddItem_adds_or_refuses (item : ToDoItem) :
  match held t (Items l) !! Id item with
  | Some _ =>
      AddItem t (Items l) item
      = (setMap t (held t (Items l)), Items l, Some ErrItemAlreadyExists)
  | None =>
      (AddItem t (Items l) item).2 = None
      ∧ seen_by_new_process dbFile (AddItem t (Items l) item).1.2
        = <[Id item := item]> (held t (Items l))
      ∧ (GetItem (AddItem t (Items l) item).1.1
           (AddItem t (Items l) item).1.2 (Id item)).2 = Ok item
  end.
Proof.
  unfold AddItem. rewrite loadDB_held. cbn [toDoMap setMap].
  destruct (held t (Items l) !! Id item) eqn:E; [done|]. cbn [fst snd].
  pose proof (todo_keyed_insert _ item held_keyed) as Hk.
  split; [done|]. split; [by apply seen_saved|].
  unfold GetItem. rewrite (reload_saved dbFile _ _ _ Hk). simpl.
  by rewrite lookup_insert_eq.
Qed.

(** X27: on a readable file, and with every item in memory stored under its
    id, DeleteItem fails for an id the struct does not hold after loading
    and leaves the file as it is; otherwise it succeeds, a new process
    reading the file sees the held items without that one, and GetItem of
    the id then fails. *)
Theorem DeleteItem_removes_or_refuses (id : Z) :
  match held t (Items l) !! id with
  | None =>
      DeleteItem t (Items l) id
      = (setMap t (held t (Items l)), Items l, Some ErrItemDoesNotExist)
  | Some _ =>
      (DeleteItem t (Items l) id).2 = None
      ∧ seen_by_new_process dbFile (DeleteItem t (Items l) id).1.2
        = delete id (held t (Items l))
      ∧ (GetItem (DeleteItem t (Items l) id).1.1
           (DeleteItem t (Items l) id).1.2 id).2 = Err ErrItemDoesNotExist
  end.
Proof.
  unfold DeleteItem. rewrite loadDB_held. cbn [toDoMap setMap].
  destruct (held t (Items l) !! id) eqn:E; [|done]. cbn [fst snd].
  pose proof (todo_keyed_delete _ id held_keyed) as Hk.
  split; [done|]. split; [by apply seen_saved|].
  unfold GetItem. rewrite (reload_saved dbFile _ _ _ Hk). simpl.
  by rewrite lookup_delete_eq.
Qed.

Lemma ChangeItemDoneStatus_held (id : Z) (value : bool) :
  ChangeItemDoneStatus t (Items l) id value
  = match held t (Items l) !! id with
    | None => (setMap t (held t (Items l)), Items l, Some ErrItemDoesNotExist)
    | Some item =>
        let t' :=
          setMap t (<[id := mkToDoItem id (Title item) value]>
                      (held t (Items l))) in
        (t', saveDB t' (Items l), None)
    end.
Proof.
  unfold ChangeItemDoneStatus, GetItem.
  rewrite loadDB_held. cbn [toDoMap setMap].
  destruct (held t (Items l) !! id) as [item|] eqn:E; [|done].
  pose proof (held_keyed _ _ E) as Hid.
  unfold UpdateItem. cbn [Id dbFileName].
  change (mkToDo (held t (Items l)) (dbFileName t))
    with (setMap t (held t (Items l))).
  rewrite (held_again _ eq_refl).
  cbn [toDoMap setMap dbFileName]. by rewrite Hid, E.
Qed.

(** X28: on a readable file, and with every item in memory stored under its
    id, ChangeItemDoneStatus fails for an id the struct does not hold after
    loading and leaves the file as it is; otherwise it succeeds, the item
    keeps its id and title and takes the given status, in the file and in
    the answer of GetItem, and every other item is as before. *)
Theorem ChangeItemDoneStatus_sets_the_status (id : Z) (value : bool) :
  match held t (Items l) !! id with
  | None =>
      ChangeItemDoneStatus t (Items l) id value
      = (setMap t (held t (Items l)), Items l, Some ErrItemDoesNotExist)
  | Some item =>
      (ChangeItemDoneStatus t (Items l) id value).2 = None
      ∧ seen_by_new_process dbFile
          (ChangeItemDoneStatus t (Items l) id value).1.2
        = <[id := mkToDoItem id (Title item) value]> (held t (Items l))
      ∧ (GetItem (ChangeItemDoneStatus t (Items l) id value).1.1
           (ChangeItemDoneStatus t (Items l) id value).1.2 id).2
        = Ok (mkToDoItem id (Title item) value)
  end.
Proof.
  rewrite ChangeItemDoneStatus_held.
  destruct (held t (Items l) !! id) as [item|] eqn:E; [|done].
  cbn zeta. cbn [fst snd].
  pose proof (todo_keyed_insert _ (mkToDoItem id (Title item) value) held_keyed)
    as Hk. cbn [Id] in Hk.
  split; [done|]. split; [by apply seen_saved|].
  unfold GetItem. rewrite (reload_saved dbFile _ _ _ Hk). simpl.
  by rewrite lookup_insert_eq.
Qed.

End Readable.

Lemma AddItem_adds_or_refuses_witness :
  AddItem (New "todo.json" Missing).1 (Items [mkToDoItem 1 "one" false])
    (mkToDoItem 1 "uno" true)
  = (setMap (New "todo.json" Missing).1
       (held (New "todo.json" Missing).1 (Items [mkToDoItem 1 "one" false])),
     Items [mkToDoItem 1 "one" false], Some ErrItemAlreadyExists).
Proof.
  exact (AddItem_adds_or_refuses "todo.json" (New "todo.json" Missing).1
           [mkToDoItem 1 "one" false] keyed_empty_map
           (mkToDoItem 1 "uno" true)).
Defined.

Lemma DeleteItem_removes_or_refuses_witness :
  DeleteItem (New "todo.json" Missing).1 (Items [mkToDoItem 1 "one" false]) 2
  = (setMap (New "todo.json" Missing).1
       (held (New "todo.json" Missing).1 (Items [mkToDoItem 1 "one" false])),
     Items [mkToDoItem 1 "one" false], Some ErrItemDoesNotExist).
Proof.
  exact (DeleteItem_removes_or_refuses "todo.json" (New "todo.json" Missing).1
           [mkToDoItem 1 "one" false] keyed_empty_map 2).
Defined.

Lemma ChangeItemDoneStatus_sets_the_status_witness :
  (GetItem
     (ChangeItemDoneStatus (New "todo.json" Missing).1
        (Items [mkToDoItem 1 "one" false]) 1 true).1.1
     (ChangeItemDoneStatus (New "todo.json" Missing).1
        (Items [mkToDoItem 1 "one" false]) 1 true).1.2 1).2
  = Ok (mkToDoItem 1 "one" true).
Proof.
  exact (proj2 (proj2
           (ChangeItemDoneStatus_sets_the_status "todo.json"
              (New "todo.json" Missing).1 [mkToDoItem 1 "one" false]
              keyed_empty_map 1 true))).
Defined.

End TodoFile.
